(** * A/B test calculator: the statistics engine, embedded and verified

    The TypeScript sources compute on JavaScript numbers.  They are embedded
    here over [JS.num]: a real number, or one of the three special values
    [+Infinity], [-Infinity] and [NaN], with the arithmetic, the comparisons
    and the [Math] functions following ECMAScript on the special values
    (division by zero, [Math.log(0)], [Math.sqrt] of a negative number,
    comparisons with [NaN], ...).  On finite values the operations are the
    exact real ones: rounding to binary64, overflow and the sign of zero are
    abstracted away.  Statements are kept to what rounding does not change
    (non-strict bounds, sign symmetries, exact dyadic values); where one
    binary64 fact is needed, [Binary64] holds the same source text over the
    kernel's binary64 numbers.

    Layout:
    - [JS]            numbers and the [Math] object;
    - [Stats]         utils/statisticalCalculations;
    - [Designer]      components/ExperimentDesigner;
    - [PowerAnalysis] components/PowerAnalysisCalculator;
    - [Sequential]    components/SequentialTestingCalculator;
    - [Significance]  components/SignificanceTestCalculator;
    - [Spec]          the vocabulary of the specification;
    - [Binary64]      the O'Brien-Fleming bound over binary64 numbers;
    then the theorems, one group per component of the specification. *)

From stdpp Require Import base gmap strings pretty.
From Stdlib Require Import Reals Lra Lia ZArith Bool.
From Stdlib Require PrimFloat.
From Equations.Prop Require Import Equations Logic.

Set Default Proof Using "Type".

(* ================================================================= *)
(** * JavaScript numbers *)

Module JS.

Inductive num : Type :=
| Fin (r : R)
| PInf
| NInf
| NaN.

Coercion Fin : R >-> num.

Definition Rltb (a b : R) : bool := if Rlt_dec a b then true else false.
Definition Rleb (a b : R) : bool := if Rle_dec a b then true else false.
Definition Reqb (a b : R) : bool := if Req_dec_T a b then true else false.

(** The infinity carrying the sign of [a]; [NaN] when [a] is zero
    ([0 * Infinity], [0 / 0]). *)
Definition inf_signed (a : R) : num :=
  if Rlt_dec 0 a then PInf else if Rlt_dec a 0 then NInf else NaN.

Definition neg (x : num) : num :=
  match x with
  | Fin r => Fin (- r)
  | PInf => NInf
  | NInf => PInf
  | NaN => NaN
  end.

Definition add (x y : num) : num :=
  match x, y with
  | NaN, _ => NaN
  | _, NaN => NaN
  | Fin a, Fin b => Fin (a + b)
  | Fin _, PInf => PInf
  | Fin _, NInf => NInf
  | PInf, NInf => NaN
  | PInf, _ => PInf
  | NInf, PInf => NaN
  | NInf, _ => NInf
  end.

Definition sub (x y : num) : num := add x (neg y).

Definition mul (x y : num) : num :=
  match x, y with
  | NaN, _ => NaN
  | _, NaN => NaN
  | Fin a, Fin b => Fin (a * b)
  | Fin a, PInf => inf_signed a
  | Fin a, NInf => neg (inf_signed a)
  | PInf, Fin b => inf_signed b
  | NInf, Fin b => neg (inf_signed b)
  | PInf, PInf => PInf
  | PInf, NInf => NInf
  | NInf, PInf => NInf
  | NInf, NInf => PInf
  end.

(** Division.  A zero divisor stands for [+0]: [a / 0] is the infinity of the
    sign of [a], and [0 / 0] is [NaN]. *)
Definition div (x y : num) : num :=
  match x, y with
  | NaN, _ => NaN
  | _, NaN => NaN
  | Fin a, Fin b => if Req_dec_T b 0 then inf_signed a else Fin (a / b)
  | Fin _, _ => Fin 0
  | PInf, Fin b => if Rlt_dec b 0 then NInf else PInf
  | NInf, Fin b => if Rlt_dec b 0 then PInf else NInf
  | _, _ => NaN
  end.

(** [x < y], [x <= y] and [x === y]; every comparison with [NaN] is false. *)
Definition lt (x y : num) : bool :=
  match x, y with
  | NaN, _ => false
  | _, NaN => false
  | Fin a, Fin b => Rltb a b
  | NInf, NInf => false
  | NInf, _ => true
  | Fin _, PInf => true
  | _, _ => false
  end.

Definition eq (x y : num) : bool :=
  match x, y with
  | Fin a, Fin b => Reqb a b
  | PInf, PInf => true
  | NInf, NInf => true
  | _, _ => false
  end.

Definition le (x y : num) : bool := lt x y || eq x y.
Definition gt (x y : num) : bool := lt y x.
Definition ge (x y : num) : bool := le y x.

(** The integer part of a real, rounding towards zero. *)
Definition trunc (r : R) : Z := if Rlt_dec r 0 then Zceil r else Zfloor r.

(** [x % y]: the remainder of the truncated division, which has the sign of
    [x]; [NaN] for an infinite [x] and for a zero [y], and [x] for an
    infinite [y]. *)
Definition rem (x y : num) : num :=
  match x, y with
  | Fin a, Fin b => if Req_dec_T b 0 then NaN else Fin (a - b * IZR (trunc (a / b)))
  | Fin a, PInf => Fin a
  | Fin a, NInf => Fin a
  | _, _ => NaN
  end.

End JS.

Declare Scope num_scope.
Delimit Scope num_scope with js.
Bind Scope num_scope with JS.num.
Notation "x + y" := (JS.add x y) : num_scope.
Notation "x - y" := (JS.sub x y) : num_scope.
Notation "x * y" := (JS.mul x y) : num_scope.
Notation "x / y" := (JS.div x y) : num_scope.
Notation "- x" := (JS.neg x) : num_scope.
Notation "x <? y" := (JS.lt x y) : num_scope.
Notation "x <=? y" := (JS.le x y) : num_scope.
Notation "x >? y" := (JS.gt x y) : num_scope.
Notation "x >=? y" := (JS.ge x y) : num_scope.
Notation "x === y" := (JS.eq x y) (at level 70, no associativity) : num_scope.

(* ================================================================= *)
(** * The [Math] object *)

Module Math.
Import JS.

Definition abs (x : num) : num :=
  match x with
  | Fin r => Fin (Rabs r)
  | PInf | NInf => PInf
  | NaN => NaN
  end.

Definition sqrt (x : num) : num :=
  match x with
  | Fin r => if Rlt_dec r 0 then NaN else Fin (R_sqrt.sqrt r)
  | PInf => PInf
  | NInf | NaN => NaN
  end.

Definition log (x : num) : num :=
  match x with
  | Fin r =>
      if Rlt_dec r 0 then NaN
      else if Req_dec_T r 0 then NInf
      else Fin (ln r)
  | PInf => PInf
  | NInf | NaN => NaN
  end.

Definition exp (x : num) : num :=
  match x with
  | Fin r => Fin (Rtrigo_def.exp r)
  | PInf => PInf
  | NInf => Fin 0
  | NaN => NaN
  end.

Definition asin (x : num) : num :=
  match x with
  | Fin r => if Rle_dec (Rabs r) 1 then Fin (Ratan.asin r) else NaN
  | _ => NaN
  end.

Definition ceil (x : num) : num :=
  match x with
  | Fin r => Fin (IZR (Zceil r))
  | _ => x
  end.

Definition max (x y : num) : num :=
  match x, y with
  | NaN, _ => NaN
  | _, NaN => NaN
  | _, _ => if lt x y then y else x
  end.

Definition min (x y : num) : num :=
  match x, y with
  | NaN, _ => NaN
  | _, NaN => NaN
  | _, _ => if lt y x then y else x
  end.

(** [is_int e]: the real [e] is an integer; [is_odd e]: it is an odd one. *)
Definition is_int (e : R) : bool := Reqb (IZR (Zfloor e)) e.
Definition is_odd (e : R) : bool := is_int e && Z.odd (Zfloor e).

(** [Math.pow], after ECMAScript's Number::exponentiate. *)
Definition pow (base exponent : num) : num :=
  match exponent with
  | NaN => NaN
  | PInf =>
      match base with
      | NaN => NaN
      | Fin b =>
          if Rlt_dec 1 (Rabs b) then PInf
          else if Req_dec_T (Rabs b) 1 then NaN else Fin 0
      | _ => PInf
      end
  | NInf =>
      match base with
      | NaN => NaN
      | Fin b =>
          if Rlt_dec 1 (Rabs b) then Fin 0
          else if Req_dec_T (Rabs b) 1 then NaN else PInf
      | _ => Fin 0
      end
  | Fin e =>
      if Req_dec_T e 0 then Fin 1
      else
        match base with
        | NaN => NaN
        | PInf => if Rlt_dec 0 e then PInf else Fin 0
        | NInf =>
            if Rlt_dec 0 e then (if is_odd e then NInf else PInf) else Fin 0
        | Fin b =>
            if Req_dec_T b 0 then (if Rlt_dec 0 e then Fin 0 else PInf)
            else if Rlt_dec 0 b then Fin (Rpower b e)
            else if is_int e then Fin (powerRZ b (Zfloor e))
            else NaN
        end
  end.

Definition floor (x : num) : num :=
  match x with
  | Fin r => Fin (IZR (Zfloor r))
  | _ => x
  end.

Definition sin (x : num) : num :=
  match x with
  | Fin r => Fin (Rtrigo_def.sin r)
  | _ => NaN
  end.

Definition PI : num := Fin Rtrigo1.PI.

End Math.

Open Scope R_scope.
Open Scope num_scope.

(* ================================================================= *)
(** * utils/statisticalCalculations *)

Module Stats.
Import JS.

Definition a : list num :=
  [Fin 0; Fin (-3.969683028665376e+01); Fin 2.209460984245205e+02;
   Fin (-2.759285104469687e+02); Fin 1.383577518672690e+02;
   Fin (-3.066479806614716e+01); Fin 2.506628277459239e+00].
Definition b : list num :=
  [Fin 0; Fin (-5.447609879822406e+01); Fin 1.615858368580409e+02;
   Fin (-1.556989798598866e+02); Fin 6.680131188771972e+01;
   Fin (-1.328068155288572e+01)].
Definition c : list num :=
  [Fin 0; Fin (-7.784894002430293e-03); Fin (-3.223964580411365e-01);
   Fin (-2.400758277161838e+00); Fin (-2.549732539343734e+00);
   Fin 4.374664141464968e+00; Fin 2.938163982698783e+00].
Definition d : list num :=
  [Fin 0; Fin 7.784695709041462e-03; Fin 3.224671290700398e-01;
   Fin 2.445134137142996e+00; Fin 3.754408661907416e+00].

(** [arr[i]]; reading past the end of a JavaScript array gives [undefined],
    which arithmetic turns into [NaN]. *)
Definition idx (arr : list num) (i : nat) : num := nth i arr NaN.

Definition pLow : num := Fin 0.02425.
Definition pHigh : num := Fin 1 - pLow.

Definition normalInverse (p : num) : num :=
  if p <? pLow then
    let q := Math.sqrt (Fin (-2) * Math.log p) in
    (((((idx c 1 * q + idx c 2) * q + idx c 3) * q + idx c 4) * q + idx c 5) * q + idx c 6)
    / ((((idx d 1 * q + idx d 2) * q + idx d 3) * q + idx d 4) * q + Fin 1)
  else if p <=? pHigh then
    let q := p - Fin 0.5 in
    let r := q * q in
    (((((idx a 1 * r + idx a 2) * r + idx a 3) * r + idx a 4) * r + idx a 5) * r + idx a 6) * q
    / (((((idx b 1 * r + idx b 2) * r + idx b 3) * r + idx b 4) * r + idx b 5) * r + Fin 1)
  else
    let q := Math.sqrt (Fin (-2) * Math.log (Fin 1 - p)) in
    - (((((idx c 1 * q + idx c 2) * q + idx c 3) * q + idx c 4) * q + idx c 5) * q + idx c 6)
    / ((((idx d 1 * q + idx d 2) * q + idx d 3) * q + idx d 4) * q + Fin 1).

Definition erf (x : num) : num :=
  let a1 := Fin 0.254829592 in
  let a2 := Fin (-0.284496736) in
  let a3 := Fin 1.421413741 in
  let a4 := Fin (-1.453152027) in
  let a5 := Fin 1.061405429 in
  let p := Fin 0.3275911 in
  let sign := if x >=? Fin 0 then Fin 1 else Fin (-1) in
  let x := Math.abs x in
  let t := Fin 1.0 / (Fin 1.0 + p * x) in
  let y := Fin 1.0 - (((((a5 * t + a4) * t) + a3) * t + a2) * t + a1) * t * Math.exp (- x * x) in
  sign * y.

Definition normalCDF (x : num) : num :=
  Fin 0.5 * (Fin 1 + erf (x / Math.sqrt (Fin 2))).

Definition calculateSampleSize (baselineRate effectSize power alpha : num) : num :=
  let p1 := baselineRate / Fin 100 in
  let p2 := p1 * (Fin 1 + effectSize / Fin 100) in
  let z_alpha := Fin 1.96 in
  let z_beta :=
    if power === Fin 80 then Fin 0.84
    else if power === Fin 90 then Fin 1.28 else Fin 0.67 in
  let pooledP := (p1 + p2) / Fin 2 in
  let n :=
    Math.pow (z_alpha * Math.sqrt (Fin 2 * pooledP * (Fin 1 - pooledP))
              + z_beta * Math.sqrt (p1 * (Fin 1 - p1) + p2 * (Fin 1 - p2))) (Fin 2)
    / Math.pow (p2 - p1) (Fin 2) in
  Math.ceil n.

Definition calculateBonferroniAdjustment (numComparisons alpha : num) : num :=
  alpha / numComparisons.

End Stats.

(* ================================================================= *)
(** * types/experiment and components/ExperimentDesigner *)

Module Designer.
Import JS.

Record ExperimentVariant : Type := {
  id : string;
  name : string;
  description : string;
  trafficAllocation : num;
  expectedConversionRate : num;
  isControl : bool
}.

Record Segmentation : Type := {
  enabled : bool;
  segments : list string
}.

Record ExperimentConfig : Type := {
  cfg_name : string;
  cfg_description : string;
  hypothesis : string;
  primaryMetric : string;
  secondaryMetrics : list string;
  variants : list ExperimentVariant;
  totalTrafficAllocation : num;
  minimumDetectableEffect : num;
  power : num;
  significance : num;
  estimatedDuration : num;
  segmentation : Segmentation;
  successCriteria : string
}.

Record DesignAnalysis : Type := {
  totalSampleSize : num;
  sampleSizePerVariant : gmap string num;
  expectedDuration : num;
  powerAnalysis : gmap string num;
  multipleComparisonsAdjustment : num;
  estimatedCost : num
}.

(** [arr.length] as a number. *)
Definition length_num {A : Type} (l : list A) : num := Fin (INR (length l)).

(** The three variables the [forEach] callback of [performDesignAnalysis]
    assigns to. *)
Record Accumulator : Type := {
  acc_sampleSizePerVariant : gmap string num;
  acc_powerAnalysis : gmap string num;
  acc_maxSampleSize : num
}.

(** [obj[key] = value] on a plain object that holds numbers.  The key
    ["__proto__"] names the accessor of [Object.prototype], whose setter
    ignores a value that is not an object: nothing is stored under it. *)
Definition assign (key : string) (value : num) (obj : gmap string num)
    : gmap string num :=
  if String.eqb key "__proto__" then obj else <[key := value]> obj.

(** One call of the [forEach] callback. *)
Definition forEach_step (config : ExperimentConfig) (controlVariant : ExperimentVariant)
    (adjustedAlpha : num) (acc : Accumulator) (variant : ExperimentVariant) : Accumulator :=
  let effectSize :=
    ((expectedConversionRate variant - expectedConversionRate controlVariant)
     / expectedConversionRate controlVariant) * Fin 100 in
  let sampleSize :=
    Stats.calculateSampleSize (expectedConversionRate controlVariant)
      (Math.abs effectSize) (power config) adjustedAlpha in
  {| acc_sampleSizePerVariant :=
       assign (id controlVariant) sampleSize
         (assign (id variant) sampleSize (acc_sampleSizePerVariant acc));
     acc_powerAnalysis := assign (id variant) (power config) (acc_powerAnalysis acc);
     acc_maxSampleSize := Math.max (acc_maxSampleSize acc) sampleSize |}.

Definition performDesignAnalysis (config : ExperimentConfig)
    (dailyTraffic costPerVisitor : num) : DesignAnalysis :=
  let controlVariant := List.find isControl (variants config) in
  let treatmentVariants := List.filter (fun v => negb (isControl v)) (variants config) in
  match controlVariant with
  | None =>
      {| totalSampleSize := Fin 0;
         sampleSizePerVariant := ∅;
         expectedDuration := Fin 0;
         powerAnalysis := ∅;
         multipleComparisonsAdjustment := Fin 0;
         estimatedCost := Fin 0 |}
  | Some controlVariant =>
      let alpha := (Fin 100 - significance config) / Fin 100 in
      let numComparisons := length_num treatmentVariants in
      let adjustedAlpha := Stats.calculateBonferroniAdjustment numComparisons alpha in
      let acc :=
        fold_left (forEach_step config controlVariant adjustedAlpha) treatmentVariants
          {| acc_sampleSizePerVariant := ∅;
             acc_powerAnalysis := ∅;
             acc_maxSampleSize := Fin 0 |} in
      let totalSampleSize := acc_maxSampleSize acc * length_num (variants config) in
      let adjustedTotalSample :=
        totalSampleSize / (totalTrafficAllocation config / Fin 100) in
      let expectedDuration := Math.ceil (adjustedTotalSample / dailyTraffic) in
      let estimatedCost := adjustedTotalSample * costPerVisitor in
      {| totalSampleSize := adjustedTotalSample;
         sampleSizePerVariant := acc_sampleSizePerVariant acc;
         expectedDuration := expectedDuration;
         powerAnalysis := acc_powerAnalysis acc;
         multipleComparisonsAdjustment := adjustedAlpha;
         estimatedCost := estimatedCost |}
  end.

(** The effect that recomputes [totalTrafficAllocation] from the variants. *)
Definition totalAllocation (vs : list ExperimentVariant) : num :=
  fold_left (fun sum v => sum + trafficAllocation v) vs (Fin 0).

(** constants/experimentDefaults *)
Definition DEFAULT_EXPERIMENT_CONFIG : ExperimentConfig := {|
  cfg_name := "";
  cfg_description := "";
  hypothesis := "";
  primaryMetric := "conversion_rate";
  secondaryMetrics := [];
  variants :=
    [ {| id := "control"; name := "Control (A)"; description := "Current version";
         trafficAllocation := Fin 50; expectedConversionRate := Fin 5;
         isControl := true |};
      {| id := "treatment"; name := "Treatment (B)"; description := "New version";
         trafficAllocation := Fin 50; expectedConversionRate := Fin 6;
         isControl := false |} ];
  totalTrafficAllocation := Fin 100;
  minimumDetectableEffect := Fin 20;
  power := Fin 80;
  significance := Fin 95;
  estimatedDuration := Fin 14;
  segmentation := {| enabled := false; segments := [] |};
  successCriteria := ""
|}.

End Designer.

(* ================================================================= *)
(** * components/PowerAnalysisCalculator *)

Module PowerAnalysis.
Import JS.

(** The component's state that the solver reads. *)
Record State : Type := {
  baselineRate : num;
  testType : string
}.

(** The component's own [normalInverse], [erf] and [normalCDF] have the text
    of the ones in utils/statisticalCalculations. *)
Definition normalInverse : num -> num := Stats.normalInverse.
Definition erf : num -> num := Stats.erf.
Definition normalCDF (x : num) : num :=
  Fin 0.5 * (Fin 1 + erf (x / Math.sqrt (Fin 2))).

Definition calculatePower (st : State) (n effect alpha : num) : num :=
  let p1 := baselineRate st / Fin 100 in
  let p2 := p1 * (Fin 1 + effect / Fin 100) in
  let pooledP := (p1 + p2) / Fin 2 in
  let se := Math.sqrt (pooledP * (Fin 1 - pooledP) * (Fin 2 / n)) in
  let z_alpha :=
    normalInverse
      (Fin 1 - alpha / (if String.eqb (testType st) "two-tailed" then Fin 2 else Fin 1)) in
  let z_beta :=
    (Math.abs (p2 - p1) - z_alpha * se)
    / Math.sqrt ((p1 * (Fin 1 - p1) + p2 * (Fin 1 - p2)) / n) in
  normalCDF z_beta * Fin 100.

Definition calculateSampleSize (st : State) (targetPower effect alpha : num) : num :=
  let p1 := baselineRate st / Fin 100 in
  let p2 := p1 * (Fin 1 + effect / Fin 100) in
  let z_alpha :=
    normalInverse
      (Fin 1 - alpha / (if String.eqb (testType st) "two-tailed" then Fin 2 else Fin 1)) in
  let z_beta := normalInverse (targetPower / Fin 100) in
  let numerator :=
    Math.pow (z_alpha * Math.sqrt (Fin 2 * p1 * (Fin 1 - p1))
              + z_beta * Math.sqrt (p1 * (Fin 1 - p1) + p2 * (Fin 1 - p2))) (Fin 2) in
  let denominator := Math.pow (p2 - p1) (Fin 2) in
  Math.ceil (numerator / denominator).

(** The local variables of [calculateMinimumEffect]. *)
Record Bracket : Type := {
  minEffect : num;
  maxEffect : num;
  iterations : nat
}.

Definition maxIterations : nat := 50.

(** The loop condition [maxEffect - minEffect > 0.1 && iterations < maxIterations]. *)
Definition loop_cond (s : Bracket) : bool :=
  (maxEffect s - minEffect s >? Fin 0.1) && (iterations s <? maxIterations)%nat.

(** The loop body. *)
Definition loop_body (st : State) (n targetPower alpha : num) (s : Bracket) : Bracket :=
  let midEffect := (minEffect s + maxEffect s) / Fin 2 in
  let calculatedPower := calculatePower st n midEffect alpha in
  if calculatedPower <? targetPower then
    {| minEffect := midEffect; maxEffect := maxEffect s; iterations := S (iterations s) |}
  else
    {| minEffect := minEffect s; maxEffect := midEffect; iterations := S (iterations s) |}.

(** The [while] loop.  It is defined by recursion on what is left of the
    iteration budget, [maxIterations - iterations], which the loop condition
    keeps positive and the body decreases. *)
Equations? while_loop (st : State) (n targetPower alpha : num) (s : Bracket) : Bracket
  by wf (maxIterations - iterations s)%nat Nat.lt :=
  while_loop st n targetPower alpha s with inspect (loop_cond s) := {
    | exist _ true Hcond =>
        while_loop st n targetPower alpha (loop_body st n targetPower alpha s);
    | exist _ false _ => s }.
Proof.
  unfold loop_cond in Hcond.
  apply andb_prop in Hcond as [_ Hlt].
  apply Nat.ltb_lt in Hlt.
  unfold Nat.lt, maxIterations in *.
  unfold loop_body; destruct (JS.lt _ _); simpl; lia.
Qed.

Definition calculateMinimumEffect (st : State) (n targetPower alpha : num) : num :=
  let s :=
    while_loop st n targetPower alpha
      {| minEffect := Fin 1; maxEffect := Fin 100; iterations := 0 |} in
  (minEffect s + maxEffect s) / Fin 2.

End PowerAnalysis.

(* ================================================================= *)
(** * components/SequentialTestingCalculator *)

Module Sequential.
Import JS.

Record SequentialBounds : Type := {
  upper : num;
  lower : num;
  futility : num
}.

Inductive Recommendation : Type :=
| continue
| stop_success
| stop_futility
| stop_harm.

Record BoundaryPoint : Type := {
  bp_n : num;
  upperBound : num;
  lowerBound : num;
  futilityBound : num;
  zScore : option num
}.

Record SequentialResult : Type := {
  currentZ : num;
  currentP : num;
  bounds : SequentialBounds;
  recommendation : Recommendation;
  probabilityOfSuccess : num;
  expectedSampleSize : num;
  boundaryHistory : list BoundaryPoint
}.

(** The component's state. *)
Record State : Type := {
  currentSampleSize : num;
  maxSampleSize : num;
  controlConversions : num;
  treatmentConversions : num;
  alpha : num;
  beta : num;
  minimumEffect : num;
  enableFutility : bool;
  enableHarm : bool;
  boundaryType : string
}.

Definition getOBrienFlemingBound (t alpha : num) : num :=
  Math.sqrt (Fin (-2) * Math.log (alpha / Fin 2)) / Math.sqrt t.

Definition getPocockBound (alpha maxAnalyses : num) : num :=
  let c := Fin 2.024 in
  c.

Definition normalInverse (p : num) : num :=
  let a := Stats.a in
  let b := Stats.b in
  if p <=? Fin 0 then NInf
  else if p >=? Fin 1 then PInf
  else if p === Fin 0.5 then Fin 0
  else
    let sign := if p <? Fin 0.5 then Fin (-1) else Fin 1 in
    let r := if p <? Fin 0.5 then p else Fin 1 - p in
    let t := Math.sqrt (Fin (-2) * Math.log r) in
    let x :=
      t - ((Stats.idx a 2 + Stats.idx a 1 * t)
           / (Fin 1 + Stats.idx b 1 * t + Stats.idx b 2 * t * t)) in
    sign * x.

Definition getWangTsiatiBound (t alpha delta : num) : num :=
  let phi := normalInverse (Fin 1 - alpha / Fin 2) in
  phi * Math.pow t (delta - Fin 0.5).

Definition erf : num -> num := Stats.erf.

Definition normalCDF (x : num) : num :=
  Fin 0.5 * (Fin 1 + erf (x / Math.sqrt (Fin 2))).

Definition calculateSequentialBounds (st : State) (n nMax : num) : SequentialBounds :=
  let t := n / nMax in
  let upperBound :=
    if String.eqb (boundaryType st) "obrien-fleming" then getOBrienFlemingBound t (alpha st)
    else if String.eqb (boundaryType st) "pocock" then getPocockBound (alpha st) (Fin 5)
    else if String.eqb (boundaryType st) "wang-tsiatis" then
      getWangTsiatiBound t (alpha st) (Fin 0.25)
    else normalInverse (Fin 1 - alpha st / Fin 2) in
  let lowerBound := - upperBound in
  let futilityBound := if enableFutility st then normalInverse (beta st) else NInf in
  {| upper := upperBound; lower := lowerBound; futility := futilityBound |}.

Definition calculateCurrentZScore (st : State) : num :=
  let n := currentSampleSize st / Fin 2 in
  let pControl := controlConversions st / n in
  let pTreatment := treatmentConversions st / n in
  let pooledP := (controlConversions st + treatmentConversions st) / currentSampleSize st in
  let se := Math.sqrt (pooledP * (Fin 1 - pooledP) * (Fin 2 / n)) in
  if se === Fin 0 then Fin 0
  else (pTreatment - pControl) / se.

Definition calculateProbabilityOfSuccess (st : State) (currentZ : num)
    (bounds : SequentialBounds) : num :=
  let remainingInformation := Fin 1 - (currentSampleSize st / maxSampleSize st) in
  let drift := currentZ * Math.sqrt (currentSampleSize st / maxSampleSize st) in
  if remainingInformation <=? Fin 0 then
    (if currentZ >? upper bounds then Fin 1 else Fin 0)
  else
    let adjustedUpperBound := upper bounds * Math.sqrt (Fin 1 - remainingInformation) in
    let adjustedZ := currentZ + drift * Math.sqrt remainingInformation in
    Fin 1 - normalCDF (adjustedUpperBound - adjustedZ).

Definition steps : nat := 20.

Definition generateBoundaryHistory (st : State) : list BoundaryPoint :=
  List.map
    (fun i : nat =>
       let n := (maxSampleSize st * Fin (INR i)) / Fin (INR steps) in
       let bounds := calculateSequentialBounds st n (maxSampleSize st) in
       {| bp_n := n;
          upperBound := upper bounds;
          lowerBound := lower bounds;
          futilityBound := futility bounds;
          zScore :=
            if Math.abs (n - currentSampleSize st) <? maxSampleSize st / Fin (INR steps)
            then Some (calculateCurrentZScore st) else None |})
    (seq 1 steps).

(** The decision of [performSequentialAnalysis]: the [if]/[else if] chain
    that assigns [recommendation], as a function of the values it reads. *)
Definition recommend (currentZ : num) (bounds : SequentialBounds)
    (enableHarm enableFutility : bool) : Recommendation :=
  if currentZ >=? upper bounds then stop_success
  else if currentZ <=? lower bounds then
    (if enableHarm then stop_harm else continue)
  else if enableFutility && (currentZ <=? futility bounds) then stop_futility
  else continue.

Definition performSequentialAnalysis (st : State) : SequentialResult :=
  let currentZ := calculateCurrentZScore st in
  let bounds := calculateSequentialBounds st (currentSampleSize st) (maxSampleSize st) in
  let currentP := Fin 2 * (Fin 1 - normalCDF (Math.abs currentZ)) in
  let recommendation := recommend currentZ bounds (enableHarm st) (enableFutility st) in
  let probabilityOfSuccess := calculateProbabilityOfSuccess st currentZ bounds in
  let expectedSampleSize :=
    currentSampleSize st
    + (maxSampleSize st - currentSampleSize st) * (Fin 1 - probabilityOfSuccess) in
  {| currentZ := currentZ;
     currentP := currentP;
     bounds := bounds;
     recommendation := recommendation;
     probabilityOfSuccess := probabilityOfSuccess;
     expectedSampleSize := expectedSampleSize;
     boundaryHistory := generateBoundaryHistory st |}.

End Sequential.

(* ================================================================= *)
(** * components/SignificanceTestCalculator *)

Module Significance.
Import JS.

Record SignificanceResult : Type := {
  isSignificant : bool;
  pValue : num;
  zScore : num;
  confidenceInterval : num * num;
  effectSize : num;
  relativeImprovement : num;
  conversionRateA : num;
  conversionRateB : num;
  standardError : num;
  powerAchieved : num
}.

(** The component's state. *)
Record State : Type := {
  visitorsA : num;
  conversionsA : num;
  visitorsB : num;
  conversionsB : num;
  confidenceLevel : num
}.

Definition erf : num -> num := Stats.erf.

Definition normalCDF (x : num) : num :=
  Fin 0.5 * (Fin 1 + erf (x / Math.sqrt (Fin 2))).

Definition calculateSignificance (st : State) : SignificanceResult :=
  let pA := conversionsA st / visitorsA st in
  let pB := conversionsB st / visitorsB st in
  let pooledP := (conversionsA st + conversionsB st) / (visitorsA st + visitorsB st) in
  let pooledSE :=
    Math.sqrt (pooledP * (Fin 1 - pooledP) * (Fin 1 / visitorsA st + Fin 1 / visitorsB st)) in
  let zScore := (pB - pA) / pooledSE in
  let pValue := Fin 2 * (Fin 1 - normalCDF (Math.abs zScore)) in
  let alpha := (Fin 100 - confidenceLevel st) / Fin 100 in
  let isSignificant := pValue <? alpha in
  let seForCI :=
    Math.sqrt ((pA * (Fin 1 - pA) / visitorsA st) + (pB * (Fin 1 - pB) / visitorsB st)) in
  let zCrit := Fin 1.96 in
  let margin := zCrit * seForCI in
  let confidenceInterval :=
    ((pB - pA - margin) * Fin 100, (pB - pA + margin) * Fin 100) in
  let effectSize := Fin 2 * (Math.asin (Math.sqrt pB) - Math.asin (Math.sqrt pA)) in
  let relativeImprovement :=
    if pA >? Fin 0 then ((pB - pA) / pA) * Fin 100 else Fin 0 in
  let powerZ := Math.abs zScore - Fin 1.96 in
  let powerAchieved := normalCDF powerZ * Fin 100 in
  {| isSignificant := isSignificant;
     pValue := pValue;
     zScore := zScore;
     confidenceInterval := confidenceInterval;
     effectSize := effectSize;
     relativeImprovement := relativeImprovement;
     conversionRateA := pA * Fin 100;
     conversionRateB := pB * Fin 100;
     standardError := pooledSE;
     powerAchieved := Math.max (Fin 0) (Math.min (Fin 100) powerAchieved) |}.

End Significance.

(* ================================================================= *)
(** * The specification's vocabulary *)

Module Spec.
Import JS.

(** The decision states [CONTINUE], [STOP_SUCCESS], [STOP_FUTILITY] and
    [STOP_HARM] of the sequential monitor are the component's
    recommendations [continue], [stop_success], [stop_futility] and
    [stop_harm]. *)

(** The decision rule in the specification's words: success when
    [z >= upper]; otherwise, when [z <= lower], harm if harm monitoring is
    enabled and continue if it is not; otherwise futility when futility
    monitoring is enabled and [z <= futility]; otherwise continue. *)
Inductive DecisionRule (z : num) (b : Sequential.SequentialBounds)
    (harmEnabled futilityEnabled : bool) : Sequential.Recommendation -> Prop :=
| rule_success :
    (z >=? Sequential.upper b) = true ->
    DecisionRule z b harmEnabled futilityEnabled Sequential.stop_success
| rule_harm :
    (z >=? Sequential.upper b) = false ->
    (z <=? Sequential.lower b) = true ->
    harmEnabled = true ->
    DecisionRule z b harmEnabled futilityEnabled Sequential.stop_harm
| rule_harm_disabled :
    (z >=? Sequential.upper b) = false ->
    (z <=? Sequential.lower b) = true ->
    harmEnabled = false ->
    DecisionRule z b harmEnabled futilityEnabled Sequential.continue
| rule_futility :
    (z >=? Sequential.upper b) = false ->
    (z <=? Sequential.lower b) = false ->
    futilityEnabled = true ->
    (z <=? Sequential.futility b) = true ->
    DecisionRule z b harmEnabled futilityEnabled Sequential.stop_futility
| rule_continue :
    (z >=? Sequential.upper b) = false ->
    (z <=? Sequential.lower b) = false ->
    futilityEnabled = false \/ (z <=? Sequential.futility b) = false ->
    DecisionRule z b harmEnabled futilityEnabled Sequential.continue.

(** The three ways in which a design is invalid. *)
Definition controls (config : Designer.ExperimentConfig) : list Designer.ExperimentVariant :=
  List.filter Designer.isControl (Designer.variants config).

Definition no_control (config : Designer.ExperimentConfig) : Prop :=
  controls config = [].

Definition several_controls (config : Designer.ExperimentConfig) : Prop :=
  (1 < length (controls config))%nat.

Definition allocation_off (config : Designer.ExperimentConfig) : Prop :=
  (Designer.totalAllocation (Designer.variants config) === Fin 100) = false.

Definition invalid_design (config : Designer.ExperimentConfig) : Prop :=
  no_control config \/ several_controls config \/ allocation_off config.

(** The zero-valued analysis. *)
Definition all_zero : Designer.DesignAnalysis :=
  {| Designer.totalSampleSize := Fin 0;
     Designer.sampleSizePerVariant := ∅;
     Designer.expectedDuration := Fin 0;
     Designer.powerAnalysis := ∅;
     Designer.multipleComparisonsAdjustment := Fin 0;
     Designer.estimatedCost := Fin 0 |}.

(** The accumulator before the first comparison. *)
Definition empty_accumulator : Designer.Accumulator :=
  {| Designer.acc_sampleSizePerVariant := ∅;
     Designer.acc_powerAnalysis := ∅;
     Designer.acc_maxSampleSize := Fin 0 |}.

(** The non-control variants of a design. *)
Definition treatments (config : Designer.ExperimentConfig) : list Designer.ExperimentVariant :=
  List.filter (fun v => negb (Designer.isControl v)) (Designer.variants config).

(** A design with another confidence level. *)
Definition with_significance (config : Designer.ExperimentConfig) (s : num)
    : Designer.ExperimentConfig :=
  {| Designer.cfg_name := Designer.cfg_name config;
     Designer.cfg_description := Designer.cfg_description config;
     Designer.hypothesis := Designer.hypothesis config;
     Designer.primaryMetric := Designer.primaryMetric config;
     Designer.secondaryMetrics := Designer.secondaryMetrics config;
     Designer.variants := Designer.variants config;
     Designer.totalTrafficAllocation := Designer.totalTrafficAllocation config;
     Designer.minimumDetectableEffect := Designer.minimumDetectableEffect config;
     Designer.power := Designer.power config;
     Designer.significance := s;
     Designer.estimatedDuration := Designer.estimatedDuration config;
     Designer.segmentation := Designer.segmentation config;
     Designer.successCriteria := Designer.successCriteria config |}.

(** A design with other variants. *)
Definition with_variants (config : Designer.ExperimentConfig)
    (vs : list Designer.ExperimentVariant) : Designer.ExperimentConfig :=
  {| Designer.cfg_name := Designer.cfg_name config;
     Designer.cfg_description := Designer.cfg_description config;
     Designer.hypothesis := Designer.hypothesis config;
     Designer.primaryMetric := Designer.primaryMetric config;
     Designer.secondaryMetrics := Designer.secondaryMetrics config;
     Designer.variants := vs;
     Designer.totalTrafficAllocation := Designer.totalTrafficAllocation config;
     Designer.minimumDetectableEffect := Designer.minimumDetectableEffect config;
     Designer.power := Designer.power config;
     Designer.significance := Designer.significance config;
     Designer.estimatedDuration := Designer.estimatedDuration config;
     Designer.segmentation := Designer.segmentation config;
     Designer.successCriteria := Designer.successCriteria config |}.

(** The significance calculator's state at another confidence level. *)
Definition with_confidenceLevel (st : Significance.State) (level : num) : Significance.State :=
  {| Significance.visitorsA := Significance.visitorsA st;
     Significance.conversionsA := Significance.conversionsA st;
     Significance.visitorsB := Significance.visitorsB st;
     Significance.conversionsB := Significance.conversionsB st;
     Significance.confidenceLevel := level |}.

(** The closed-form sample size of the two-proportion test for the quantiles
    [z_alpha] and [z_beta], rounded up. *)
Definition closed_form (z_alpha z_beta baselineRate effectSize : num) : num :=
  let p1 := baselineRate / Fin 100 in
  let p2 := p1 * (Fin 1 + effectSize / Fin 100) in
  let pbar := (p1 + p2) / Fin 2 in
  Math.ceil
    (((z_alpha * Math.sqrt (Fin 2 * pbar * (Fin 1 - pbar))
       + z_beta * Math.sqrt (p1 * (Fin 1 - p1) + p2 * (Fin 1 - p2)))
      * (z_alpha * Math.sqrt (Fin 2 * pbar * (Fin 1 - pbar))
         + z_beta * Math.sqrt (p1 * (Fin 1 - p1) + p2 * (Fin 1 - p2))))
     / ((p2 - p1) * (p2 - p1))).

(** A variant with the given id, allocation, expected rate and control flag. *)
Definition variant (i : string) (allocation rate : R) (control : bool)
    : Designer.ExperimentVariant :=
  {| Designer.id := i; Designer.name := i; Designer.description := "";
     Designer.trafficAllocation := Fin allocation;
     Designer.expectedConversionRate := Fin rate;
     Designer.isControl := control |}.

(** A design with two control variants, and one whose allocations sum to 80. *)
Definition two_controls_design : Designer.ExperimentConfig :=
  with_variants Designer.DEFAULT_EXPERIMENT_CONFIG
    [variant "a" 40 5 true; variant "b" 30 5 true; variant "c" 30 6 false].

Definition unbalanced_design : Designer.ExperimentConfig :=
  {| Designer.cfg_name := "";
     Designer.cfg_description := "";
     Designer.hypothesis := "";
     Designer.primaryMetric := "conversion_rate";
     Designer.secondaryMetrics := [];
     Designer.variants := [variant "control" 50 5 true; variant "treatment" 30 6 false];
     Designer.totalTrafficAllocation := Fin 80;
     Designer.minimumDetectableEffect := Fin 20;
     Designer.power := Fin 80;
     Designer.significance := Fin 95;
     Designer.estimatedDuration := Fin 14;
     Designer.segmentation := {| Designer.enabled := false; Designer.segments := [] |};
     Designer.successCriteria := "" |}.

(** The control variant of the default design. *)
Definition default_control : Designer.ExperimentVariant :=
  {| Designer.id := "control";
     Designer.name := "Control (A)";
     Designer.description := "Current version";
     Designer.trafficAllocation := Fin 50;
     Designer.expectedConversionRate := Fin 5;
     Designer.isControl := true |}.

(** A design without variants, hence without a control. *)
Definition empty_design : Designer.ExperimentConfig :=
  with_variants Designer.DEFAULT_EXPERIMENT_CONFIG [].

(** The significance calculator's state for the given counts. *)
Definition observations (nA cA nB cB : R) (level : num) : Significance.State :=
  {| Significance.visitorsA := Fin nA;
     Significance.conversionsA := Fin cA;
     Significance.visitorsB := Fin nB;
     Significance.conversionsB := Fin cB;
     Significance.confidenceLevel := level |}.

(** The sequential calculator's state when nobody has converted yet. *)
Definition no_conversions (st : Sequential.State) (size : R) : Sequential.State :=
  {| Sequential.currentSampleSize := Fin size;
     Sequential.maxSampleSize := Sequential.maxSampleSize st;
     Sequential.controlConversions := Fin 0;
     Sequential.treatmentConversions := Fin 0;
     Sequential.alpha := Sequential.alpha st;
     Sequential.beta := Sequential.beta st;
     Sequential.minimumEffect := Sequential.minimumEffect st;
     Sequential.enableFutility := Sequential.enableFutility st;
     Sequential.enableHarm := Sequential.enableHarm st;
     Sequential.boundaryType := Sequential.boundaryType st |}.

(** The bracket of the bisection after [k] halvings of [1, 100]. *)
Definition halved (k : nat) (s : PowerAnalysis.Bracket) : Prop :=
  exists lo hi : R,
    PowerAnalysis.minEffect s = Fin lo /\ PowerAnalysis.maxEffect s = Fin hi /\
    (1 <= lo)%R /\ (hi <= 100)%R /\ (hi - lo = 99 / 2 ^ k)%R /\
    PowerAnalysis.iterations s = k.

(** The bracket [calculateMinimumEffect] starts from. *)
Definition initial_bracket : PowerAnalysis.Bracket :=
  {| PowerAnalysis.minEffect := Fin 1;
     PowerAnalysis.maxEffect := Fin 100;
     PowerAnalysis.iterations := 0 |}.

(** The value of the error-function approximation at a non-negative real. *)
Definition erf_abs (x : R) : R :=
  (let t := 1.0 / (1.0 + 0.3275911 * x) in
   1.0 - (((((1.061405429 * t + -1.453152027) * t) + 1.421413741) * t + -0.284496736) * t
        + 0.254829592) * t * Rtrigo_def.exp (- x * x))%R.

End Spec.

(* ================================================================= *)
(** * components/ExperimentDesigner: the effect on the variants *)

Module DesignerEffects.
Import JS.

(** [setConfig(prev => ({ ...prev, totalTrafficAllocation: totalAllocation }))],
    the effect that runs whenever the variants change. *)
Definition updateTotal (config : Designer.ExperimentConfig) : Designer.ExperimentConfig :=
  {| Designer.cfg_name := Designer.cfg_name config;
     Designer.cfg_description := Designer.cfg_description config;
     Designer.hypothesis := Designer.hypothesis config;
     Designer.primaryMetric := Designer.primaryMetric config;
     Designer.secondaryMetrics := Designer.secondaryMetrics config;
     Designer.variants := Designer.variants config;
     Designer.totalTrafficAllocation := Designer.totalAllocation (Designer.variants config);
     Designer.minimumDetectableEffect := Designer.minimumDetectableEffect config;
     Designer.power := Designer.power config;
     Designer.significance := Designer.significance config;
     Designer.estimatedDuration := Designer.estimatedDuration config;
     Designer.segmentation := Designer.segmentation config;
     Designer.successCriteria := Designer.successCriteria config |}.

End DesignerEffects.

(* ================================================================= *)
(** * components/VariantConfig *)

(** Each handler is given as the configuration it passes to
    [onUpdateConfig]. *)
Module VariantConfig.
Import JS.

(** [Partial<ExperimentVariant>]: the fields an update carries. *)
Record Updates : Type := {
  u_id : option string;
  u_name : option string;
  u_description : option string;
  u_trafficAllocation : option num;
  u_expectedConversionRate : option num;
  u_isControl : option bool
}.

(** [{ ...v, ...updates }] *)
Definition merge (v : Designer.ExperimentVariant) (updates : Updates)
    : Designer.ExperimentVariant :=
  {| Designer.id := default (Designer.id v) (u_id updates);
     Designer.name := default (Designer.name v) (u_name updates);
     Designer.description := default (Designer.description v) (u_description updates);
     Designer.trafficAllocation :=
       default (Designer.trafficAllocation v) (u_trafficAllocation updates);
     Designer.expectedConversionRate :=
       default (Designer.expectedConversionRate v) (u_expectedConversionRate updates);
     Designer.isControl := default (Designer.isControl v) (u_isControl updates) |}.

(** [String.fromCharCode(code)], for a code below 256. *)
Definition fromCharCode (code : nat) : string :=
  String (Ascii.ascii_of_nat code) EmptyString.

(** [addVariant]; [now] is the value of [Date.now()], a number of
    milliseconds. *)
Definition addVariant (now : N) (config : Designer.ExperimentConfig)
    : Designer.ExperimentConfig :=
  let newVariant :=
    {| Designer.id := "variant_" +:+ pretty now;
       Designer.name := "Variant " +:+ fromCharCode (65 + length (Designer.variants config));
       Designer.description := "";
       Designer.trafficAllocation := Fin 0;
       Designer.expectedConversionRate := Fin 5;
       Designer.isControl := false |} in
  Spec.with_variants config (Designer.variants config ++ [newVariant]).

Definition removeVariant (config : Designer.ExperimentConfig) (id : string)
    : Designer.ExperimentConfig :=
  Spec.with_variants config
    (List.filter (fun v => negb (String.eqb (Designer.id v) id)) (Designer.variants config)).

Definition updateVariant (config : Designer.ExperimentConfig) (id : string)
    (updates : Updates) : Designer.ExperimentConfig :=
  Spec.with_variants config
    (List.map (fun v => if String.eqb (Designer.id v) id then merge v updates else v)
       (Designer.variants config)).

Definition balanceTrafficAllocation (config : Designer.ExperimentConfig)
    : Designer.ExperimentConfig :=
  let equalAllocation :=
    Math.floor (Fin 100 / Designer.length_num (Designer.variants config)) in
  let remainder :=
    Fin 100 - (equalAllocation * Designer.length_num (Designer.variants config)) in
  Spec.with_variants config
    (imap
       (fun index v =>
          {| Designer.id := Designer.id v;
             Designer.name := Designer.name v;
             Designer.description := Designer.description v;
             Designer.trafficAllocation :=
               equalAllocation + (if Fin (INR index) <? remainder then Fin 1 else Fin 0);
             Designer.expectedConversionRate := Designer.expectedConversionRate v;
             Designer.isControl := Designer.isControl v |})
       (Designer.variants config)).

(** The [onCheckedChange] handler of the control switch of [variant]; when
    the switch is turned off nothing is sent and the configuration stays. *)
Definition onCheckedChange (config : Designer.ExperimentConfig)
    (variant : Designer.ExperimentVariant) (checked : bool) : Designer.ExperimentConfig :=
  if checked then
    Spec.with_variants config
      (List.map
         (fun v =>
            {| Designer.id := Designer.id v;
               Designer.name := Designer.name v;
               Designer.description := Designer.description v;
               Designer.trafficAllocation := Designer.trafficAllocation v;
               Designer.expectedConversionRate := Designer.expectedConversionRate v;
               Designer.isControl := String.eqb (Designer.id v) (Designer.id variant) |})
         (Designer.variants config))
  else config.

End VariantConfig.

(* ================================================================= *)
(** * components/VirtualUserSimulator *)

Module Simulator.
Import JS.

Record SimulationParameters : Type := {
  baselineRate : num;
  treatmentEffect : num;
  sampleSizePerVariant : num;
  numberOfSimulations : num;
  userBehaviorPattern : string;
  seasonality : bool;
  weekendEffect : num
}.

Definition generateUserBehavior (parameters : SimulationParameters)
    (day : num) (pattern : string) : num :=
  let baseMultiplier :=
    if String.eqb pattern "increasing" then
      Fin 0.5 + (day * Fin 0.5) / Fin 30
    else if String.eqb pattern "decreasing" then
      Fin 1.5 - (day * Fin 0.5) / Fin 30
    else if String.eqb pattern "seasonal" then
      Fin 1 + Fin 0.3 * Math.sin ((day * Fin 2 * Math.PI) / Fin 7)
    else if String.eqb pattern "weekend_effect" then
      let dayOfWeek := JS.rem day (Fin 7) in
      if (dayOfWeek === Fin 0) || (dayOfWeek === Fin 6)
      then Fin 1 + weekendEffect parameters / Fin 100
      else Fin 1
    else Fin 1 in
  Math.max (Fin 0.1) baseMultiplier.

(** [i++] on a counter that holds a whole number: the sum [i + 1] is exact
    below 2^53 and rounds back to [i] at 2^53, where the counter stays. *)
Definition incr (i : nat) : nat :=
  if (N.of_nat i <? 9007199254740992)%N then S i else i.

(** The loop of [binomialRandom].  [Math.random()] is the stream [random],
    read at the position [next]; the counters [i] and [successes] start at 0
    and are incremented with [++].  The loop runs for ever when [n] is
    [Infinity] or above 2^53, so it is given fuel, and [None] is running out
    of it. *)
Fixpoint binomial_loop (random : nat -> num) (n p : num)
    (fuel i successes next : nat) : option (nat * nat) :=
  match fuel with
  | O => None
  | S fuel' =>
      if Fin (INR i) <? n then
        binomial_loop random n p fuel' (incr i)
          (if random next <? p then incr successes else successes) (S next)
      else Some (successes, next)
  end.

(** [binomialRandom(n, p)]: the number of successes, and the position of the
    stream after the draws. *)
Definition binomialRandom (random : nat -> num) (n p : num) (fuel next : nat)
    : option (nat * nat) :=
  binomial_loop random n p fuel 0 0 next.

Definition erfcApprox (x : num) : num :=
  let a := Fin 0.3275911 in
  let p := Fin 0.2316419 in
  let b1 := Fin 0.254829592 in
  let b2 := Fin (-0.284496736) in
  let b3 := Fin 1.421413741 in
  let b4 := Fin (-1.453152027) in
  let b5 := Fin 1.061405429 in
  let t := Fin 1 / (Fin 1 + a * Math.abs x) in
  let erf :=
    Fin 1 - (b1 * t + b2 * t * t + b3 * t * t * t + b4 * t * t * t * t
             + b5 * t * t * t * t * t) * Math.exp (- x * x) in
  if x >=? Fin 0 then Fin 1 - erf else erf - Fin 1.

Definition calculatePValue (conversionsA visitorsA conversionsB visitorsB : num) : num :=
  let pA := conversionsA / visitorsA in
  let pB := conversionsB / visitorsB in
  let pooledP := (conversionsA + conversionsB) / (visitorsA + visitorsB) in
  let se := Math.sqrt (pooledP * (Fin 1 - pooledP) * (Fin 1 / visitorsA + Fin 1 / visitorsB)) in
  if se === Fin 0 then Fin 1
  else
    let zScore := Math.abs (pB - pA) / se in
    erfcApprox (zScore / Math.sqrt (Fin 2)).

End Simulator.

(* ================================================================= *)
(** * Inputs and transformations used to state properties *)

Module Cases.
Import JS.

(** The significance calculator's state with the two arms exchanged. *)
Definition swap_arms (st : Significance.State) : Significance.State :=
  {| Significance.visitorsA := Significance.visitorsB st;
     Significance.conversionsA := Significance.conversionsB st;
     Significance.visitorsB := Significance.visitorsA st;
     Significance.conversionsB := Significance.conversionsA st;
     Significance.confidenceLevel := Significance.confidenceLevel st |}.

(** The sequential calculator's state with the two groups exchanged. *)
Definition swap_groups (st : Sequential.State) : Sequential.State :=
  {| Sequential.currentSampleSize := Sequential.currentSampleSize st;
     Sequential.maxSampleSize := Sequential.maxSampleSize st;
     Sequential.controlConversions := Sequential.treatmentConversions st;
     Sequential.treatmentConversions := Sequential.controlConversions st;
     Sequential.alpha := Sequential.alpha st;
     Sequential.beta := Sequential.beta st;
     Sequential.minimumEffect := Sequential.minimumEffect st;
     Sequential.enableFutility := Sequential.enableFutility st;
     Sequential.enableHarm := Sequential.enableHarm st;
     Sequential.boundaryType := Sequential.boundaryType st |}.

(** A sequential calculator's state with the given sizes, conversions and
    boundary family, at the component's other defaults. *)
Definition monitoring (size maxSize control treatment : R) (family : string)
    : Sequential.State :=
  {| Sequential.currentSampleSize := Fin size;
     Sequential.maxSampleSize := Fin maxSize;
     Sequential.controlConversions := Fin control;
     Sequential.treatmentConversions := Fin treatment;
     Sequential.alpha := Fin 0.05;
     Sequential.beta := Fin 0.2;
     Sequential.minimumEffect := Fin 20;
     Sequential.enableFutility := true;
     Sequential.enableHarm := true;
     Sequential.boundaryType := family |}.

(** The sample size [performDesignAnalysis] computes for the comparison of
    [variant] with [control]. *)
Definition comparison_size (config : Designer.ExperimentConfig)
    (control variant : Designer.ExperimentVariant) : num :=
  Stats.calculateSampleSize (Designer.expectedConversionRate control)
    (Math.abs
       (((Designer.expectedConversionRate variant - Designer.expectedConversionRate control)
         / Designer.expectedConversionRate control) * Fin 100))
    (Designer.power config) (Fin 0).

(** The power quantile [calculateSampleSize] selects, as a real. *)
Definition z_beta_of (power : num) : R :=
  if power === Fin 80 then 0.84%R else if power === Fin 90 then 1.28%R else 0.67%R.

(** The numerator of the sample-size formula for the proportions [p1] and
    [p2] and the power quantile [zb]. *)
Definition size_numerator (zb p1 p2 : R) : R :=
  ((1.96 * sqrt (2 * ((p1 + p2) / 2) * (1 + - ((p1 + p2) / 2)))
    + zb * sqrt (p1 * (1 + - p1) + p2 * (1 + - p2)))
   * (1.96 * sqrt (2 * ((p1 + p2) / 2) * (1 + - ((p1 + p2) / 2)))
      + zb * sqrt (p1 * (1 + - p1) + p2 * (1 + - p2))))%R.

(** A design has exactly one control variant. *)
Definition one_control (config : Designer.ExperimentConfig) : Prop :=
  length (Spec.controls config) = 1%nat.

(** The ids of the variants of a design. *)
Definition ids (config : Designer.ExperimentConfig) : list string :=
  List.map Designer.id (Designer.variants config).

(** The simulator's parameters with the given weekend effect. *)
Definition weekend (effect : num) : Simulator.SimulationParameters :=
  {| Simulator.baselineRate := Fin 5;
     Simulator.treatmentEffect := Fin 20;
     Simulator.sampleSizePerVariant := Fin 1000;
     Simulator.numberOfSimulations := Fin 100;
     Simulator.userBehaviorPattern := "weekend_effect";
     Simulator.seasonality := false;
     Simulator.weekendEffect := effect |}.

(** The number of times the loop [for (i = 0; i < n; i++)] runs its body,
    for a finite [n]. *)
Definition trips (n : R) : nat := Z.to_nat (Zceil n).

(** How many of the [k] draws read from the position [next] on are below
    [p]. *)
Fixpoint hits (random : nat -> num) (p : num) (next k : nat) : nat :=
  match k with
  | O => O
  | S k' => Nat.add (if random next <? p then 1%nat else 0%nat) (hits random p (S next) k')
  end.

(** A stream of draws that are all one half. *)
Definition halves : nat -> num := fun _ => Fin 0.5.

(** The share of 100 that the variant at [index] gets among [n] variants. *)
Definition share (n index : nat) : nat :=
  (100 / n + (if index <? 100 mod n then 1 else 0))%nat.

(** A variant with the allocation [g index], and nothing else changed. *)
Definition reallocate (g : nat -> nat) (index : nat) (v : Designer.ExperimentVariant)
    : Designer.ExperimentVariant :=
  {| Designer.id := Designer.id v;
     Designer.name := Designer.name v;
     Designer.description := Designer.description v;
     Designer.trafficAllocation := Fin (INR (g index));
     Designer.expectedConversionRate := Designer.expectedConversionRate v;
     Designer.isControl := Designer.isControl v |}.

(** The treatment variant of the default design. *)
Definition default_treatment : Designer.ExperimentVariant :=
  {| Designer.id := "treatment";
     Designer.name := "Treatment (B)";
     Designer.description := "New version";
     Designer.trafficAllocation := Fin 50;
     Designer.expectedConversionRate := Fin 6;
     Designer.isControl := false |}.

(** The default design with a treatment expected to convert as the control
    does. *)
Definition same_rate_design : Designer.ExperimentConfig :=
  Spec.with_variants Designer.DEFAULT_EXPERIMENT_CONFIG
    [Spec.default_control; Spec.variant "treatment" 50 5 false].

(** A key under which a plain object stores what is assigned to it. *)
Definition storable (key : string) : bool := negb (String.eqb key "__proto__").

(** The ids of the variants of [l] under which an assignment is stored. *)
Definition stored_ids (l : list Designer.ExperimentVariant) : list string :=
  List.filter storable (List.map Designer.id l).

(** A design with a control and two treatments. *)
Definition three_arm_design : Designer.ExperimentConfig :=
  Spec.with_variants Designer.DEFAULT_EXPERIMENT_CONFIG
    [Spec.default_control; Spec.variant "b" 25 6 false; Spec.variant "c" 25 7 false].

(** The default design with the treatment expected to convert one point
    below the control instead of one point above. *)
Definition mirrored_design : Designer.ExperimentConfig :=
  Spec.with_variants Designer.DEFAULT_EXPERIMENT_CONFIG
    ([Spec.default_control] ++ Spec.variant "treatment" 50 4 false :: []).

(** The largest whole number up to which every whole number is a binary64
    number, 2^53. *)
Definition two_53 : R := 9007199254740992.

(** The power calculator's state at the component's defaults. *)
Definition solver_defaults : PowerAnalysis.State :=
  {| PowerAnalysis.baselineRate := Fin 5;
     PowerAnalysis.testType := "two-tailed" |}.

End Cases.

(* ================================================================= *)
(** * The O'Brien-Fleming bound over binary64 numbers *)

(** The text of [getOBrienFlemingBound] on the kernel's binary64 numbers,
    whose division and square root round as IEEE 754 prescribes.
    [Math.log] is implementation-approximated in ECMAScript, so it is a
    parameter. *)
Module Binary64.
Import PrimFloat.

Definition getOBrienFlemingBound (log : float -> float) (t alpha : float) : float :=
  (sqrt (-2 * log (alpha / 2)) / sqrt t)%float.

(** The binary64 number next above one quarter. *)
Definition above_quarter : float := 0x1.0000000000001p-2%float.

End Binary64.

(* ================================================================= *)
(** * Evaluating number expressions *)

Ltac js_red :=
  cbv beta iota zeta delta
    [JS.add JS.sub JS.mul JS.div JS.neg JS.lt JS.le JS.gt JS.ge JS.eq
     JS.inf_signed JS.Rltb JS.Rleb JS.Reqb
     Math.abs Math.sqrt Math.log Math.exp Math.ceil Math.max Math.min
     Stats.idx Stats.a Stats.b Stats.c Stats.d Stats.pLow Stats.pHigh
     nth orb andb negb].

(** A test for equality guards what follows it (a division, a logarithm),
    so it is decided first. *)
Ltac js_case :=
  match goal with
  | |- context [Req_dec_T ?a ?b] => destruct (Req_dec_T a b)
  | |- context [Rlt_dec ?a ?b] => destruct (Rlt_dec a b)
  | |- context [Rle_dec ?a ?b] => destruct (Rle_dec a b)
  end.

Ltac js_eval := js_red; repeat (js_case; try lra; js_red).

(* ================================================================= *)
(** * Facts about numbers *)

Section NumberFacts.
Import JS.

Lemma lt_Fin (a b : R) : (Fin a <? Fin b) = true <-> (a < b)%R.
Proof. js_eval; split; intros; try discriminate; try reflexivity; lra. Qed.

Lemma le_Fin (a b : R) : (Fin a <=? Fin b) = true <-> (a <= b)%R.
Proof. js_eval; split; intros; try discriminate; try reflexivity; lra. Qed.

Lemma gt_Fin (a b : R) : (Fin a >? Fin b) = true <-> (b < a)%R.
Proof. unfold JS.gt. apply lt_Fin. Qed.

Lemma ge_Fin (a b : R) : (Fin a >=? Fin b) = true <-> (b <= a)%R.
Proof. unfold JS.ge. apply le_Fin. Qed.

Lemma eq_Fin (a b : R) : (Fin a === Fin b) = true <-> a = b.
Proof. js_eval; split; intros; try discriminate; try reflexivity; lra. Qed.

Lemma eq_Fin_refl (a : R) : (Fin a === Fin a) = true.
Proof. apply eq_Fin. reflexivity. Qed.

Lemma eq_Fin_neq (a b : R) : a <> b -> (Fin a === Fin b) = false.
Proof. intros. js_eval; reflexivity. Qed.

Lemma lt_le (x y : num) : (x <? y) = true -> (x <=? y) = true.
Proof. unfold JS.le. intros ->. reflexivity. Qed.

Lemma div_Fin (a b : R) : b <> 0%R -> Fin a / Fin b = Fin (a / b).
Proof. intros. js_eval; reflexivity. Qed.

Lemma div_zero_zero : Fin 0 / Fin 0 = NaN.
Proof. js_eval; reflexivity. Qed.

Lemma sqrt_Fin (r : R) : (0 <= r)%R -> Math.sqrt (Fin r) = Fin (sqrt r).
Proof. intros. js_eval; reflexivity. Qed.

Lemma log_Fin (r : R) : (0 < r)%R -> Math.log (Fin r) = Fin (ln r).
Proof. intros. js_eval; reflexivity. Qed.

Lemma mul_minus_one (y : num) : Fin (-1) * y = - (Fin 1 * y).
Proof. destruct y; js_eval; try reflexivity. f_equal; lra. Qed.

Lemma is_int_two : Math.is_int 2 = true.
Proof.
  unfold Math.is_int. rewrite (ZfloorZ 2). unfold JS.Reqb.
  destruct (Req_dec_T 2 2); [reflexivity | lra].
Qed.

Lemma is_odd_two : Math.is_odd 2 = false.
Proof. unfold Math.is_odd. rewrite is_int_two, (ZfloorZ 2). reflexivity. Qed.

(** [Math.pow(x, 2)] is the square of [x], whatever [x] is. *)
Lemma pow_two (x : num) : Math.pow x (Fin 2) = x * x.
Proof.
  unfold Math.pow. destruct (Req_dec_T 2 0) as [H|_]; [lra|].
  destruct x as [r| | |]; cbn [JS.mul].
  - destruct (Req_dec_T r 0) as [-> | Hr].
    + destruct (Rlt_dec 0 2); [|lra]. f_equal; lra.
    + destruct (Rlt_dec 0 r).
      * f_equal. change 2%R with (INR 2). rewrite Rpower_pow by assumption. simpl; lra.
      * rewrite is_int_two, (ZfloorZ 2). f_equal. simpl. lra.
  - destruct (Rlt_dec 0 2); [reflexivity | lra].
  - destruct (Rlt_dec 0 2); [|lra]. rewrite is_odd_two. reflexivity.
  - reflexivity.
Qed.

End NumberFacts.

(** Finite operands: sums, differences and products compute, and a quotient
    does once its divisor is known not to be zero. *)
Ltac js_fin :=
  repeat (progress cbn [JS.add JS.sub JS.mul JS.neg] || rewrite div_Fin by lra).

(* ================================================================= *)
(** * DistributionMath: the error function and the inverse normal *)

Section DistributionMath.
Import JS.

Lemma erf_Fin_nonneg (r : R) :
  (0 <= r)%R -> Stats.erf (Fin r) = Fin (1 * Spec.erf_abs r).
Proof.
  intros Hr. unfold Stats.erf, Spec.erf_abs.
  cbv beta iota zeta delta [Math.abs].
  rewrite (Rabs_pos_eq r Hr).
  js_eval; reflexivity.
Qed.

Lemma erf_Fin_neg (r : R) :
  (r < 0)%R -> Stats.erf (Fin r) = Fin (-1 * Spec.erf_abs (- r)).
Proof.
  intros Hr. unfold Stats.erf, Spec.erf_abs.
  cbv beta iota zeta delta [Math.abs].
  rewrite (Rabs_left r Hr).
  js_eval; reflexivity.
Qed.

Lemma erf_PInf : Stats.erf PInf = Fin 1.
Proof. unfold Stats.erf. js_eval. f_equal; lra. Qed.

Lemma erf_NInf : Stats.erf NInf = Fin (-1).
Proof. unfold Stats.erf. js_eval. f_equal; lra. Qed.







(** The inverse normal of utils/statisticalCalculations has no guard: below
    the domain the logarithm is [NaN] or [-Infinity], and the quotient of the
    two polynomials is [NaN]. *)
Lemma Stats_normalInverse_low (p : num) :
  (p <=? Fin 0) = true -> Stats.normalInverse p = NaN.
Proof.
  destruct p as [r| | |]; intros H; try discriminate H.
  - apply le_Fin in H. unfold Stats.normalInverse.
    destruct (Req_dec_T r 0) as [-> | Hr]; js_eval; reflexivity.
  - unfold Stats.normalInverse. js_eval; reflexivity.
Qed.

Lemma Stats_normalInverse_high (p : num) :
  (p >=? Fin 1) = true -> Stats.normalInverse p = NaN.
Proof.
  destruct p as [r| | |]; intros H; try discriminate H.
  - apply ge_Fin in H. unfold Stats.normalInverse.
    destruct (Req_dec_T r 1) as [-> | Hr]; js_eval; reflexivity.
  - unfold Stats.normalInverse. js_eval; reflexivity.
Qed.

Lemma Stats_normalInverse_half : Stats.normalInverse (Fin 0.5) = Fin 0.
Proof. unfold Stats.normalInverse. js_eval; f_equal; lra. Qed.

(** The sequential calculator's inverse normal does clamp: [-Infinity] at and
    below 0, [+Infinity] at and above 1, and 0 at one half. *)
Lemma Sequential_normalInverse_clamps (p : num) :
  ((p <=? Fin 0) = true -> Sequential.normalInverse p = NInf) /\
  ((p >=? Fin 1) = true -> Sequential.normalInverse p = PInf) /\
  Sequential.normalInverse (Fin 0.5) = Fin 0.
Proof.
  unfold Sequential.normalInverse. repeat split.
  - intros ->. reflexivity.
  - intros H. destruct (p <=? Fin 0) eqn:E.
    + destruct p as [r| | |]; try discriminate.
      apply le_Fin in E. apply ge_Fin in H. lra.
    + rewrite H. reflexivity.
  - js_eval; reflexivity.
Qed.

(** C4, on the inverse normal of utils/statisticalCalculations (the one the
    power and sample-size calculators also carry): for every [p <= 0] and
    every [p >= 1] it returns [NaN], where the specification wants an infinity. *)
Theorem Stats_normalInverse_out_of_domain (p : num) :
  (p <=? Fin 0) = true \/ (p >=? Fin 1) = true ->
  Stats.normalInverse p = NaN.
Proof.
  intros [H | H].
  - apply Stats_normalInverse_low. exact H.
  - apply Stats_normalInverse_high. exact H.
Qed.

Lemma Stats_normalInverse_out_of_domain_witness :
  (Fin 0 <=? Fin 0) = true /\ Stats.normalInverse (Fin 0) = NaN.
Proof.
  assert (H : (Fin 0 <=? Fin 0) = true) by (apply le_Fin; lra).
  split; [exact H|].
  apply (Stats_normalInverse_out_of_domain (Fin 0)). left. exact H.
Defined.

End DistributionMath.

(* ================================================================= *)
(** * TwoSampleTest: the significance calculator *)

Section TwoSampleTest.
Import JS.

(** C2: the interval is built with the constant 1.96 and never reads the
    confidence level, so it is the same interval at 90%, 95% and 99%. *)
Theorem confidenceInterval_ignores_level (st : Significance.State) (level : num) :
  Significance.confidenceInterval
    (Significance.calculateSignificance (Spec.with_confidenceLevel st level))
  = Significance.confidenceInterval (Significance.calculateSignificance st).
Proof. reflexivity. Qed.

(** When nobody converts, the pooled standard error is 0 and the z-score of
    [calculateSignificance] is [0 / 0]. *)
Lemma zScore_no_conversions (nA nB : R) (level : num) :
  (0 < nA)%R -> (0 < nB)%R ->
  Significance.zScore
    (Significance.calculateSignificance (Spec.observations nA 0 nB 0 level)) = NaN.
Proof.
  intros HA HB. unfold Significance.calculateSignificance, Spec.observations.
  cbn [Significance.zScore Significance.visitorsA Significance.visitorsB
       Significance.conversionsA Significance.conversionsB].
  js_fin.
  match goal with |- context [Math.sqrt (Fin ?x)] =>
    replace x with 0%R by (field; lra) end.
  rewrite sqrt_Fin, sqrt_0 by lra.
  replace (0 / nB + - (0 / nA))%R with 0%R by (field; lra).
  apply div_zero_zero.
Qed.

(** The same when everybody converts. *)
Lemma zScore_all_converted (nA nB : R) (level : num) :
  (0 < nA)%R -> (0 < nB)%R ->
  Significance.zScore
    (Significance.calculateSignificance (Spec.observations nA nA nB nB level)) = NaN.
Proof.
  intros HA HB. unfold Significance.calculateSignificance, Spec.observations.
  cbn [Significance.zScore Significance.visitorsA Significance.visitorsB
       Significance.conversionsA Significance.conversionsB].
  js_fin.
  match goal with |- context [Math.sqrt (Fin ?x)] =>
    replace x with 0%R by (field; lra) end.
  rewrite sqrt_Fin, sqrt_0 by lra.
  replace (nB / nB + - (nA / nA))%R with 0%R by (field; lra).
  apply div_zero_zero.
Qed.

(** The sequential calculator has the guard: with no conversions its
    standard error is 0 and [calculateCurrentZScore] returns 0. *)
Lemma calculateCurrentZScore_no_conversions (st : Sequential.State) (size : R) :
  (0 < size)%R ->
  Sequential.calculateCurrentZScore (Spec.no_conversions st size) = Fin 0.
Proof.
  intros Hs. unfold Sequential.calculateCurrentZScore, Spec.no_conversions.
  cbn [Sequential.currentSampleSize Sequential.controlConversions
       Sequential.treatmentConversions].
  js_fin.
  match goal with |- context [Math.sqrt (Fin ?x)] =>
    replace x with 0%R by (field; lra) end.
  rewrite sqrt_Fin, sqrt_0 by lra.
  rewrite eq_Fin_refl. reflexivity.
Qed.

(** C3, on [calculateSignificance]: with a zero pooled standard error (no
    conversion at all, or only conversions) the z-score is [NaN], not 0. *)
Theorem calculateSignificance_zero_variance (nA nB : R) (level : num) :
  (0 < nA)%R -> (0 < nB)%R ->
  Significance.zScore
    (Significance.calculateSignificance (Spec.observations nA 0 nB 0 level)) = NaN /\
  Significance.zScore
    (Significance.calculateSignificance (Spec.observations nA nA nB nB level)) = NaN.
Proof.
  intros HA HB. split.
  - apply zScore_no_conversions; assumption.
  - apply zScore_all_converted; assumption.
Qed.

Lemma calculateSignificance_zero_variance_witness :
  Significance.zScore
    (Significance.calculateSignificance (Spec.observations 1000 0 1000 0 (Fin 95))) = NaN.
Proof.
  apply (calculateSignificance_zero_variance 1000 1000 (Fin 95)); lra.
Defined.

End TwoSampleTest.

(* ================================================================= *)
(** * PowerSolver: sample size and minimum detectable effect *)

Section SampleSize.
Import JS.

Lemma calculateSampleSize_closed_form (baselineRate effectSize power alpha : num) :
  Stats.calculateSampleSize baselineRate effectSize power alpha
  = Spec.closed_form (Fin 1.96)
      (if power === Fin 80 then Fin 0.84
       else if power === Fin 90 then Fin 1.28 else Fin 0.67)
      baselineRate effectSize.
Proof.
  unfold Stats.calculateSampleSize, Spec.closed_form. cbv zeta.
  rewrite !pow_two. reflexivity.
Qed.

(** The helper never reads its [alpha]. *)
Lemma calculateSampleSize_ignores_alpha
    (baselineRate effectSize power alpha alpha' : num) :
  Stats.calculateSampleSize baselineRate effectSize power alpha
  = Stats.calculateSampleSize baselineRate effectSize power alpha'.
Proof. reflexivity. Qed.

(** C10: the helper is the closed form at [z_alpha = 1.96] and at a [z_beta]
    looked up by exact match on the power: 0.84 at 80, 1.28 at 90, and 0.67 at
    anything else; so two powers outside 80 and 90 give one sample size. *)
Theorem calculateSampleSize_power_lookup (baselineRate effectSize : num) :
  (forall alpha,
     Stats.calculateSampleSize baselineRate effectSize (Fin 80) alpha
     = Spec.closed_form (Fin 1.96) (Fin 0.84) baselineRate effectSize) /\
  (forall alpha,
     Stats.calculateSampleSize baselineRate effectSize (Fin 90) alpha
     = Spec.closed_form (Fin 1.96) (Fin 1.28) baselineRate effectSize) /\
  (forall power alpha,
     (power === Fin 80) = false -> (power === Fin 90) = false ->
     Stats.calculateSampleSize baselineRate effectSize power alpha
     = Spec.closed_form (Fin 1.96) (Fin 0.67) baselineRate effectSize) /\
  (forall power power' alpha,
     (power === Fin 80) = false -> (power === Fin 90) = false ->
     (power' === Fin 80) = false -> (power' === Fin 90) = false ->
     Stats.calculateSampleSize baselineRate effectSize power alpha
     = Stats.calculateSampleSize baselineRate effectSize power' alpha).
Proof.
  repeat split; intros; rewrite !calculateSampleSize_closed_form.
  - rewrite eq_Fin_refl. reflexivity.
  - rewrite eq_Fin_neq by lra. rewrite eq_Fin_refl. reflexivity.
  - rewrite H, H0. reflexivity.
  - rewrite H, H0, H1, H2. reflexivity.
Qed.

Lemma calculateSampleSize_power_lookup_witness :
  (Fin 70 === Fin 80) = false /\ (Fin 70 === Fin 90) = false /\
  (Fin 95 === Fin 80) = false /\ (Fin 95 === Fin 90) = false /\
  Stats.calculateSampleSize (Fin 5) (Fin 20) (Fin 70) (Fin 0.05)
  = Stats.calculateSampleSize (Fin 5) (Fin 20) (Fin 95) (Fin 0.05).
Proof.
  assert (H1 : (Fin 70 === Fin 80) = false) by (apply eq_Fin_neq; lra).
  assert (H2 : (Fin 70 === Fin 90) = false) by (apply eq_Fin_neq; lra).
  assert (H3 : (Fin 95 === Fin 80) = false) by (apply eq_Fin_neq; lra).
  assert (H4 : (Fin 95 === Fin 90) = false) by (apply eq_Fin_neq; lra).
  repeat (split; [assumption|]).
  apply (proj2 (proj2 (proj2 (calculateSampleSize_power_lookup (Fin 5) (Fin 20)))));
    assumption.
Defined.

End SampleSize.

Section Bisection.
Import JS PowerAnalysis.
Variable st : State.
Variables n targetPower alpha : num.

Lemma while_loop_unfold (s : Bracket) :
  while_loop st n targetPower alpha s
  = if loop_cond s
    then while_loop st n targetPower alpha (loop_body st n targetPower alpha s)
    else s.
Proof.
  funelim (while_loop st n targetPower alpha s).
  - rewrite Hcond. reflexivity.
  - match goal with H : loop_cond s = false |- _ => rewrite H end. reflexivity.
Qed.

(** When the loop is left, its condition is false. *)
Lemma while_loop_exit (s : Bracket) :
  loop_cond (while_loop st n targetPower alpha s) = false.
Proof. funelim (while_loop st n targetPower alpha s); assumption. Qed.

Lemma loop_body_iterations (s : Bracket) :
  iterations (loop_body st n targetPower alpha s) = S (iterations s).
Proof. unfold loop_body. destruct (JS.lt _ _); reflexivity. Qed.

(** The counter never passes the cap, from whatever bracket the loop starts. *)
Lemma while_loop_iterations (s : Bracket) :
  (iterations s <= maxIterations ->
   iterations (while_loop st n targetPower alpha s) <= maxIterations)%nat.
Proof.
  funelim (while_loop st n targetPower alpha s); intros Hs.
  - match goal with IH : (_ -> _)%type |- _ => apply IH end.
    rewrite (loop_body_iterations s).
    pose proof Hcond as Hc. unfold loop_cond in Hc.
    apply andb_prop in Hc as [_ Hlt]. apply Nat.ltb_lt in Hlt. lia.
  - assumption.
Qed.

(** A bracket no wider than 0.1 is returned as it is. *)
Lemma while_loop_narrow (s : Bracket) :
  (maxEffect s - minEffect s >? Fin 0.1) = false ->
  while_loop st n targetPower alpha s = s.
Proof.
  intros H. rewrite while_loop_unfold. unfold loop_cond. rewrite H. reflexivity.
Qed.

(** Whichever half the power test selects, the body halves the bracket. *)
Lemma halved_body (k : nat) (s : Bracket) :
  Spec.halved k s -> Spec.halved (S k) (loop_body st n targetPower alpha s).
Proof.
  intros (lo & hi & Hlo & Hhi & H1 & H100 & Hw & Hk).
  assert (Hp : (0 < 2 ^ k)%R) by (apply pow_lt; lra).
  assert (Hpos : (0 < 99 / 2 ^ k)%R) by (apply Rdiv_lt_0_compat; lra).
  assert (Hhalf : (99 / 2 ^ S k = (99 / 2 ^ k) / 2)%R) by (simpl; field; lra).
  unfold loop_body. rewrite Hlo, Hhi. cbn [JS.add]. rewrite div_Fin by lra.
  destruct (JS.lt _ _).
  - exists ((lo + hi) / 2)%R, hi.
    cbn [minEffect maxEffect iterations].
    split; [reflexivity|]. split; [reflexivity|].
    split; [lra|]. split; [lra|]. split; [lra | congruence].
  - exists lo, ((lo + hi) / 2)%R.
    cbn [minEffect maxEffect iterations].
    split; [reflexivity|]. split; [reflexivity|].
    split; [lra|]. split; [lra|]. split; [lra | congruence].
Qed.

(** After [k] halvings the width is [99 / 2^k]: above 0.1 up to the ninth,
    below from the tenth on. *)
Lemma halved_cond (k : nat) (s : Bracket) :
  Spec.halved k s -> loop_cond s = (k <? 10)%nat.
Proof.
  intros (lo & hi & Hlo & Hhi & H1 & H100 & Hw & Hk).
  unfold loop_cond. rewrite Hlo, Hhi, Hk. cbn [JS.sub JS.neg JS.add].
  assert (Hp : (0 < 2 ^ k)%R) by (apply pow_lt; lra).
  destruct (k <? 10)%nat eqn:E.
  - apply Nat.ltb_lt in E.
    assert (Hle : (2 ^ k <= 2 ^ 9)%R) by (apply Rle_pow; [lra | lia]).
    assert ((hi + - lo > 0.1)%R).
    { replace (hi + - lo)%R with (99 / 2 ^ k)%R by lra.
      apply Rlt_gt. apply Rmult_lt_reg_r with (2 ^ k)%R; [assumption|].
      unfold Rdiv. rewrite Rmult_assoc, Rinv_l by lra. simpl in Hle. lra. }
    rewrite (proj2 (gt_Fin _ _)) by lra.
    unfold maxIterations. replace (k <? 50)%nat with true; [reflexivity|].
    symmetry. apply Nat.ltb_lt. lia.
  - apply Nat.ltb_ge in E.
    assert (Hle : (2 ^ 10 <= 2 ^ k)%R) by (apply Rle_pow; [lra | lia]).
    assert (~ (hi + - lo > 0.1)%R).
    { replace (hi + - lo)%R with (99 / 2 ^ k)%R by lra.
      intros Hgt. apply Rgt_lt in Hgt.
      apply (Rmult_lt_compat_r (2 ^ k)%R) in Hgt; [|assumption].
      unfold Rdiv in Hgt. rewrite Rmult_assoc, Rinv_l in Hgt by lra.
      simpl in Hle. lra. }
    destruct (Fin (hi + - lo) >? Fin 0.1) eqn:G; [|reflexivity].
    apply gt_Fin in G. contradiction.
Qed.

Lemma while_loop_halved (j k : nat) (s : Bracket) :
  (k + j = 10)%nat -> Spec.halved k s ->
  Spec.halved 10 (while_loop st n targetPower alpha s).
Proof.
  revert k s. induction j as [|j IH]; intros k s Hkj Hs.
  - assert (k = 10)%nat by lia. subst k.
    rewrite while_loop_unfold, (halved_cond 10 s Hs). exact Hs.
  - rewrite while_loop_unfold, (halved_cond k s Hs).
    replace (k <? 10)%nat with true by (symmetry; apply Nat.ltb_lt; lia).
    apply (IH (S k)); [lia|]. apply halved_body. exact Hs.
Qed.

Lemma initial_bracket_halved : Spec.halved 0 Spec.initial_bracket.
Proof.
  exists 1%R, 100%R. cbn [Spec.initial_bracket minEffect maxEffect iterations].
  repeat split; simpl; lra.
Qed.

(** C8: [calculateMinimumEffect] is a total function.  Its loop leaves with a
    false condition and a counter of at most 50 (of exactly 10: the width
    [99 / 2^10] is the first one below 0.1), and the value returned is the
    midpoint of the last bracket, a finite number between 1 and 100. *)
Theorem calculateMinimumEffect_terminates :
  let s := while_loop st n targetPower alpha Spec.initial_bracket in
  (iterations s <= maxIterations)%nat /\
  loop_cond s = false /\
  (maxEffect s - minEffect s >? Fin 0.1) = false /\
  iterations s = 10%nat /\
  calculateMinimumEffect st n targetPower alpha = (minEffect s + maxEffect s) / Fin 2 /\
  exists m : R,
    calculateMinimumEffect st n targetPower alpha = Fin m /\ (1 <= m <= 100)%R.
Proof.
  intros s.
  pose proof (while_loop_halved 10 0 Spec.initial_bracket eq_refl initial_bracket_halved)
    as Hs.
  fold s in Hs.
  pose proof (halved_cond 10 s Hs) as Hc.
  destruct Hs as (lo & hi & Hlo & Hhi & H1 & H100 & Hw & Hk).
  assert (Hpos : (0 < 99 / 2 ^ 10)%R) by (simpl; lra).
  split; [rewrite Hk; unfold maxIterations; lia|].
  split; [apply while_loop_exit|].
  split.
  { unfold loop_cond in Hc. rewrite Hk in Hc. cbn [Nat.ltb Nat.leb] in Hc.
    unfold maxIterations in Hc. cbn [Nat.ltb Nat.leb] in Hc.
    rewrite andb_true_r in Hc. exact Hc. }
  split; [exact Hk|].
  split; [reflexivity|].
  exists ((lo + hi) / 2)%R. split.
  - unfold calculateMinimumEffect. fold Spec.initial_bracket. fold s.
    rewrite Hlo, Hhi. cbn [JS.add]. apply div_Fin. lra.
  - lra.
Qed.

End Bisection.

(* ================================================================= *)
(** * SequentialMonitor: boundaries and the decision *)

Section SequentialMonitor.
Import JS.

(** C6: the recommendation follows the decision rule, for every z-score,
    every bounds and both flags, and it is the only decision that does; the
    analysis applies it to the current z-score and bounds; and a z-score of
    3.0 above the upper bound stops for success whatever the rest is. *)
Theorem recommend_follows_decision_rule
    (b : Sequential.SequentialBounds) (harm fut : bool) :
  (forall z, Spec.DecisionRule z b harm fut (Sequential.recommend z b harm fut)) /\
  (forall z d, Spec.DecisionRule z b harm fut d -> d = Sequential.recommend z b harm fut) /\
  (forall st,
     Sequential.recommendation (Sequential.performSequentialAnalysis st)
     = Sequential.recommend (Sequential.calculateCurrentZScore st)
         (Sequential.calculateSequentialBounds st (Sequential.currentSampleSize st)
            (Sequential.maxSampleSize st))
         (Sequential.enableHarm st) (Sequential.enableFutility st)) /\
  ((Sequential.upper b <? Fin 3.0) = true ->
   Sequential.recommend (Fin 3.0) b harm fut = Sequential.stop_success).
Proof.
  split; [|split; [|split]].
  - intros z. unfold Sequential.recommend.
    destruct (z >=? Sequential.upper b) eqn:Hu.
    { now apply Spec.rule_success. }
    destruct (z <=? Sequential.lower b) eqn:Hl.
    { destruct harm eqn:Hh.
      - now apply Spec.rule_harm.
      - now apply Spec.rule_harm_disabled. }
    destruct fut eqn:Hf; cbn [andb].
    + destruct (z <=? Sequential.futility b) eqn:Hfu.
      * now apply Spec.rule_futility.
      * apply Spec.rule_continue; auto.
    + apply Spec.rule_continue; auto.
  - intros z d Hd. unfold Sequential.recommend.
    destruct Hd as [Hu | Hu Hl Hh | Hu Hl Hh | Hu Hl Hf Hfu | Hu Hl [Hf | Hfu]];
      rewrite ?Hu, ?Hl, ?Hh, ?Hf, ?Hfu; try reflexivity.
    rewrite andb_false_r. reflexivity.
  - intros st. reflexivity.
  - intros H. unfold Sequential.recommend, JS.ge.
    rewrite (lt_le _ _ H). reflexivity.
Qed.

Lemma recommend_follows_decision_rule_witness :
  (Fin 2.5 <? Fin 3.0) = true /\
  Sequential.recommend (Fin 3.0)
    {| Sequential.upper := Fin 2.5; Sequential.lower := Fin 4; Sequential.futility := Fin 5 |}
    true true
  = Sequential.stop_success.
Proof.
  assert (H : (Fin 2.5 <? Fin 3.0) = true) by (apply lt_Fin; lra).
  split; [exact H|].
  apply (proj2 (proj2 (proj2
    (recommend_follows_decision_rule
       {| Sequential.upper := Fin 2.5; Sequential.lower := Fin 4;
          Sequential.futility := Fin 5 |} true true)))).
  exact H.
Defined.

(** The numerator of the O'Brien-Fleming bound is a positive real. *)
Lemma OBrienFleming_numerator (alpha : R) :
  (0 < alpha < 1)%R ->
  Math.sqrt (Fin (-2) * Math.log (Fin alpha / Fin 2)) = Fin (sqrt (-2 * ln (alpha / 2)))
  /\ (0 < sqrt (-2 * ln (alpha / 2)))%R.
Proof.
  intros Ha.
  assert (Hln : (ln (alpha / 2) < 0)%R).
  { rewrite <- ln_1. apply ln_increasing; lra. }
  rewrite div_Fin by lra. rewrite log_Fin by lra. cbn [JS.mul].
  rewrite sqrt_Fin by lra. split; [reflexivity|].
  apply sqrt_lt_R0. lra.
Qed.

(** Over the reals the bound is strictly decreasing in the information
    fraction. *)
Lemma OBrienFleming_decreasing (alpha t1 t2 : R) :
  (0 < alpha < 1)%R -> (0 < t1 < t2)%R ->
  (Sequential.getOBrienFlemingBound (Fin t1) (Fin alpha)
   >? Sequential.getOBrienFlemingBound (Fin t2) (Fin alpha)) = true.
Proof.
  intros Ha [H1 H12]. unfold Sequential.getOBrienFlemingBound.
  destruct (OBrienFleming_numerator alpha Ha) as [-> Hc].
  pose proof (sqrt_lt_R0 t1 H1) as Hs1.
  pose proof (sqrt_lt_1 t1 t2 ltac:(lra) ltac:(lra) H12) as Hs12.
  rewrite !sqrt_Fin by lra. rewrite !div_Fin by lra.
  apply gt_Fin. unfold Rdiv.
  apply Rmult_lt_compat_l; [exact Hc|].
  apply Rinv_lt_contravar; [nra | exact Hs12].
Qed.

Lemma OBrienFleming_finite (alpha t : R) :
  (0 < alpha < 1)%R -> (0 < t)%R ->
  exists u : R,
    Sequential.getOBrienFlemingBound (Fin t) (Fin alpha) = Fin u /\ (0 < u)%R.
Proof.
  intros Ha Ht. unfold Sequential.getOBrienFlemingBound.
  destruct (OBrienFleming_numerator alpha Ha) as [-> Hc].
  pose proof (sqrt_lt_R0 t Ht) as Hs.
  rewrite sqrt_Fin by lra. rewrite div_Fin by lra.
  eexists. split; [reflexivity|]. apply Rdiv_lt_0_compat; assumption.
Qed.

(** C7, as amended: for [alpha] in (0,1) and information fractions
    [0 < t1 < t2 <= 1], the O'Brien-Fleming bound at [t1] is at least the
    bound at [t2]: the bound never increases with the information
    fraction. *)
Theorem getOBrienFlemingBound_non_increasing (alpha t1 t2 : R) :
  (0 < alpha < 1)%R -> (0 < t1)%R -> (t1 < t2)%R -> (t2 <= 1)%R ->
  (Sequential.getOBrienFlemingBound (Fin t1) (Fin alpha)
   >=? Sequential.getOBrienFlemingBound (Fin t2) (Fin alpha)) = true.
Proof.
  intros Ha H1 H12 H2.
  pose proof (OBrienFleming_decreasing alpha t1 t2 Ha (conj H1 H12)) as Hgt.
  destruct (OBrienFleming_finite alpha t1 Ha H1) as (u1 & E1 & _).
  destruct (OBrienFleming_finite alpha t2 Ha ltac:(lra)) as (u2 & E2 & _).
  rewrite E1, E2 in *. apply gt_Fin in Hgt. apply ge_Fin. lra.
Qed.

Lemma getOBrienFlemingBound_non_increasing_witness :
  (Sequential.getOBrienFlemingBound (Fin 0.25) (Fin 0.05)
   >=? Sequential.getOBrienFlemingBound (Fin 1) (Fin 0.05)) = true.
Proof.
  apply (getOBrienFlemingBound_non_increasing 0.05 0.25 1); lra.
Defined.

End SequentialMonitor.

Section BinaryFloats.
Import PrimFloat.

(** C7, as stated, fails in binary64: one quarter and the number next above
    it have the same square root, one half, so the bound is the same at
    both, whatever [Math.log] returns and whatever [alpha] is; at
    [alpha = 0.05], with -3.6888794541139363 for [Math.log(0.025)], both
    bounds are 5.432406062962478 and the first is not greater than the
    second. *)
Lemma getOBrienFlemingBound_not_strict :
  ltb 0x1p-2%float Binary64.above_quarter = true /\
  leb Binary64.above_quarter 1%float = true /\
  (forall (log : float -> float) (alpha : float),
     Binary64.getOBrienFlemingBound log 0x1p-2%float alpha
     = Binary64.getOBrienFlemingBound log Binary64.above_quarter alpha) /\
  (forall log : float -> float,
     log 0x1.999999999999ap-6%float = (-0x1.d82d33b32720dp+1)%float ->
     ltb
       (Binary64.getOBrienFlemingBound log Binary64.above_quarter 0x1.999999999999ap-5%float)
       (Binary64.getOBrienFlemingBound log 0x1p-2%float 0x1.999999999999ap-5%float)
     = false).
Proof.
  split; [reflexivity|]. split; [reflexivity|]. split.
  - intros log alpha. unfold Binary64.getOBrienFlemingBound. reflexivity.
  - intros log Hlog. unfold Binary64.getOBrienFlemingBound.
    change (div 0x1.999999999999ap-5%float 2%float)
      with 0x1.999999999999ap-6%float.
    rewrite Hlog. reflexivity.
Qed.

End BinaryFloats.

(* ================================================================= *)
(** * MultiVariantDesigner *)

Section MultiVariantDesigner.
Import JS.

Lemma find_filter_nil {A : Type} (f : A -> bool) (l : list A) :
  List.filter f l = [] -> List.find f l = None.
Proof.
  induction l as [|x l IH]; cbn [List.filter List.find]; [reflexivity|].
  destruct (f x); [discriminate | exact IH].
Qed.

(** With a control variant, the reported adjustment is the Bonferroni one:
    [alpha] over the number of non-control variants. *)
Lemma adjustment_with_control (config : Designer.ExperimentConfig)
    (control : Designer.ExperimentVariant) (dailyTraffic costPerVisitor : num) :
  List.find Designer.isControl (Designer.variants config) = Some control ->
  Designer.multipleComparisonsAdjustment
    (Designer.performDesignAnalysis config dailyTraffic costPerVisitor)
  = ((Fin 100 - Designer.significance config) / Fin 100)
    / Designer.length_num (Spec.treatments config).
Proof.
  intros H. unfold Designer.performDesignAnalysis. rewrite H. reflexivity.
Qed.

(** C1: the per-variant sample sizes do not depend on the significance level
    of the design, hence not on the adjusted alpha computed from it: the
    helper that receives the adjusted alpha computes at 1.96. *)
Theorem performDesignAnalysis_sample_sizes_ignore_significance
    (config : Designer.ExperimentConfig) (s dailyTraffic costPerVisitor : num) :
  Designer.sampleSizePerVariant
    (Designer.performDesignAnalysis (Spec.with_significance config s)
       dailyTraffic costPerVisitor)
  = Designer.sampleSizePerVariant
      (Designer.performDesignAnalysis config dailyTraffic costPerVisitor).
Proof.
  unfold Designer.performDesignAnalysis.
  cbn [Spec.with_significance Designer.variants].
  destruct (find Designer.isControl (Designer.variants config)); reflexivity.
Qed.

(** With a control variant, the sample sizes are the ones of the comparisons
    of the non-control variants with the first control. *)
Lemma sample_sizes_with_control (config : Designer.ExperimentConfig)
    (control : Designer.ExperimentVariant) (dailyTraffic costPerVisitor : num) :
  List.find Designer.isControl (Designer.variants config) = Some control ->
  Designer.sampleSizePerVariant
    (Designer.performDesignAnalysis config dailyTraffic costPerVisitor)
  = Designer.acc_sampleSizePerVariant
      (fold_left
         (Designer.forEach_step config control
            (Designer.multipleComparisonsAdjustment
               (Designer.performDesignAnalysis config dailyTraffic costPerVisitor)))
         (Spec.treatments config) Spec.empty_accumulator).
Proof.
  intros H. unfold Designer.performDesignAnalysis. rewrite H. reflexivity.
Qed.

(** At the default design the adjusted alpha is 0.05 at 95% and 0.01 at 99%,
    two designs that differ in nothing else. *)
Lemma default_design_adjustments :
  Designer.multipleComparisonsAdjustment
    (Designer.performDesignAnalysis Designer.DEFAULT_EXPERIMENT_CONFIG (Fin 1000) (Fin 0.5))
  = Fin 0.05 /\
  Designer.multipleComparisonsAdjustment
    (Designer.performDesignAnalysis
       (Spec.with_significance Designer.DEFAULT_EXPERIMENT_CONFIG (Fin 99))
       (Fin 1000) (Fin 0.5))
  = Fin 0.01.
Proof.
  split.
  - rewrite (adjustment_with_control _ (Spec.default_control)) by reflexivity.
    unfold Designer.length_num, Spec.treatments.
    cbn [Designer.DEFAULT_EXPERIMENT_CONFIG Designer.significance Designer.variants
         List.filter Designer.isControl negb length INR].
    js_eval. f_equal. lra.
  - rewrite (adjustment_with_control _ (Spec.default_control)) by reflexivity.
    unfold Designer.length_num, Spec.treatments.
    cbn [Spec.with_significance Designer.DEFAULT_EXPERIMENT_CONFIG Designer.significance
         Designer.variants List.filter Designer.isControl negb length INR].
    js_eval. f_equal. lra.
Qed.

(** C5, as amended: a design without a control variant gets the all-zero
    analysis; a design with a control variant, whatever the number of its
    controls and the sum of its allocations, gets the analysis of its
    non-control variants against its first control, with [alpha] over the
    number of non-control variants as the adjustment. *)
Theorem performDesignAnalysis_checks_control_only
    (config : Designer.ExperimentConfig) (dailyTraffic costPerVisitor : num) :
  (Spec.no_control config ->
   Designer.performDesignAnalysis config dailyTraffic costPerVisitor = Spec.all_zero) /\
  (forall control,
     List.find Designer.isControl (Designer.variants config) = Some control ->
     Designer.multipleComparisonsAdjustment
       (Designer.performDesignAnalysis config dailyTraffic costPerVisitor)
     = ((Fin 100 - Designer.significance config) / Fin 100)
       / Designer.length_num (Spec.treatments config)
     /\
     Designer.sampleSizePerVariant
       (Designer.performDesignAnalysis config dailyTraffic costPerVisitor)
     = Designer.acc_sampleSizePerVariant
         (fold_left
            (Designer.forEach_step config control
               (((Fin 100 - Designer.significance config) / Fin 100)
                / Designer.length_num (Spec.treatments config)))
            (Spec.treatments config) Spec.empty_accumulator)).
Proof.
  split.
  - intros H. unfold Designer.performDesignAnalysis.
    rewrite (find_filter_nil _ _ H). reflexivity.
  - intros control H. split.
    + apply (adjustment_with_control _ control). exact H.
    + rewrite (sample_sizes_with_control _ control) by exact H.
      rewrite (adjustment_with_control _ control) by exact H. reflexivity.
Qed.

Lemma performDesignAnalysis_checks_control_only_witness :
  Spec.no_control Spec.empty_design /\
  Designer.performDesignAnalysis Spec.empty_design (Fin 1000) (Fin 0.5) = Spec.all_zero.
Proof.
  assert (H : Spec.no_control Spec.empty_design) by reflexivity.
  split; [exact H|].
  apply (proj1 (performDesignAnalysis_checks_control_only
                  Spec.empty_design (Fin 1000) (Fin 0.5))).
  exact H.
Defined.

Lemma two_controls_adjustment :
  Designer.multipleComparisonsAdjustment
    (Designer.performDesignAnalysis Spec.two_controls_design (Fin 1000) (Fin 0.5))
  = Fin 0.05.
Proof.
  rewrite (adjustment_with_control _ (Spec.variant "a" 40 5 true)) by reflexivity.
  cbn [Spec.two_controls_design Spec.with_variants Designer.significance
       Designer.DEFAULT_EXPERIMENT_CONFIG].
  unfold Designer.length_num, Spec.treatments.
  cbn [Spec.two_controls_design Spec.with_variants Designer.variants List.filter
       Spec.variant Designer.isControl negb length INR].
  js_eval. f_equal. lra.
Qed.

Lemma unbalanced_adjustment :
  Designer.multipleComparisonsAdjustment
    (Designer.performDesignAnalysis Spec.unbalanced_design (Fin 1000) (Fin 0.5))
  = Fin 0.05.
Proof.
  rewrite (adjustment_with_control _ (Spec.variant "control" 50 5 true)) by reflexivity.
  cbn [Spec.unbalanced_design Designer.significance].
  unfold Designer.length_num, Spec.treatments.
  cbn [Spec.unbalanced_design Designer.variants List.filter Spec.variant
       Designer.isControl negb length INR].
  js_eval. f_equal. lra.
Qed.

Lemma unbalanced_total :
  Designer.totalAllocation (Designer.variants Spec.unbalanced_design) = Fin 80.
Proof.
  unfold Designer.totalAllocation.
  cbn [Spec.unbalanced_design Designer.variants fold_left Spec.variant
       Designer.trafficAllocation JS.add].
  f_equal. lra.
Qed.

(** C5, as stated, fails: a design with two controls and a design whose
    allocations sum to 80 are both analysed, with a nonzero adjustment. *)
Lemma invalid_designs_are_analysed :
  (Spec.invalid_design Spec.two_controls_design /\
   Designer.performDesignAnalysis Spec.two_controls_design (Fin 1000) (Fin 0.5)
   <> Spec.all_zero) /\
  (Spec.invalid_design Spec.unbalanced_design /\
   Designer.performDesignAnalysis Spec.unbalanced_design (Fin 1000) (Fin 0.5)
   <> Spec.all_zero).
Proof.
  split; split.
  - right; left. unfold Spec.several_controls. cbn. lia.
  - intros H. pose proof two_controls_adjustment as E. rewrite H in E.
    cbn [Spec.all_zero Designer.multipleComparisonsAdjustment] in E.
    injection E. lra.
  - right; right. unfold Spec.allocation_off. rewrite unbalanced_total.
    apply eq_Fin_neq. lra.
  - intros H. pose proof unbalanced_adjustment as E. rewrite H in E.
    cbn [Spec.all_zero Designer.multipleComparisonsAdjustment] in E.
    injection E. lra.
Qed.

End MultiVariantDesigner.

(* ================================================================= *)
(** * Further facts about numbers *)

Section MoreNumberFacts.
Import JS.

Lemma lt_Fin_false (a b : R) : (~ a < b)%R -> (Fin a <? Fin b) = false.
Proof. intros. js_eval; reflexivity. Qed.

Lemma le_Fin_false (a b : R) : (~ a <= b)%R -> (Fin a <=? Fin b) = false.
Proof. intros. js_eval; reflexivity. Qed.

Lemma neg_neg (x : num) : - - x = x.
Proof. destruct x; cbn [JS.neg]; try reflexivity. f_equal; lra. Qed.

Lemma neg_inf_signed (a : R) : inf_signed (- a) = - inf_signed a.
Proof. unfold inf_signed. js_eval; reflexivity. Qed.

Lemma add_comm (x y : num) : x + y = y + x.
Proof. destruct x, y; cbn [JS.add]; try reflexivity. f_equal; lra. Qed.

Lemma add_zero_r (x : num) : x + Fin 0 = x.
Proof. destruct x; cbn [JS.add]; try reflexivity. f_equal; lra. Qed.

Lemma neg_add (x y : num) : - (x + y) = - x + - y.
Proof. destruct x, y; cbn [JS.add JS.neg]; try reflexivity. f_equal; lra. Qed.

Lemma sub_anti (x y : num) : x - y = - (y - x).
Proof. unfold JS.sub. rewrite neg_add, neg_neg. apply add_comm. Qed.

Lemma mul_neg_l (x y : num) : (- x) * y = - (x * y).
Proof.
  destruct x as [a| | |], y as [b| | |]; cbn [JS.neg JS.mul]; try reflexivity.
  - f_equal; lra.
  - apply neg_inf_signed.
  - rewrite neg_inf_signed. reflexivity.
  - rewrite neg_neg. reflexivity.
Qed.

Lemma mul_neg_r (x y : num) : x * (- y) = - (x * y).
Proof.
  destruct x as [a| | |], y as [b| | |]; cbn [JS.neg JS.mul]; try reflexivity.
  - f_equal; lra.
  - rewrite neg_neg. reflexivity.
  - apply neg_inf_signed.
  - rewrite neg_inf_signed. reflexivity.
Qed.

Lemma div_neg_l (x y : num) : (- x) / y = - (x / y).
Proof.
  destruct x as [a| | |], y as [b| | |]; cbn [JS.neg JS.div]; try reflexivity.
  - destruct (Req_dec_T b 0); [apply neg_inf_signed|].
    cbn [JS.neg]. f_equal. field. assumption.
  - f_equal; lra.
  - f_equal; lra.
  - destruct (Rlt_dec b 0); reflexivity.
  - destruct (Rlt_dec b 0); reflexivity.
Qed.

Lemma abs_neg (x : num) : Math.abs (- x) = Math.abs x.
Proof. destruct x; cbn [JS.neg Math.abs]; try reflexivity. f_equal. apply Rabs_Ropp. Qed.

Lemma sqrt_two : Math.sqrt (Fin 2) = Fin (sqrt 2) /\ (0 < sqrt 2)%R.
Proof. split; [apply sqrt_Fin; lra | apply sqrt_lt_R0; lra]. Qed.

Lemma one_point_zero : 1.0%R = 1%R.
Proof. lra. Qed.

Lemma max_PInf_r (x : num) : x <> NaN -> Math.max x PInf = PInf.
Proof. destruct x; intros H; try reflexivity; congruence. Qed.

Lemma max_PInf_l (y : num) : y <> NaN -> Math.max PInf y = PInf.
Proof. destruct y; intros H; try reflexivity; congruence. Qed.

Lemma max_not_NaN (x y : num) : x <> NaN -> y <> NaN -> Math.max x y <> NaN.
Proof.
  destruct x, y; intros Hx Hy; cbn [Math.max]; try congruence;
    destruct (JS.lt _ _); congruence.
Qed.

(** The floor of a quotient of natural numbers is their integer quotient. *)
Lemma floor_nat_div (a n : nat) :
  (0 < n)%nat -> Zfloor (INR a / INR n) = Z.of_nat (a / n).
Proof.
  intros Hn. apply Zfloor_eq. rewrite <- !INR_IZR_INZ.
  assert (Hr : (0 < INR n)%R) by (apply lt_0_INR; exact Hn).
  pose proof (Nat.div_mod_eq a n) as E.
  pose proof (Nat.mod_upper_bound a n ltac:(lia)) as Hm.
  assert (Ea : INR a = (INR n * INR (a / n) + INR (a mod n))%R).
  { rewrite <- mult_INR, <- plus_INR. f_equal. exact E. }
  assert (H0 : (0 <= INR (a mod n))%R) by apply pos_INR.
  assert (H1 : (INR (a mod n) < INR n)%R) by (apply lt_INR; exact Hm).
  split.
  - apply Rmult_le_reg_r with (INR n); [exact Hr|]. unfold Rdiv.
    rewrite Rmult_assoc, Rinv_l by lra. nra.
  - apply Rmult_lt_reg_r with (INR n); [exact Hr|]. unfold Rdiv.
    rewrite Rmult_assoc, Rinv_l by lra. nra.
Qed.

(** On natural numbers [%] is the remainder of the division. *)
Lemma rem_nat (a n : nat) :
  (0 < n)%nat -> JS.rem (Fin (INR a)) (Fin (INR n)) = Fin (INR (a mod n)).
Proof.
  intros Hn. assert (Hr : (0 < INR n)%R) by (apply lt_0_INR; exact Hn).
  cbn [JS.rem]. destruct (Req_dec_T (INR n) 0); [lra|].
  unfold JS.trunc.
  assert (0 <= INR a / INR n)%R.
  { apply Rmult_le_pos; [apply pos_INR|]. left. apply Rinv_0_lt_compat. exact Hr. }
  destruct (Rlt_dec (INR a / INR n) 0); [lra|].
  rewrite floor_nat_div by exact Hn. rewrite <- INR_IZR_INZ. f_equal.
  pose proof (Nat.div_mod_eq a n) as E.
  assert (Ea : INR a = (INR n * INR (a / n) + INR (a mod n))%R).
  { rewrite <- mult_INR, <- plus_INR. f_equal. exact E. }
  lra.
Qed.

End MoreNumberFacts.

(* ================================================================= *)
(** * DistributionMath: ranges and symmetries *)

Section DistributionRanges.
Import JS.

Lemma exp_neg_square_bounds (x : R) : (0 < exp (- x * x) <= 1)%R.
Proof.
  split; [apply exp_pos|].
  rewrite <- exp_0.
  destruct (Req_dec_T x 0) as [-> | Hx].
  - replace (- 0 * 0)%R with 0%R by lra. lra.
  - left. apply exp_increasing. nra.
Qed.

(** The polynomial of the approximation, in Horner form, on (0, 1]. *)
Lemma erf_horner_bounds (t : R) :
  (0 < t <= 1)%R ->
  (0 < ((((1.061405429 * t + -1.453152027) * t + 1.421413741) * t + -0.284496736) * t
        + 0.254829592) * t <= 0.999999999)%R.
Proof.
  intros [Ht0 Ht1]. split.
  - apply Rmult_lt_0_compat; [|exact Ht0].
    assert (H1 : (0 < 1.061405429 * (t * t) + -1.453152027 * t + 0.5)%R).
    { pose proof (Rle_0_sqr (t - 0.6846)) as Hs. unfold Rsqr in Hs. lra. }
    assert (H2 : (0 < 0.254829592 + -0.284496736 * t + 0.921413741 * (t * t))%R).
    { pose proof (Rle_0_sqr (t - 0.15)) as Hs. unfold Rsqr in Hs. lra. }
    assert (H3 : (0 <= (t * t) * (1.061405429 * (t * t) + -1.453152027 * t + 0.5))%R).
    { apply Rmult_le_pos; [apply Rle_0_sqr | lra]. }
    lra.
  - assert (E :
      (0.999999999
       - ((((1.061405429 * t + -1.453152027) * t + 1.421413741) * t + -0.284496736) * t
          + 0.254829592) * t
       = (1 - t) * (0.999999999 + 0.745170407 * t + 1.029667143 * (t * t)
                    + -0.391746598 * (t * t * t) + 1.061405429 * (t * t * t * t)))%R)
      by lra.
    assert (B : (0 <= 0.999999999 + 0.745170407 * t + 1.029667143 * (t * t)
                    + -0.391746598 * (t * t * t) + 1.061405429 * (t * t * t * t))%R).
    { assert (0 <= t * t <= 1)%R by nra.
      assert (0 <= t * t * t <= 1)%R by nra.
      assert (0 <= t * t * t * t)%R by nra.
      nra. }
    assert (0 <= (1 - t) * (0.999999999 + 0.745170407 * t + 1.029667143 * (t * t)
                    + -0.391746598 * (t * t * t) + 1.061405429 * (t * t * t * t)))%R
      by (apply Rmult_le_pos; lra).
    lra.
Qed.

Lemma erf_abs_bounds (x : R) : (0 <= x)%R -> (1e-9 <= Spec.erf_abs x < 1)%R.
Proof.
  intros Hx. unfold Spec.erf_abs. cbv zeta.
  assert (Hd : (1 <= 1.0 + 0.3275911 * x)%R) by nra.
  assert (Ht : (0 < 1.0 / (1.0 + 0.3275911 * x) <= 1)%R).
  { split.
    - apply Rdiv_lt_0_compat; lra.
    - apply Rmult_le_reg_r with (1.0 + 0.3275911 * x)%R; [lra|].
      unfold Rdiv. rewrite Rmult_assoc, Rinv_l by lra. lra. }
  pose proof (erf_horner_bounds _ Ht) as [H0 H1].
  pose proof (exp_neg_square_bounds x) as [E0 E1].
  set (h := (((((1.061405429 * (1.0 / (1.0 + 0.3275911 * x)) + -1.453152027) *
      (1.0 / (1.0 + 0.3275911 * x)) + 1.421413741) * (1.0 / (1.0 + 0.3275911 * x)) +
      -0.284496736) * (1.0 / (1.0 + 0.3275911 * x)) + 0.254829592) *
      (1.0 / (1.0 + 0.3275911 * x)))%R) in *.
  set (e := exp (- x * x)) in *.
  nra.
Qed.

(** Over the reals, the error function of a finite number is a finite
    number of the same side, away from 0, 1 and -1. *)
Lemma erf_finite (r : R) :
  exists e : R,
    Stats.erf (Fin r) = Fin e /\
    ((0 <= r /\ 1e-9 <= e < 1) \/ (r < 0 /\ -1 < e <= -1e-9))%R.
Proof.
  destruct (Rle_dec 0 r) as [Hr | Hr].
  - exists (1 * Spec.erf_abs r)%R. split; [apply erf_Fin_nonneg; exact Hr|].
    pose proof (erf_abs_bounds r Hr) as [H1 H2]. left. lra.
  - exists (-1 * Spec.erf_abs (- r))%R. split; [apply erf_Fin_neg; lra|].
    pose proof (erf_abs_bounds (- r) ltac:(lra)) as [H1 H2]. right. lra.
Qed.

(** Over the reals, the normal CDF of a finite number is strictly between
    0 and 1, on the side of one half its argument is on. *)
Lemma normalCDF_finite (r : R) :
  exists c : R,
    Stats.normalCDF (Fin r) = Fin c /\
    ((0 <= r /\ 0.5000000005 <= c < 1) \/ (r < 0 /\ 0 < c <= 0.4999999995))%R.
Proof.
  unfold Stats.normalCDF. destruct sqrt_two as [-> Hs].
  rewrite div_Fin by lra.
  destruct (erf_finite (r / sqrt 2)) as (e & -> & He).
  exists (0.5 * (1 + e))%R. cbn [JS.add JS.mul]. split; [reflexivity|].
  destruct He as [[Hq He] | [Hq He]].
  - left. split; [|lra].
    replace r with ((r / sqrt 2) * sqrt 2)%R by (field; lra).
    apply Rmult_le_pos; lra.
  - right. split; [|lra].
    replace r with ((r / sqrt 2) * sqrt 2)%R by (field; lra).
    replace 0%R with (0 * sqrt 2)%R by lra.
    apply Rmult_lt_compat_r; lra.
Qed.

Lemma normalCDF_PInf : Stats.normalCDF PInf = Fin 1.
Proof.
  unfold Stats.normalCDF. destruct sqrt_two as [-> Hs].
  cbn [JS.div]. destruct (Rlt_dec (sqrt 2) 0); [lra|].
  rewrite erf_PInf. cbn [JS.add JS.mul]. f_equal; lra.
Qed.

Lemma normalCDF_NInf : Stats.normalCDF NInf = Fin 0.
Proof.
  unfold Stats.normalCDF. destruct sqrt_two as [-> Hs].
  cbn [JS.div]. destruct (Rlt_dec (sqrt 2) 0); [lra|].
  rewrite erf_NInf. cbn [JS.add JS.mul]. f_equal; lra.
Qed.

(** X1: the error function maps a finite number to a finite number of the
    same side: between 0 and 1 from zero on, between -1 and 0 below zero;
    it maps Infinity to 1, -Infinity to -1 and NaN to NaN. *)
Theorem erf_range (x : num) :
  match x with
  | Fin r =>
      exists e : R,
        Stats.erf x = Fin e /\
        ((0 <= r /\ 0 <= e <= 1) \/ (r < 0 /\ -1 <= e <= 0))%R
  | PInf => Stats.erf x = Fin 1
  | NInf => Stats.erf x = Fin (-1)
  | NaN => Stats.erf x = NaN
  end.
Proof.
  destruct x as [r| | |].
  - destruct (erf_finite r) as (e & He & [[Hr Hb] | [Hr Hb]]);
      exists e; (split; [exact He|]); [left | right]; lra.
  - apply erf_PInf.
  - apply erf_NInf.
  - reflexivity.
Qed.

(** X2: the normal CDF maps a finite number to a probability between 0 and
    1: at least one half from zero on, at most one half below zero; it maps
    Infinity to 1, -Infinity to 0 and NaN to NaN. *)
Theorem normalCDF_range (x : num) :
  match x with
  | Fin r =>
      exists c : R,
        Stats.normalCDF x = Fin c /\
        ((0 <= r /\ 0.5 <= c <= 1) \/ (r < 0 /\ 0 <= c <= 0.5))%R
  | PInf => Stats.normalCDF x = Fin 1
  | NInf => Stats.normalCDF x = Fin 0
  | NaN => Stats.normalCDF x = NaN
  end.
Proof.
  destruct x as [r| | |].
  - destruct (normalCDF_finite r) as (c & Hc & [[Hr Hb] | [Hr Hb]]);
      exists c; (split; [exact Hc|]); [left | right]; lra.
  - apply normalCDF_PInf.
  - apply normalCDF_NInf.
  - reflexivity.
Qed.

(** X3: for a finite [x] other than 0, [normalCDF(x)] and [normalCDF(-x)]
    are one half of [1 + e] and of [1 - e] for the same number [e], the
    error function of [x / sqrt(2)]: reflecting the argument only changes
    the sign of the error-function term. *)
Theorem normalCDF_reflection (r : R) :
  r <> 0%R ->
  exists e : R,
    Stats.erf (Fin r / Math.sqrt (Fin 2)) = Fin e /\
    Stats.normalCDF (Fin r) = Fin 0.5 * (Fin 1 + Fin e) /\
    Stats.normalCDF (- Fin r) = Fin 0.5 * (Fin 1 - Fin e).
Proof.
  intros Hr. unfold Stats.normalCDF. destruct sqrt_two as [-> Hs].
  cbn [JS.neg]. rewrite !div_Fin by lra.
  assert (Hq : (r / sqrt 2 <> 0)%R).
  { intros E. apply Hr. apply (Rmult_eq_compat_r (sqrt 2)) in E.
    unfold Rdiv in E. rewrite Rmult_assoc, Rinv_l in E by lra. lra. }
  replace (- r / sqrt 2)%R with (- (r / sqrt 2))%R by (field; lra).
  destruct (Rlt_dec (r / sqrt 2) 0).
  - rewrite (erf_Fin_neg (r / sqrt 2)) by lra.
    rewrite (erf_Fin_nonneg (- (r / sqrt 2))) by lra.
    eexists. split; [reflexivity|]. split; [reflexivity|].
    cbn [JS.add JS.mul JS.sub JS.neg]. f_equal. lra.
  - rewrite (erf_Fin_nonneg (r / sqrt 2)) by lra.
    rewrite (erf_Fin_neg (- (r / sqrt 2))) by lra. rewrite Ropp_involutive.
    eexists. split; [reflexivity|]. split; [reflexivity|].
    cbn [JS.add JS.mul JS.sub JS.neg]. f_equal. lra.
Qed.

Lemma normalCDF_reflection_witness :
  exists e : R,
    Stats.erf (Fin 1 / Math.sqrt (Fin 2)) = Fin e /\
    Stats.normalCDF (Fin 1) = Fin 0.5 * (Fin 1 + Fin e) /\
    Stats.normalCDF (- Fin 1) = Fin 0.5 * (Fin 1 - Fin e).
Proof. apply (normalCDF_reflection 1). lra. Defined.

(** The two-tailed p-value of a finite z-score. *)
Lemma two_tailed_p_value (z : R) :
  exists p : R,
    Fin 2 * (Fin 1 - Stats.normalCDF (Math.abs (Fin z))) = Fin p /\
    (0 < p <= 0.999999999)%R.
Proof.
  cbn [Math.abs].
  destruct (normalCDF_finite (Rabs z)) as (c & -> & Hc).
  exists (2 * (1 + - c))%R. cbn [JS.sub JS.neg JS.add JS.mul]. split; [reflexivity|].
  pose proof (Rabs_pos z) as Hz.
  destruct Hc as [[_ Hc] | [Hneg _]]; lra.
Qed.

Lemma pHigh_value : Stats.pHigh = Fin (1 + - (0.02425)).
Proof. reflexivity. Qed.

(** Over the reals, the inverse normal of utils/statisticalCalculations is
    antisymmetric about one half. *)
Lemma Stats_normalInverse_reflect (p : num) :
  Stats.normalInverse (Fin 1 - p) = - Stats.normalInverse p.
Proof.
  destruct p as [r| | |].
  - cbn [JS.sub JS.neg JS.add]. unfold Stats.normalInverse.
    rewrite pHigh_value. unfold Stats.pLow.
    destruct (Rlt_dec r 0.02425) as [Hlow | Hlow].
    + rewrite (proj2 (lt_Fin r _) Hlow).
      rewrite (lt_Fin_false (1 + - r)) by lra.
      rewrite (le_Fin_false (1 + - r)) by lra.
      cbv zeta. cbn [JS.sub JS.neg JS.add].
      replace (1 + - (1 + - r))%R with r by lra.
      apply div_neg_l.
    + rewrite (lt_Fin_false r) by lra.
      destruct (Rle_dec r (1 + - (0.02425))) as [Hhigh | Hhigh].
      * rewrite (proj2 (le_Fin r _) Hhigh).
        rewrite (lt_Fin_false (1 + - r)) by lra.
        rewrite (proj2 (le_Fin (1 + - r) _)) by lra.
        cbv zeta. cbn [JS.sub JS.neg JS.add JS.mul Stats.idx Stats.a Stats.b nth].
        replace (1 + - r + - (0.5))%R with (- (r + - (0.5)))%R by lra.
        set (q := (r + - (0.5))%R).
        replace (- q * - q)%R with (q * q)%R by lra.
        rewrite <- div_neg_l. cbn [JS.neg]. f_equal. f_equal. lra.
      * rewrite (le_Fin_false r) by lra.
        rewrite (proj2 (lt_Fin (1 + - r) _)) by lra.
        cbv zeta. cbn [JS.sub JS.neg JS.add].
        rewrite div_neg_l. rewrite neg_neg. reflexivity.
  - unfold Stats.normalInverse. js_eval; reflexivity.
  - unfold Stats.normalInverse. js_eval; reflexivity.
  - reflexivity.
Qed.

(** Over the reals, so is the inverse normal of the sequential
    calculator, clamps included. *)
Lemma Sequential_normalInverse_reflect (p : num) :
  Sequential.normalInverse (Fin 1 - p) = - Sequential.normalInverse p.
Proof.
  destruct p as [r| | |].
  - cbn [JS.sub JS.neg JS.add]. unfold Sequential.normalInverse, JS.ge.
    destruct (Rle_dec r 0) as [H0 | H0].
    { rewrite (proj2 (le_Fin r 0) H0).
      rewrite (le_Fin_false (1 + - r)) by lra.
      rewrite (proj2 (le_Fin 1 (1 + - r))) by lra. reflexivity. }
    rewrite (le_Fin_false r 0) by lra.
    destruct (Rle_dec 1 r) as [H1 | H1].
    { rewrite (proj2 (le_Fin 1 r) H1).
      rewrite (proj2 (le_Fin (1 + - r) 0)) by lra. reflexivity. }
    rewrite (le_Fin_false 1 r) by lra.
    rewrite (le_Fin_false (1 + - r) 0) by lra.
    rewrite (le_Fin_false 1 (1 + - r)) by lra.
    destruct (Req_dec_T r 0.5) as [-> | Hh].
    { rewrite eq_Fin_refl. rewrite (proj2 (eq_Fin (1 + - (0.5)) 0.5)) by lra.
      cbn [JS.neg]. f_equal; lra. }
    rewrite (eq_Fin_neq r 0.5) by assumption.
    rewrite (eq_Fin_neq (1 + - r) 0.5) by lra.
    cbv zeta. cbn [JS.sub JS.neg JS.add].
    destruct (Rlt_dec r 0.5) as [Hl | Hl].
    + rewrite (proj2 (lt_Fin r 0.5) Hl). rewrite (lt_Fin_false (1 + - r)) by lra.
      replace (1 + - (1 + - r))%R with r by lra.
      rewrite mul_minus_one, neg_neg. reflexivity.
    + rewrite (lt_Fin_false r 0.5) by lra.
      rewrite (proj2 (lt_Fin (1 + - r) 0.5)) by lra.
      rewrite mul_minus_one. reflexivity.
  - reflexivity.
  - reflexivity.
  - reflexivity.
Qed.

(** X4: the inverse normal of utils/statisticalCalculations is antisymmetric
    wherever the reflection is exact.  For [p] and [p'] both in the central
    branch with [p' - 0.5] the opposite of [p - 0.5], and for [p] in the
    lower tail and [p'] in the upper tail with [1 - p'] equal to [p],
    [normalInverse(p') = -normalInverse(p)]. *)
Theorem Stats_normalInverse_antisymmetric (p p' : R) :
  ((Fin p <? Stats.pLow) = false -> (Fin p <=? Stats.pHigh) = true ->
   (Fin p' <? Stats.pLow) = false -> (Fin p' <=? Stats.pHigh) = true ->
   Fin p' - Fin 0.5 = - (Fin p - Fin 0.5) ->
   Stats.normalInverse (Fin p') = - Stats.normalInverse (Fin p)) /\
  ((Fin p <? Stats.pLow) = true ->
   (Fin p' <? Stats.pLow) = false -> (Fin p' <=? Stats.pHigh) = false ->
   Fin 1 - Fin p' = Fin p ->
   Stats.normalInverse (Fin p') = - Stats.normalInverse (Fin p)).
Proof.
  split.
  - intros _ _ _ _ E. cbn [JS.sub JS.neg JS.add] in E. injection E as E.
    replace (Fin p') with (Fin 1 - Fin p)
      by (cbn [JS.sub JS.neg JS.add]; f_equal; lra).
    apply Stats_normalInverse_reflect.
  - intros _ _ _ E. cbn [JS.sub JS.neg JS.add] in E. injection E as E.
    replace (Fin p') with (Fin 1 - Fin p)
      by (cbn [JS.sub JS.neg JS.add]; f_equal; lra).
    apply Stats_normalInverse_reflect.
Qed.

Lemma Stats_normalInverse_antisymmetric_witness :
  Stats.normalInverse (Fin 0.75) = - Stats.normalInverse (Fin 0.25) /\
  Stats.normalInverse (Fin 0.984375) = - Stats.normalInverse (Fin 0.015625).
Proof.
  split.
  - apply (proj1 (Stats_normalInverse_antisymmetric 0.25 0.75)).
    + apply lt_Fin_false. lra.
    + apply le_Fin. lra.
    + apply lt_Fin_false. lra.
    + apply le_Fin. lra.
    + cbn [JS.sub JS.neg JS.add]. f_equal. lra.
  - apply (proj2 (Stats_normalInverse_antisymmetric 0.015625 0.984375)).
    + apply lt_Fin. lra.
    + apply lt_Fin_false. lra.
    + apply le_Fin_false. lra.
    + cbn [JS.sub JS.neg JS.add]. f_equal. lra.
Defined.

(** X5: the inverse normal of the sequential calculator is antisymmetric
    wherever the reflection is exact: for [p] below one half and [p'] with
    [1 - p'] equal to [p], [normalInverse(p') = -normalInverse(p)], clamps
    included. *)
Theorem Sequential_normalInverse_antisymmetric (p p' : R) :
  (p < 0.5)%R -> Fin 1 - Fin p' = Fin p ->
  Sequential.normalInverse (Fin p') = - Sequential.normalInverse (Fin p).
Proof.
  intros _ E. cbn [JS.sub JS.neg JS.add] in E. injection E as E.
  replace (Fin p') with (Fin 1 - Fin p)
    by (cbn [JS.sub JS.neg JS.add]; f_equal; lra).
  apply Sequential_normalInverse_reflect.
Qed.

Lemma Sequential_normalInverse_antisymmetric_witness :
  Sequential.normalInverse (Fin 0.75) = - Sequential.normalInverse (Fin 0.25).
Proof.
  apply (Sequential_normalInverse_antisymmetric 0.25 0.75); [lra|].
  cbn [JS.sub JS.neg JS.add]. f_equal. lra.
Defined.

End DistributionRanges.

(* ================================================================= *)
(** * TwoSampleTest: symmetry and ranges of the significance results *)

Section TwoSampleResults.
Import JS.

Lemma zScore_swap (st : Significance.State) :
  Significance.zScore (Significance.calculateSignificance (Cases.swap_arms st))
  = - Significance.zScore (Significance.calculateSignificance st).
Proof.
  destruct st as [nA cA nB cB lvl].
  unfold Significance.calculateSignificance, Cases.swap_arms.
  cbn [Significance.zScore Significance.visitorsA Significance.visitorsB
       Significance.conversionsA Significance.conversionsB Significance.confidenceLevel].
  rewrite (add_comm cB cA), (add_comm nB nA), (add_comm (Fin 1 / nB) (Fin 1 / nA)).
  rewrite (sub_anti (cA / nA) (cB / nB)). apply div_neg_l.
Qed.

(** X6: exchanging the two arms of the significance calculator negates the
    z-score and the effect size, mirrors the confidence interval about zero,
    and leaves the p-value, the significance verdict, the standard error
    and the achieved power unchanged, on every input. *)
Theorem calculateSignificance_swap (st : Significance.State) :
  let r := Significance.calculateSignificance st in
  let r' := Significance.calculateSignificance (Cases.swap_arms st) in
  Significance.zScore r' = - Significance.zScore r /\
  Significance.pValue r' = Significance.pValue r /\
  Significance.isSignificant r' = Significance.isSignificant r /\
  Significance.standardError r' = Significance.standardError r /\
  Significance.powerAchieved r' = Significance.powerAchieved r /\
  Significance.effectSize r' = - Significance.effectSize r /\
  Significance.confidenceInterval r'
  = (- snd (Significance.confidenceInterval r), - fst (Significance.confidenceInterval r)).
Proof.
  intros r r'. pose proof (zScore_swap st) as Hz. fold r r' in Hz.
  assert (Hp : Significance.pValue r' = Significance.pValue r).
  { change (Significance.pValue r')
      with (Fin 2 * (Fin 1 - Significance.normalCDF (Math.abs (Significance.zScore r')))).
    rewrite Hz, abs_neg. reflexivity. }
  split; [exact Hz|]. split; [exact Hp|].
  split.
  { change (Significance.isSignificant r')
      with (Significance.pValue r' <? (Fin 100 - Significance.confidenceLevel st) / Fin 100).
    rewrite Hp. reflexivity. }
  split.
  { subst r r'. destruct st as [nA cA nB cB lvl].
    unfold Significance.calculateSignificance, Cases.swap_arms.
    cbn [Significance.standardError Significance.visitorsA Significance.visitorsB
         Significance.conversionsA Significance.conversionsB].
    rewrite (add_comm cB cA), (add_comm nB nA), (add_comm (Fin 1 / nB) (Fin 1 / nA)).
    reflexivity. }
  split.
  { change (Significance.powerAchieved r')
      with (Math.max (Fin 0) (Math.min (Fin 100)
              (Significance.normalCDF (Math.abs (Significance.zScore r') - Fin 1.96)
               * Fin 100))).
    rewrite Hz, abs_neg. reflexivity. }
  split.
  { subst r r'. destruct st as [nA cA nB cB lvl].
    unfold Significance.calculateSignificance, Cases.swap_arms.
    cbn [Significance.effectSize Significance.visitorsA Significance.visitorsB
         Significance.conversionsA Significance.conversionsB].
    rewrite (sub_anti (Math.asin (Math.sqrt (cA / nA)))). apply mul_neg_r. }
  subst r r'. destruct st as [nA cA nB cB lvl].
  unfold Significance.calculateSignificance, Cases.swap_arms.
  cbn [Significance.confidenceInterval Significance.visitorsA Significance.visitorsB
       Significance.conversionsA Significance.conversionsB fst snd].
  rewrite (add_comm (cB / nB * (Fin 1 - cB / nB) / nB)).
  set (m := Fin 1.96 * Math.sqrt _).
  set (pA := cA / nA). set (pB := cB / nB).
  f_equal.
  - rewrite <- mul_neg_l. f_equal. unfold JS.sub.
    rewrite !neg_add, neg_neg. rewrite (add_comm pA). reflexivity.
  - rewrite <- mul_neg_l. f_equal. unfold JS.sub.
    rewrite !neg_add, !neg_neg. rewrite (add_comm pA). reflexivity.
Qed.

(** X7: on every input the p-value of [calculateSignificance] is a number
    between 0 and 1 or NaN, never negative, above 1 or infinite; and the
    verdict is significant only when the p-value is a number. *)
Theorem calculateSignificance_pValue_range (st : Significance.State) :
  match Significance.pValue (Significance.calculateSignificance st) with
  | Fin p => (0 <= p <= 1)%R
  | NaN => True
  | _ => False
  end /\
  (Significance.isSignificant (Significance.calculateSignificance st) = true ->
   exists p : R, Significance.pValue (Significance.calculateSignificance st) = Fin p).
Proof.
  set (r := Significance.calculateSignificance st).
  assert (Hp : Significance.pValue r
               = Fin 2 * (Fin 1 - Stats.normalCDF (Math.abs (Significance.zScore r))))
    by reflexivity.
  assert (Hrange : match Significance.pValue r with
                   | Fin p => (0 <= p <= 1)%R
                   | NaN => True
                   | _ => False
                   end).
  { rewrite Hp. destruct (Significance.zScore r) as [z| | |].
    - destruct (two_tailed_p_value z) as (q & -> & Hq). lra.
    - cbn [Math.abs]. rewrite normalCDF_PInf. cbn [JS.sub JS.neg JS.add JS.mul]. lra.
    - cbn [Math.abs]. rewrite normalCDF_PInf. cbn [JS.sub JS.neg JS.add JS.mul]. lra.
    - exact I. }
  split; [exact Hrange|].
  intros Hs.
  assert (Hlt : (Significance.pValue r
                 <? (Fin 100 - Significance.confidenceLevel st) / Fin 100) = true)
    by exact Hs.
  destruct (Significance.pValue r) as [q| | |]; try contradiction.
  - exists q. reflexivity.
  - discriminate Hlt.
Qed.

(** X8: on every input the achieved power is a number between 0 and 100 or
    NaN, never infinite; and with no conversion in arm A the relative
    improvement is 0, whatever the other inputs are. *)
Theorem calculateSignificance_edges (st : Significance.State) (nA nB cB level : num) :
  match Significance.powerAchieved (Significance.calculateSignificance st) with
  | Fin w => (0 <= w <= 100)%R
  | NaN => True
  | _ => False
  end /\
  Significance.relativeImprovement
    (Significance.calculateSignificance
       {| Significance.visitorsA := nA; Significance.conversionsA := Fin 0;
          Significance.visitorsB := nB; Significance.conversionsB := cB;
          Significance.confidenceLevel := level |}) = Fin 0.
Proof.
  split.
  - unfold Significance.calculateSignificance. cbn [Significance.powerAchieved].
    set (v := Significance.normalCDF _ * Fin 100).
    destruct v as [x| | |]; js_eval; try exact I; lra.
  - unfold Significance.calculateSignificance.
    cbn [Significance.relativeImprovement Significance.visitorsA Significance.conversionsA].
    destruct nA as [a| | |]; cbn [JS.div]; js_eval; reflexivity.
Qed.

End TwoSampleResults.

(* ================================================================= *)
(** * SequentialMonitor: the whole analysis *)

Section SequentialAnalysis.
Import JS.

Lemma calculateCurrentZScore_swap (st : Sequential.State) :
  Sequential.calculateCurrentZScore (Cases.swap_groups st)
  = - Sequential.calculateCurrentZScore st.
Proof.
  unfold Sequential.calculateCurrentZScore, Cases.swap_groups.
  cbn [Sequential.currentSampleSize Sequential.controlConversions
       Sequential.treatmentConversions].
  rewrite (add_comm (Sequential.treatmentConversions st)).
  cbv zeta.
  destruct (JS.eq _ _).
  - cbn [JS.neg]. f_equal; lra.
  - rewrite (sub_anti (Sequential.controlConversions st / _)). apply div_neg_l.
Qed.

Lemma calculateSequentialBounds_swap (st : Sequential.State) (n nMax : num) :
  Sequential.calculateSequentialBounds (Cases.swap_groups st) n nMax
  = Sequential.calculateSequentialBounds st n nMax.
Proof. reflexivity. Qed.

Lemma ge_neg_le (z : num) (u : R) :
  (z >=? Fin u) = true -> (- z <=? - Fin u) = true.
Proof.
  destruct z as [r| | |]; cbn [JS.neg]; intros H; try discriminate H.
  - apply ge_Fin in H. apply le_Fin. lra.
  - reflexivity.
Qed.

Lemma ge_pos_neg_lt (z : num) (u : R) :
  (0 < u)%R -> (z >=? Fin u) = true -> (- z >=? Fin u) = false.
Proof.
  destruct z as [r| | |]; cbn [JS.neg]; intros Hu H; try discriminate H.
  - apply ge_Fin in H. unfold JS.ge. js_eval; reflexivity.
  - reflexivity.
Qed.

(** X9: when harm stopping is enabled and the upper bound is a positive
    finite number, an analysis that recommends stopping for success
    recommends stopping for harm once the two groups' conversions are
    exchanged, and its z-score is the opposite. *)
Theorem success_becomes_harm (st : Sequential.State) (u : R) :
  Sequential.enableHarm st = true ->
  Sequential.upper (Sequential.bounds (Sequential.performSequentialAnalysis st)) = Fin u ->
  (0 < u)%R ->
  Sequential.recommendation (Sequential.performSequentialAnalysis st)
  = Sequential.stop_success ->
  Sequential.currentZ (Sequential.performSequentialAnalysis (Cases.swap_groups st))
  = - Sequential.currentZ (Sequential.performSequentialAnalysis st) /\
  Sequential.recommendation (Sequential.performSequentialAnalysis (Cases.swap_groups st))
  = Sequential.stop_harm.
Proof.
  intros Hh Hu Hpos Hrec.
  split; [apply calculateCurrentZScore_swap|].
  unfold Sequential.performSequentialAnalysis in *.
  cbn [Sequential.recommendation Sequential.bounds] in *.
  rewrite calculateCurrentZScore_swap.
  change (Sequential.currentSampleSize (Cases.swap_groups st))
    with (Sequential.currentSampleSize st).
  change (Sequential.maxSampleSize (Cases.swap_groups st)) with (Sequential.maxSampleSize st).
  rewrite calculateSequentialBounds_swap.
  change (Sequential.enableHarm (Cases.swap_groups st)) with (Sequential.enableHarm st).
  change (Sequential.enableFutility (Cases.swap_groups st)) with (Sequential.enableFutility st).
  set (b := Sequential.calculateSequentialBounds st _ _) in *.
  set (z := Sequential.calculateCurrentZScore st) in *.
  assert (Hz : (z >=? Fin u) = true).
  { unfold Sequential.recommend in Hrec. rewrite Hu in Hrec.
    destruct (z >=? Fin u); [reflexivity|].
    destruct (z <=? Sequential.lower b); [destruct (Sequential.enableHarm st); discriminate|].
    destruct (_ && _); discriminate. }
  assert (Hl : Sequential.lower b = - Fin u).
  { subst b. unfold Sequential.calculateSequentialBounds in *.
    cbn [Sequential.lower Sequential.upper] in *. rewrite Hu. reflexivity. }
  unfold Sequential.recommend. rewrite Hu, Hl, Hh.
  rewrite (ge_pos_neg_lt z u Hpos Hz), (ge_neg_le z u Hz). reflexivity.
Qed.

(** With 50 control and 100 treatment conversions out of 2000 users the
    Pocock analysis recommends stopping for success. *)
Lemma doubled_conversions_succeed :
  Sequential.recommendation
    (Sequential.performSequentialAnalysis (Cases.monitoring 2000 2000 50 100 "pocock"))
  = Sequential.stop_success.
Proof.
  unfold Sequential.performSequentialAnalysis. cbn [Sequential.recommendation].
  unfold Sequential.recommend.
  replace (Sequential.calculateSequentialBounds _ _ _).(Sequential.upper)
    with (Fin 2.024) by reflexivity.
  unfold Sequential.calculateCurrentZScore, Cases.monitoring.
  cbn [Sequential.currentSampleSize Sequential.controlConversions
       Sequential.treatmentConversions].
  cbv zeta. js_fin.
  set (X := ((50 + 100) / 2000 * (1 + - ((50 + 100) / 2000)) * (2 / (2000 / 2)))%R).
  assert (HX : (0 < X <= 0.02 * 0.02)%R) by (unfold X; lra).
  assert (Hs0 : (0 < sqrt X)%R) by (apply sqrt_lt_R0; lra).
  assert (Hs1 : (sqrt X <= 0.02)%R).
  { rewrite <- (sqrt_square 0.02) by lra. apply sqrt_le_1; lra. }
  rewrite sqrt_Fin by lra. rewrite eq_Fin_neq by lra. rewrite div_Fin by lra.
  assert (Hz : (2.024 <= (100 / (2000 / 2) + - (50 / (2000 / 2))) / sqrt X)%R).
  { apply Rmult_le_reg_r with (sqrt X); [exact Hs0|]. unfold Rdiv at 1.
    rewrite Rmult_assoc, Rinv_l by lra. lra. }
  rewrite (proj2 (ge_Fin _ _)) by lra. reflexivity.
Qed.

Lemma success_becomes_harm_witness :
  Sequential.currentZ
    (Sequential.performSequentialAnalysis
       (Cases.swap_groups (Cases.monitoring 2000 2000 50 100 "pocock")))
  = - Sequential.currentZ
        (Sequential.performSequentialAnalysis (Cases.monitoring 2000 2000 50 100 "pocock"))
  /\
  Sequential.recommendation
    (Sequential.performSequentialAnalysis
       (Cases.swap_groups (Cases.monitoring 2000 2000 50 100 "pocock")))
  = Sequential.stop_harm.
Proof.
  apply (success_becomes_harm (Cases.monitoring 2000 2000 50 100 "pocock") 2.024);
    [reflexivity | reflexivity | lra | exact doubled_conversions_succeed].
Defined.

(** X10: once the current sample size has reached a positive maximum, the
    probability of success is 1 when the z-score is strictly above the
    upper bound and 0 otherwise (NaN included); when it is 1, the expected
    sample size is the current sample size. *)
Theorem analysis_at_the_cap (st : Sequential.State) (c m : R) :
  Sequential.currentSampleSize st = Fin c ->
  Sequential.maxSampleSize st = Fin m ->
  (0 < m <= c)%R ->
  let r := Sequential.performSequentialAnalysis st in
  Sequential.probabilityOfSuccess r
  = (if Sequential.currentZ r >? Sequential.upper (Sequential.bounds r)
     then Fin 1 else Fin 0) /\
  ((Sequential.currentZ r >? Sequential.upper (Sequential.bounds r)) = true ->
   Sequential.expectedSampleSize r = Fin c).
Proof.
  intros Hc Hm Hcm r. subst r. unfold Sequential.performSequentialAnalysis.
  cbn [Sequential.probabilityOfSuccess Sequential.expectedSampleSize Sequential.currentZ
       Sequential.bounds].
  set (z := Sequential.calculateCurrentZScore st).
  set (b := Sequential.calculateSequentialBounds st _ _).
  assert (Hp : Sequential.calculateProbabilityOfSuccess st z b
               = if z >? Sequential.upper b then Fin 1 else Fin 0).
  { unfold Sequential.calculateProbabilityOfSuccess. rewrite Hc, Hm.
    rewrite div_Fin by lra. cbn [JS.sub JS.neg JS.add].
    rewrite (proj2 (le_Fin (1 + - (c / m)) 0)); [reflexivity|].
    assert (1 <= c / m)%R; [|lra].
    apply Rmult_le_reg_r with m; [lra|]. unfold Rdiv.
    rewrite Rmult_assoc, Rinv_l by lra. lra. }
  split; [exact Hp|]. intros Hz. rewrite Hp, Hz, Hc, Hm.
  cbn [JS.sub JS.neg JS.add JS.mul]. f_equal. lra.
Qed.

(** With 50 control and 100 treatment conversions out of 2500 users the
    z-score is above the Pocock bound. *)
Lemma past_the_cap_above_bound :
  (Sequential.currentZ
     (Sequential.performSequentialAnalysis (Cases.monitoring 2500 2000 50 100 "pocock"))
   >? Sequential.upper
        (Sequential.bounds
           (Sequential.performSequentialAnalysis
              (Cases.monitoring 2500 2000 50 100 "pocock")))) = true.
Proof.
  unfold Sequential.performSequentialAnalysis.
  cbn [Sequential.currentZ Sequential.bounds].
  replace (Sequential.calculateSequentialBounds _ _ _).(Sequential.upper)
    with (Fin 2.024) by reflexivity.
  unfold Sequential.calculateCurrentZScore, Cases.monitoring.
  cbn [Sequential.currentSampleSize Sequential.controlConversions
       Sequential.treatmentConversions].
  cbv zeta. js_fin.
  set (X := ((50 + 100) / 2500 * (1 + - ((50 + 100) / 2500)) * (2 / (2500 / 2)))%R).
  assert (HX : (0 < X <= 0.01 * 0.01)%R) by (unfold X; lra).
  assert (Hs0 : (0 < sqrt X)%R) by (apply sqrt_lt_R0; lra).
  assert (Hs1 : (sqrt X <= 0.01)%R).
  { rewrite <- (sqrt_square 0.01) by lra. apply sqrt_le_1; lra. }
  rewrite sqrt_Fin by lra. rewrite eq_Fin_neq by lra. rewrite div_Fin by lra.
  assert (Hz : (4 <= (100 / (2500 / 2) + - (50 / (2500 / 2))) / sqrt X)%R).
  { apply Rmult_le_reg_r with (sqrt X); [exact Hs0|]. unfold Rdiv at 1.
    rewrite Rmult_assoc, Rinv_l by lra. lra. }
  apply gt_Fin. lra.
Qed.

Lemma analysis_at_the_cap_witness :
  Sequential.probabilityOfSuccess
    (Sequential.performSequentialAnalysis (Cases.monitoring 2500 2000 50 100 "pocock"))
  = Fin 1 /\
  Sequential.expectedSampleSize
    (Sequential.performSequentialAnalysis (Cases.monitoring 2500 2000 50 100 "pocock"))
  = Fin 2500.
Proof.
  destruct (analysis_at_the_cap (Cases.monitoring 2500 2000 50 100 "pocock") 2500 2000)
    as [Hp He]; [reflexivity | reflexivity | lra |].
  split.
  - rewrite Hp, past_the_cap_above_bound. reflexivity.
  - apply He. exact past_the_cap_above_bound.
Defined.

Lemma history_nth (st : Sequential.State) (i : nat) (d : Sequential.BoundaryPoint) :
  (1 <= i <= 20)%nat ->
  nth (i - 1) (Sequential.generateBoundaryHistory st) d
  = let n := (Sequential.maxSampleSize st * Fin (INR i)) / Fin (INR Sequential.steps) in
    let bounds := Sequential.calculateSequentialBounds st n (Sequential.maxSampleSize st) in
    {| Sequential.bp_n := n;
       Sequential.upperBound := Sequential.upper bounds;
       Sequential.lowerBound := Sequential.lower bounds;
       Sequential.futilityBound := Sequential.futility bounds;
       Sequential.zScore :=
         if Math.abs (n - Sequential.currentSampleSize st)
            <? Sequential.maxSampleSize st / Fin (INR Sequential.steps)
         then Some (Sequential.calculateCurrentZScore st) else None |}.
Proof.
  intros Hi. unfold Sequential.generateBoundaryHistory.
  match goal with
  | |- nth _ (map ?f _) _ = _ =>
      rewrite (nth_indep _ d (f 0%nat))
        by (rewrite length_map, length_seq; unfold Sequential.steps; lia);
      rewrite (map_nth f)
  end.
  rewrite seq_nth by (unfold Sequential.steps; lia).
  replace (1 + (i - 1))%nat with i by lia. reflexivity.
Qed.

Lemma INR_steps : INR Sequential.steps = 20%R.
Proof. unfold Sequential.steps. simpl. lra. Qed.

(** X11: with the O'Brien-Fleming family, a significance level strictly
    between 0 and 1 and a positive maximum sample size of at most 1e300
    (so that no size of the history overflows), the upper bounds of the 20
    points of the boundary history never increase from a point to a later
    one, and at every point the lower bound is the opposite of the upper
    bound. *)
Theorem history_OBrienFleming_non_increasing
    (st : Sequential.State) (a m : R) (i j : nat) (d : Sequential.BoundaryPoint) :
  Sequential.boundaryType st = "obrien-fleming" ->
  Sequential.alpha st = Fin a -> (0 < a < 1)%R ->
  Sequential.maxSampleSize st = Fin m -> (0 < m <= 1e300)%R ->
  (1 <= i)%nat -> (i <= j)%nat -> (j <= 20)%nat ->
  (Sequential.upperBound (nth (i - 1) (Sequential.generateBoundaryHistory st) d)
   >=? Sequential.upperBound (nth (j - 1) (Sequential.generateBoundaryHistory st) d)) = true
  /\
  Sequential.lowerBound (nth (i - 1) (Sequential.generateBoundaryHistory st) d)
  = - Sequential.upperBound (nth (i - 1) (Sequential.generateBoundaryHistory st) d)
  /\
  Sequential.lowerBound (nth (j - 1) (Sequential.generateBoundaryHistory st) d)
  = - Sequential.upperBound (nth (j - 1) (Sequential.generateBoundaryHistory st) d).
Proof.
  intros Hb Ha Har Hm Hmr Hi Hij Hj.
  rewrite !history_nth by lia. cbv zeta.
  cbn [Sequential.upperBound Sequential.lowerBound].
  split; [|split; reflexivity].
  unfold Sequential.calculateSequentialBounds. cbn [Sequential.upper].
  rewrite Hb. cbn [String.eqb Ascii.eqb Bool.eqb]. rewrite Ha, Hm, INR_steps.
  cbn [JS.mul]. rewrite !div_Fin by lra.
  assert (Hi0 : (1 <= INR i)%R) by (apply (le_INR 1); lia).
  assert (Hle : (INR i <= INR j)%R) by (apply le_INR; lia).
  replace (m * INR i / 20 / m)%R with (INR i / 20)%R by (field; lra).
  replace (m * INR j / 20 / m)%R with (INR j / 20)%R by (field; lra).
  destruct (OBrienFleming_finite a (INR i / 20) Har ltac:(lra)) as (u1 & E1 & _).
  destruct (OBrienFleming_finite a (INR j / 20) Har ltac:(lra)) as (u2 & E2 & _).
  destruct (Req_dec_T (INR i) (INR j)) as [E | E].
  - rewrite <- E in *. rewrite E1. apply ge_Fin. lra.
  - pose proof (OBrienFleming_decreasing a (INR i / 20) (INR j / 20) Har ltac:(lra)) as Hgt.
    rewrite E1, E2 in *. apply gt_Fin in Hgt. apply ge_Fin. lra.
Qed.

Lemma history_OBrienFleming_non_increasing_witness :
  (Sequential.upperBound
     (nth (1 - 1)
        (Sequential.generateBoundaryHistory
           (Cases.monitoring 500 2000 50 60 "obrien-fleming"))
        (Sequential.Build_BoundaryPoint NaN NaN NaN NaN None))
   >=? Sequential.upperBound
         (nth (20 - 1)
            (Sequential.generateBoundaryHistory
               (Cases.monitoring 500 2000 50 60 "obrien-fleming"))
            (Sequential.Build_BoundaryPoint NaN NaN NaN NaN None))) = true
  /\
  Sequential.lowerBound
    (nth (1 - 1)
       (Sequential.generateBoundaryHistory
          (Cases.monitoring 500 2000 50 60 "obrien-fleming"))
       (Sequential.Build_BoundaryPoint NaN NaN NaN NaN None))
  = - Sequential.upperBound
        (nth (1 - 1)
           (Sequential.generateBoundaryHistory
              (Cases.monitoring 500 2000 50 60 "obrien-fleming"))
           (Sequential.Build_BoundaryPoint NaN NaN NaN NaN None))
  /\
  Sequential.lowerBound
    (nth (20 - 1)
       (Sequential.generateBoundaryHistory
          (Cases.monitoring 500 2000 50 60 "obrien-fleming"))
       (Sequential.Build_BoundaryPoint NaN NaN NaN NaN None))
  = - Sequential.upperBound
        (nth (20 - 1)
           (Sequential.generateBoundaryHistory
              (Cases.monitoring 500 2000 50 60 "obrien-fleming"))
           (Sequential.Build_BoundaryPoint NaN NaN NaN NaN None)).
Proof.
  apply (history_OBrienFleming_non_increasing
           (Cases.monitoring 500 2000 50 60 "obrien-fleming") 0.05 2000 1 20);
    [reflexivity | reflexivity | lra | reflexivity | lra | lia | lia | lia].
Defined.

(** X12: with a maximum sample size between 1 and 1e300 and the current
    sample size equal to the size the history computes for its k-th point,
    the boundary history carries the current z-score at the k-th point and
    carries none at the points two or more places away. *)
Theorem history_annotation (st : Sequential.State) (m : R) (k i : nat)
    (d : Sequential.BoundaryPoint) :
  Sequential.maxSampleSize st = Fin m -> (1 <= m <= 1e300)%R ->
  Sequential.currentSampleSize st = Fin m * Fin (INR k) / Fin (INR Sequential.steps) ->
  (1 <= i <= 20)%nat ->
  (i = k ->
   Sequential.zScore (nth (i - 1) (Sequential.generateBoundaryHistory st) d)
   = Some (Sequential.calculateCurrentZScore st)) /\
  ((i + 2 <= k \/ k + 2 <= i)%nat ->
   Sequential.zScore (nth (i - 1) (Sequential.generateBoundaryHistory st) d) = None).
Proof.
  intros Hm Hmr Hc Hi. rewrite history_nth by lia. cbv zeta.
  cbn [Sequential.zScore]. rewrite Hm, Hc, INR_steps.
  cbn [JS.mul]. rewrite !div_Fin by lra. cbn [JS.sub JS.neg JS.add Math.abs].
  replace (m * INR i / 20 + - (m * INR k / 20))%R
    with ((m / 20) * (INR i - INR k))%R by (field; lra).
  rewrite Rabs_mult, (Rabs_pos_eq (m / 20)) by lra.
  split.
  - intros ->. replace (INR k - INR k)%R with 0%R by lra. rewrite Rabs_R0.
    rewrite (proj2 (lt_Fin _ _)) by lra. reflexivity.
  - intros Hfar.
    assert (2 <= Rabs (INR i - INR k))%R.
    { destruct Hfar as [Hlt | Hgt].
      - apply le_INR in Hlt. rewrite plus_INR in Hlt. simpl in Hlt.
        rewrite Rabs_left1 by lra. lra.
      - apply le_INR in Hgt. rewrite plus_INR in Hgt. simpl in Hgt.
        rewrite Rabs_pos_eq by lra. lra. }
    rewrite lt_Fin_false by nra. reflexivity.
Qed.

Lemma history_annotation_witness :
  Sequential.zScore
    (nth (5 - 1)
       (Sequential.generateBoundaryHistory (Cases.monitoring 500 2000 50 60 "pocock"))
       (Sequential.Build_BoundaryPoint NaN NaN NaN NaN None))
  = Some (Sequential.calculateCurrentZScore (Cases.monitoring 500 2000 50 60 "pocock")) /\
  Sequential.zScore
    (nth (7 - 1)
       (Sequential.generateBoundaryHistory (Cases.monitoring 500 2000 50 60 "pocock"))
       (Sequential.Build_BoundaryPoint NaN NaN NaN NaN None))
  = None.
Proof.
  assert (Hc : Sequential.currentSampleSize (Cases.monitoring 500 2000 50 60 "pocock")
               = Fin 2000 * Fin (INR 5) / Fin (INR Sequential.steps)).
  { rewrite INR_steps. cbn [Cases.monitoring Sequential.currentSampleSize JS.mul].
    rewrite div_Fin by lra. f_equal. simpl. lra. }
  split.
  - apply (proj1 (history_annotation (Cases.monitoring 500 2000 50 60 "pocock") 2000 5 5
                    (Sequential.Build_BoundaryPoint NaN NaN NaN NaN None)
                    eq_refl ltac:(lra) Hc ltac:(lia))).
    reflexivity.
  - apply (proj2 (history_annotation (Cases.monitoring 500 2000 50 60 "pocock") 2000 5 7
                    (Sequential.Build_BoundaryPoint NaN NaN NaN NaN None)
                    eq_refl ltac:(lra) Hc ltac:(lia))).
    right. lia.
Defined.

End SequentialAnalysis.

(* ================================================================= *)
(** * SampleSize: the range of the helper *)

Section SampleSizeRange.
Import JS.

Lemma z_beta_of_pos (power : num) : (0.67 <= Cases.z_beta_of power <= 1.28)%R.
Proof. unfold Cases.z_beta_of. destruct (power === Fin 80), (power === Fin 90); lra. Qed.

Lemma z_beta_Fin (power : num) :
  (if power === Fin 80 then Fin 0.84 else if power === Fin 90 then Fin 1.28 else Fin 0.67)
  = Fin (Cases.z_beta_of power).
Proof. unfold Cases.z_beta_of. destruct (power === Fin 80), (power === Fin 90); reflexivity. Qed.

Lemma size_numerator_pos (zb p1 p2 : R) :
  (0 < zb)%R -> (0 < p1 < 1)%R -> (0 < p2 < 1)%R -> (0 < Cases.size_numerator zb p1 p2)%R.
Proof.
  intros Hz H1 H2. unfold Cases.size_numerator.
  assert (0 < sqrt (2 * ((p1 + p2) / 2) * (1 + - ((p1 + p2) / 2))))%R
    by (apply sqrt_lt_R0; nra).
  assert (0 < sqrt (p1 * (1 + - p1) + p2 * (1 + - p2)))%R
    by (apply sqrt_lt_R0; nra).
  assert (0 < zb * sqrt (p1 * (1 + - p1) + p2 * (1 + - p2)))%R
    by (apply Rmult_lt_0_compat; assumption).
  apply Rmult_lt_0_compat; lra.
Qed.

Lemma calculateSampleSize_Fin (b e : R) (power alpha : num) :
  (0 < b / 100 < 1)%R -> (0 < b / 100 * (1 + e / 100) < 1)%R ->
  Stats.calculateSampleSize (Fin b) (Fin e) power alpha
  = Math.ceil
      (Fin (Cases.size_numerator (Cases.z_beta_of power) (b / 100) (b / 100 * (1 + e / 100)))
       / Fin ((b / 100 * (1 + e / 100) + - (b / 100))
              * (b / 100 * (1 + e / 100) + - (b / 100)))).
Proof.
  intros H1 H2. rewrite calculateSampleSize_closed_form. unfold Spec.closed_form.
  rewrite z_beta_Fin. cbv zeta. js_fin.
  set (p1 := (b / 100)%R) in *. set (p2 := (p1 * (1 + e / 100))%R) in *.
  rewrite !sqrt_Fin by nra. cbn [JS.mul JS.add]. reflexivity.
Qed.

(** With a baseline percentage strictly between 0 and 100 and no effect the
    helper divides a positive number by zero. *)
Lemma no_effect_sample_size (b : R) (power alpha : num) :
  (0 < b < 100)%R ->
  Stats.calculateSampleSize (Fin b) (Fin 0) power alpha = PInf.
Proof.
  intros Hb.
  assert (H1 : (0 < b / 100 < 1)%R) by lra.
  assert (H2 : (0 < b / 100 * (1 + 0 / 100) < 1)%R) by lra.
  rewrite calculateSampleSize_Fin by assumption.
  pose proof (z_beta_of_pos power) as Hz.
  pose proof (size_numerator_pos (Cases.z_beta_of power) _ _ ltac:(lra) H1 H2) as Hn.
  js_eval; reflexivity.
Qed.

(** X13: with a baseline percentage from 0.000001 up to 100 (excluded) and
    a treatment percentage strictly between 0 and 100, [calculateSampleSize]
    returns Infinity when the effect is 0 and a whole number of at least 1
    when the effect is at least 0.000001 in absolute value, for every power
    and every alpha. *)
Theorem calculateSampleSize_range (b e : R) (power alpha : num) :
  (0.000001 <= b < 100)%R -> (0 < b * (1 + e / 100) < 100)%R ->
  (e = 0%R -> Stats.calculateSampleSize (Fin b) (Fin e) power alpha = PInf) /\
  ((0.000001 <= Rabs e)%R ->
   exists k : Z,
     Stats.calculateSampleSize (Fin b) (Fin e) power alpha = Fin (IZR k) /\ (1 <= k)%Z).
Proof.
  intros Hb Hp. split.
  { intros ->. apply no_effect_sample_size. lra. }
  intros He.
  assert (He0 : e <> 0%R).
  { intros ->. rewrite Rabs_R0 in He. lra. }
  assert (H1 : (0 < b / 100 < 1)%R) by lra.
  assert (H2 : (0 < b / 100 * (1 + e / 100) < 1)%R) by lra.
  rewrite calculateSampleSize_Fin by assumption.
  pose proof (z_beta_of_pos power) as Hz.
  pose proof (size_numerator_pos (Cases.z_beta_of power) _ _ ltac:(lra) H1 H2) as Hn.
  set (N := Cases.size_numerator _ _ _) in *.
  set (D := (b / 100 * (1 + e / 100) + - (b / 100))%R).
  assert (HD : D <> 0%R).
  { unfold D. replace (b / 100 * (1 + e / 100) + - (b / 100))%R
      with (b * e / 10000)%R by lra. nra. }
  assert (HDD : (0 < D * D)%R) by nra.
  rewrite div_Fin by lra. cbn [Math.ceil].
  exists (Zceil (N / (D * D))). split; [reflexivity|].
  assert (H0 : (0 < N / (D * D))%R) by (apply Rdiv_lt_0_compat; assumption).
  pose proof (Zceil_bound (N / (D * D))) as [_ Hc].
  assert (H3 : (0 < IZR (Zceil (N / (D * D))))%R) by lra.
  apply lt_IZR in H3. lia.
Qed.

Lemma calculateSampleSize_range_witness :
  Stats.calculateSampleSize (Fin 5) (Fin 0) (Fin 80) (Fin 0.05) = PInf /\
  exists k : Z,
    Stats.calculateSampleSize (Fin 5) (Fin 20) (Fin 80) (Fin 0.05) = Fin (IZR k)
    /\ (1 <= k)%Z.
Proof.
  split.
  - apply (proj1 (calculateSampleSize_range 5 0 (Fin 80) (Fin 0.05)
                    ltac:(lra) ltac:(lra))).
    reflexivity.
  - apply (proj2 (calculateSampleSize_range 5 20 (Fin 80) (Fin 0.05)
                    ltac:(lra) ltac:(lra))).
    rewrite Rabs_pos_eq by lra. lra.
Defined.

End SampleSizeRange.

(* ================================================================= *)
(** * MultiVariantDesigner: what the analysis records *)

Section Assignments.
Import JS.
Local Set Warnings "-clear-no-such-hyp".

Lemma dom_assign (k : string) (v : num) (m : gmap string num) :
  dom (Designer.assign k v m)
  = (if Cases.storable k then {[k]} else ∅) ∪ dom m.
Proof.
  unfold Designer.assign, Cases.storable.
  destruct (String.eqb k "__proto__"); cbn [negb].
  - set_solver.
  - apply dom_insert_L.
Qed.

Lemma lookup_assign_eq (k : string) (v : num) (m : gmap string num) :
  Cases.storable k = true -> Designer.assign k v m !! k = Some v.
Proof.
  unfold Designer.assign, Cases.storable.
  destruct (String.eqb k "__proto__"); cbn [negb]; [discriminate|].
  intros _. apply lookup_insert_eq.
Qed.

Lemma lookup_assign_ne (k k' : string) (v : num) (m : gmap string num) :
  k' <> k -> Designer.assign k v m !! k' = m !! k'.
Proof.
  intros H. unfold Designer.assign.
  destruct (String.eqb k "__proto__"); [reflexivity|].
  apply lookup_insert_ne. congruence.
Qed.

Lemma lookup_assign_proto (k : string) (v : num) (m : gmap string num) :
  m !! "__proto__" = None -> Designer.assign k v m !! "__proto__" = None.
Proof.
  intros H. unfold Designer.assign.
  destruct (String.eqb_spec k "__proto__") as [E | E]; [exact H|].
  rewrite lookup_insert_ne by exact E. exact H.
Qed.

Lemma map_Forall_assign (P : string -> num -> Prop) (k : string) (v : num)
    (m : gmap string num) :
  P k v -> map_Forall P m -> map_Forall P (Designer.assign k v m).
Proof.
  intros Hv Hm. unfold Designer.assign.
  destruct (String.eqb k "__proto__"); [exact Hm|].
  apply map_Forall_insert_2; assumption.
Qed.

Lemma stored_ids_cons (v : Designer.ExperimentVariant)
    (l : list Designer.ExperimentVariant) :
  Cases.stored_ids (v :: l)
  = if Cases.storable (Designer.id v)
    then Designer.id v :: Cases.stored_ids l else Cases.stored_ids l.
Proof. reflexivity. Qed.

End Assignments.

Section Fold.
Import JS.
Local Set Warnings "-clear-no-such-hyp".
Variable config : Designer.ExperimentConfig.
Variable control : Designer.ExperimentVariant.
Variable adj : num.

Lemma forEach_step_sizes acc v :
  Designer.acc_sampleSizePerVariant (Designer.forEach_step config control adj acc v)
  = Designer.assign (Designer.id control) (Cases.comparison_size config control v)
      (Designer.assign (Designer.id v) (Cases.comparison_size config control v)
         (Designer.acc_sampleSizePerVariant acc)).
Proof. reflexivity. Qed.

Lemma forEach_step_power acc v :
  Designer.acc_powerAnalysis (Designer.forEach_step config control adj acc v)
  = Designer.assign (Designer.id v) (Designer.power config)
      (Designer.acc_powerAnalysis acc).
Proof. reflexivity. Qed.

Lemma forEach_step_max acc v :
  Designer.acc_maxSampleSize (Designer.forEach_step config control adj acc v)
  = Math.max (Designer.acc_maxSampleSize acc) (Cases.comparison_size config control v).
Proof. reflexivity. Qed.

Lemma fold_snoc acc l v :
  fold_left (Designer.forEach_step config control adj) (l ++ [v]) acc
  = Designer.forEach_step config control adj
      (fold_left (Designer.forEach_step config control adj) l acc) v.
Proof. rewrite fold_left_app. reflexivity. Qed.

Lemma fold_power_dom l acc :
  dom (Designer.acc_powerAnalysis
         (fold_left (Designer.forEach_step config control adj) l acc))
  = dom (Designer.acc_powerAnalysis acc) ∪ list_to_set (Cases.stored_ids l).
Proof.
  revert acc. induction l as [|v l IH]; intros acc; cbn [fold_left].
  - cbn. set_solver.
  - rewrite IH, forEach_step_power, dom_assign, stored_ids_cons.
    destruct (Cases.storable (Designer.id v)); cbn [list_to_set]; set_solver.
Qed.

Lemma fold_power_values l acc :
  map_Forall (fun _ x => x = Designer.power config) (Designer.acc_powerAnalysis acc) ->
  map_Forall (fun _ x => x = Designer.power config)
    (Designer.acc_powerAnalysis
       (fold_left (Designer.forEach_step config control adj) l acc)).
Proof.
  revert acc. induction l as [|v l IH]; intros acc H; cbn [fold_left]; [exact H|].
  apply IH. rewrite forEach_step_power.
  apply map_Forall_assign; [reflexivity | exact H].
Qed.

Lemma fold_sizes_dom l acc :
  dom (Designer.acc_sampleSizePerVariant
         (fold_left (Designer.forEach_step config control adj) l acc))
  = dom (Designer.acc_sampleSizePerVariant acc) ∪ list_to_set (Cases.stored_ids l)
    ∪ (if l is [] then ∅
       else if Cases.storable (Designer.id control) then {[Designer.id control]} else ∅).
Proof.
  revert acc. induction l as [|v l IH]; intros acc; cbn [fold_left].
  - cbn. set_solver.
  - rewrite IH, forEach_step_sizes, !dom_assign, stored_ids_cons.
    destruct (Cases.storable (Designer.id v)), (Cases.storable (Designer.id control)),
      l; cbn [list_to_set]; set_solver.
Qed.

Lemma fold_last_control l v acc :
  Cases.storable (Designer.id control) = true ->
  Designer.acc_sampleSizePerVariant
    (fold_left (Designer.forEach_step config control adj) (l ++ [v]) acc)
  !! Designer.id control = Some (Cases.comparison_size config control v).
Proof. intros H. rewrite fold_snoc, forEach_step_sizes. apply lookup_assign_eq. exact H. Qed.

Lemma fold_keeps_entry l acc k x :
  k <> Designer.id control -> k ∉ (Designer.id <$> l) ->
  Designer.acc_sampleSizePerVariant acc !! k = Some x ->
  Designer.acc_sampleSizePerVariant
    (fold_left (Designer.forEach_step config control adj) l acc) !! k = Some x.
Proof.
  intros Hk. revert acc. induction l as [|v l IH]; intros acc Hl Hx; cbn [fold_left].
  - exact Hx.
  - cbn [fmap list_fmap] in Hl. apply not_elem_of_cons in Hl as [Hv Hl].
    apply IH; [exact Hl|]. rewrite forEach_step_sizes.
    rewrite lookup_assign_ne by exact Hk. rewrite lookup_assign_ne by exact Hv.
    exact Hx.
Qed.

Lemma fold_own_entry l1 v l2 acc :
  Cases.storable (Designer.id v) = true ->
  Designer.id v <> Designer.id control -> Designer.id v ∉ (Designer.id <$> l2) ->
  Designer.acc_sampleSizePerVariant
    (fold_left (Designer.forEach_step config control adj) (l1 ++ v :: l2) acc)
  !! Designer.id v = Some (Cases.comparison_size config control v).
Proof.
  intros Hs Hc Hl. rewrite fold_left_app. cbn [fold_left].
  apply fold_keeps_entry; [exact Hc | exact Hl|].
  rewrite forEach_step_sizes. rewrite lookup_assign_ne by exact Hc.
  apply lookup_assign_eq. exact Hs.
Qed.

Lemma fold_no_proto l acc :
  Designer.acc_sampleSizePerVariant acc !! "__proto__" = None ->
  Designer.acc_powerAnalysis acc !! "__proto__" = None ->
  Designer.acc_sampleSizePerVariant
    (fold_left (Designer.forEach_step config control adj) l acc) !! "__proto__" = None /\
  Designer.acc_powerAnalysis
    (fold_left (Designer.forEach_step config control adj) l acc) !! "__proto__" = None.
Proof.
  revert acc. induction l as [|v l IH]; intros acc Hs Hp; cbn [fold_left].
  - split; assumption.
  - apply IH.
    + rewrite forEach_step_sizes. do 2 apply lookup_assign_proto. exact Hs.
    + rewrite forEach_step_power. apply lookup_assign_proto. exact Hp.
Qed.

(** The callback reads the id, the rate and nothing else of a variant. *)
Lemma forEach_step_ext acc v w :
  Designer.id w = Designer.id v ->
  Math.abs
    (((Designer.expectedConversionRate w - Designer.expectedConversionRate control)
      / Designer.expectedConversionRate control) * Fin 100)
  = Math.abs
      (((Designer.expectedConversionRate v - Designer.expectedConversionRate control)
        / Designer.expectedConversionRate control) * Fin 100) ->
  Designer.forEach_step config control adj acc w
  = Designer.forEach_step config control adj acc v.
Proof. intros Hid He. unfold Designer.forEach_step. cbv zeta. rewrite Hid, He. reflexivity. Qed.

Lemma fold_max_not_NaN l acc :
  Designer.acc_maxSampleSize acc <> NaN ->
  Forall (fun v => Cases.comparison_size config control v <> NaN) l ->
  Designer.acc_maxSampleSize
    (fold_left (Designer.forEach_step config control adj) l acc) <> NaN.
Proof.
  revert acc. induction l as [|v l IH]; intros acc Ha Hl; cbn [fold_left]; [exact Ha|].
  inversion Hl; subst. apply IH; [|assumption].
  rewrite forEach_step_max. apply max_not_NaN; assumption.
Qed.

Lemma fold_max_PInf_stays l acc :
  Designer.acc_maxSampleSize acc = PInf ->
  Forall (fun v => Cases.comparison_size config control v <> NaN) l ->
  Designer.acc_maxSampleSize
    (fold_left (Designer.forEach_step config control adj) l acc) = PInf.
Proof.
  revert acc. induction l as [|v l IH]; intros acc Ha Hl; cbn [fold_left]; [exact Ha|].
  inversion Hl; subst. apply IH; [|assumption].
  rewrite forEach_step_max, Ha. apply max_PInf_l. assumption.
Qed.

Lemma fold_max_PInf l acc v0 :
  Designer.acc_maxSampleSize acc <> NaN ->
  Forall (fun v => Cases.comparison_size config control v <> NaN) l ->
  v0 ∈ l -> Cases.comparison_size config control v0 = PInf ->
  Designer.acc_maxSampleSize
    (fold_left (Designer.forEach_step config control adj) l acc) = PInf.
Proof.
  revert acc. induction l as [|v l IH]; intros acc Ha Hl Hin H0; cbn [fold_left].
  - inversion Hin.
  - inversion Hl; subst. apply elem_of_cons in Hin as [-> | Hin].
    + apply fold_max_PInf_stays; [|assumption].
      rewrite forEach_step_max, H0. apply max_PInf_r. exact Ha.
    + apply IH; try assumption.
      rewrite forEach_step_max. apply max_not_NaN; assumption.
Qed.

End Fold.

Section Analysis.
Import JS.
Variable config : Designer.ExperimentConfig.
Variable control : Designer.ExperimentVariant.
Variables dailyTraffic costPerVisitor : num.
Hypothesis Hcontrol :
  List.find Designer.isControl (Designer.variants config) = Some control.

Lemma analysis_sizes :
  Designer.sampleSizePerVariant
    (Designer.performDesignAnalysis config dailyTraffic costPerVisitor)
  = Designer.acc_sampleSizePerVariant
      (fold_left (Designer.forEach_step config control (Fin 0))
         (Spec.treatments config) Spec.empty_accumulator).
Proof using Hcontrol.
  unfold Designer.performDesignAnalysis. rewrite Hcontrol. reflexivity.
Qed.

Lemma analysis_power :
  Designer.powerAnalysis
    (Designer.performDesignAnalysis config dailyTraffic costPerVisitor)
  = Designer.acc_powerAnalysis
      (fold_left (Designer.forEach_step config control (Fin 0))
         (Spec.treatments config) Spec.empty_accumulator).
Proof using Hcontrol.
  unfold Designer.performDesignAnalysis. rewrite Hcontrol. reflexivity.
Qed.

Lemma analysis_total :
  Designer.totalSampleSize
    (Designer.performDesignAnalysis config dailyTraffic costPerVisitor)
  = Designer.acc_maxSampleSize
      (fold_left (Designer.forEach_step config control (Fin 0))
         (Spec.treatments config) Spec.empty_accumulator)
    * Designer.length_num (Designer.variants config)
    / (Designer.totalTrafficAllocation config / Fin 100).
Proof using Hcontrol.
  unfold Designer.performDesignAnalysis. rewrite Hcontrol. reflexivity.
Qed.

Lemma analysis_duration :
  Designer.expectedDuration
    (Designer.performDesignAnalysis config dailyTraffic costPerVisitor)
  = Math.ceil
      (Designer.totalSampleSize
         (Designer.performDesignAnalysis config dailyTraffic costPerVisitor)
       / dailyTraffic).
Proof using Hcontrol.
  unfold Designer.performDesignAnalysis. rewrite Hcontrol. reflexivity.
Qed.

End Analysis.

Section DesignAnalysis.
Import JS.
Local Set Warnings "-clear-no-such-hyp".

(** X14: when the design has a control, the analysis records a power entry
    for exactly the ids of the non-control variants other than
    ["__proto__"], under which a plain object stores nothing; each entry is
    the configured power.  It records a sample-size entry for exactly those
    ids and, when there is at least one non-control variant, the id of the
    control (unless that is ["__proto__"]). *)
Theorem analysis_entries (config : Designer.ExperimentConfig)
    (control : Designer.ExperimentVariant) (dailyTraffic costPerVisitor : num) :
  List.find Designer.isControl (Designer.variants config) = Some control ->
  let r := Designer.performDesignAnalysis config dailyTraffic costPerVisitor in
  dom (Designer.powerAnalysis r)
  = list_to_set (Cases.stored_ids (Spec.treatments config)) /\
  map_Forall (fun _ x => x = Designer.power config) (Designer.powerAnalysis r) /\
  dom (Designer.sampleSizePerVariant r)
  = list_to_set (Cases.stored_ids (Spec.treatments config))
    ∪ (if Spec.treatments config is [] then ∅
       else if Cases.storable (Designer.id control) then {[Designer.id control]} else ∅).
Proof.
  intros H r. subst r.
  rewrite (analysis_power _ control), (analysis_sizes _ control) by exact H.
  rewrite fold_power_dom, fold_sizes_dom.
  cbn [Spec.empty_accumulator Designer.acc_powerAnalysis Designer.acc_sampleSizePerVariant].
  rewrite !dom_empty_L. split; [set_solver|]. split; [|set_solver].
  apply fold_power_values. cbn [Spec.empty_accumulator Designer.acc_powerAnalysis].
  apply map_Forall_empty.
Qed.

Lemma analysis_entries_witness :
  let r := Designer.performDesignAnalysis Cases.three_arm_design (Fin 1000) (Fin 0.1) in
  dom (Designer.powerAnalysis r)
  = list_to_set (Cases.stored_ids (Spec.treatments Cases.three_arm_design)) /\
  map_Forall (fun _ x => x = Designer.power Cases.three_arm_design)
    (Designer.powerAnalysis r) /\
  dom (Designer.sampleSizePerVariant r)
  = list_to_set (Cases.stored_ids (Spec.treatments Cases.three_arm_design))
    ∪ (if Spec.treatments Cases.three_arm_design is [] then ∅
       else if Cases.storable (Designer.id Spec.default_control)
            then {[Designer.id Spec.default_control]} else ∅).
Proof.
  apply (analysis_entries Cases.three_arm_design Spec.default_control
           (Fin 1000) (Fin 0.1)).
  reflexivity.
Defined.

(** X15: the sample-size entries are written in the order of the
    non-control variants, and the control's entry at every turn.  So the
    entry under a non-control variant's id is the one of its own comparison
    with the control, provided the id is not ["__proto__"], is not the
    control's and is shared by no later non-control variant; the entry
    under the control's id (unless ["__proto__"]) is the comparison with
    the last non-control variant, the earlier ones being overwritten; and
    there is never an entry under ["__proto__"]. *)
Theorem sample_size_entries (config : Designer.ExperimentConfig)
    (control : Designer.ExperimentVariant) (dailyTraffic costPerVisitor : num)
    (earlier later : list Designer.ExperimentVariant) (v : Designer.ExperimentVariant) :
  List.find Designer.isControl (Designer.variants config) = Some control ->
  Spec.treatments config = earlier ++ v :: later ->
  (Cases.storable (Designer.id v) = true ->
   Designer.id v <> Designer.id control ->
   Designer.id v ∉ (Designer.id <$> later) ->
   Designer.sampleSizePerVariant
     (Designer.performDesignAnalysis config dailyTraffic costPerVisitor)
   !! Designer.id v = Some (Cases.comparison_size config control v)) /\
  (later = [] ->
   Cases.storable (Designer.id control) = true ->
   Designer.sampleSizePerVariant
     (Designer.performDesignAnalysis config dailyTraffic costPerVisitor)
   !! Designer.id control = Some (Cases.comparison_size config control v)) /\
  Designer.sampleSizePerVariant
    (Designer.performDesignAnalysis config dailyTraffic costPerVisitor)
  !! "__proto__" = None.
Proof.
  intros H Ht. rewrite (analysis_sizes _ control) by exact H. rewrite Ht.
  split; [|split].
  - intros Hs Hc Hl. apply fold_own_entry; assumption.
  - intros -> Hs. apply fold_last_control. exact Hs.
  - apply fold_no_proto; reflexivity.
Qed.

Lemma sample_size_entries_witness :
  Designer.sampleSizePerVariant
    (Designer.performDesignAnalysis Cases.three_arm_design (Fin 1000) (Fin 0.1))
  !! "b"
  = Some (Cases.comparison_size Cases.three_arm_design Spec.default_control
            (Spec.variant "b" 25 6 false)) /\
  Designer.sampleSizePerVariant
    (Designer.performDesignAnalysis Cases.three_arm_design (Fin 1000) (Fin 0.1))
  !! "control"
  = Some (Cases.comparison_size Cases.three_arm_design Spec.default_control
            (Spec.variant "c" 25 7 false)).
Proof.
  split.
  - apply (proj1 (sample_size_entries Cases.three_arm_design Spec.default_control
                    (Fin 1000) (Fin 0.1) [] [Spec.variant "c" 25 7 false]
                    (Spec.variant "b" 25 6 false) eq_refl eq_refl)).
    + reflexivity.
    + discriminate.
    + cbn. apply not_elem_of_cons. split; [discriminate | apply not_elem_of_nil].
  - apply (proj1 (proj2 (sample_size_entries Cases.three_arm_design Spec.default_control
                    (Fin 1000) (Fin 0.1) [Spec.variant "b" 25 6 false] []
                    (Spec.variant "c" 25 7 false) eq_refl eq_refl)));
      reflexivity.
Defined.

(** The relative effect of a variant [d] points below a control has the
    absolute value of the one of a variant [d] points above it. *)
Lemma effect_ignores_direction (c d : R) :
  Math.abs (((Fin (c - d) - Fin c) / Fin c) * Fin 100)
  = Math.abs (((Fin (c + d) - Fin c) / Fin c) * Fin 100).
Proof.
  cbn [JS.sub JS.neg JS.add].
  destruct (Req_dec_T c 0) as [-> | Hne].
  - cbn [JS.div]. destruct (Req_dec_T 0 0) as [_|]; [|lra].
    replace (0 - d + - 0)%R with (- (0 + d + - 0))%R by lra.
    generalize (0 + d + - 0)%R. intros x. unfold JS.inf_signed.
    js_eval; reflexivity.
  - rewrite !div_Fin by assumption. cbn [JS.mul Math.abs]. f_equal.
    replace ((c - d + - c) / c * 100)%R with (- ((c + d + - c) / c * 100))%R
      by (field; assumption).
    apply Rabs_Ropp.
Qed.

Lemma find_skips (pre post : list Designer.ExperimentVariant)
    (v : Designer.ExperimentVariant) :
  Designer.isControl v = false ->
  List.find Designer.isControl (pre ++ v :: post)
  = List.find Designer.isControl (pre ++ post).
Proof.
  intros Hv. induction pre as [|x pre IH]; cbn [app List.find].
  - rewrite Hv. reflexivity.
  - destruct (Designer.isControl x); [reflexivity | exact IH].
Qed.

Lemma treatments_split (config : Designer.ExperimentConfig)
    (pre post : list Designer.ExperimentVariant) (v : Designer.ExperimentVariant) :
  Designer.isControl v = false ->
  Spec.treatments (Spec.with_variants config (pre ++ v :: post))
  = List.filter (fun w => negb (Designer.isControl w)) pre
    ++ v :: List.filter (fun w => negb (Designer.isControl w)) post.
Proof.
  intros Hv. unfold Spec.treatments. cbn [Spec.with_variants Designer.variants].
  rewrite List.filter_app. cbn [List.filter]. rewrite Hv. reflexivity.
Qed.

(** X16: [performDesignAnalysis] takes the absolute value of the relative
    effect: two designs that differ only in one non-control variant,
    expected to convert [d] points above the control in one and [d] points
    below it in the other, get the same analysis. *)
Theorem analysis_ignores_direction (config : Designer.ExperimentConfig)
    (pre post : list Designer.ExperimentVariant)
    (control above below : Designer.ExperimentVariant) (c d : R)
    (dailyTraffic costPerVisitor : num) :
  List.find Designer.isControl (pre ++ above :: post) = Some control ->
  Designer.isControl above = false -> Designer.isControl below = false ->
  Designer.id below = Designer.id above ->
  Designer.expectedConversionRate control = Fin c ->
  Designer.expectedConversionRate above = Fin (c + d) ->
  Designer.expectedConversionRate below = Fin (c - d) ->
  Designer.performDesignAnalysis (Spec.with_variants config (pre ++ below :: post))
    dailyTraffic costPerVisitor
  = Designer.performDesignAnalysis (Spec.with_variants config (pre ++ above :: post))
      dailyTraffic costPerVisitor.
Proof.
  intros Hf Ha Hb Hid Hc Hra Hrb.
  assert (Hfb : List.find Designer.isControl (pre ++ below :: post) = Some control).
  { rewrite find_skips by exact Hb. rewrite <- (find_skips pre post above Ha). exact Hf. }
  unfold Designer.performDesignAnalysis.
  change (List.filter (fun v => negb (Designer.isControl v))
            (Designer.variants (Spec.with_variants config (pre ++ below :: post))))
    with (Spec.treatments (Spec.with_variants config (pre ++ below :: post))).
  change (List.filter (fun v => negb (Designer.isControl v))
            (Designer.variants (Spec.with_variants config (pre ++ above :: post))))
    with (Spec.treatments (Spec.with_variants config (pre ++ above :: post))).
  rewrite !treatments_split by assumption.
  cbn [Spec.with_variants Designer.variants Designer.significance Designer.power
       Designer.totalTrafficAllocation].
  rewrite Hf, Hfb. cbv zeta.
  unfold Designer.length_num. rewrite !length_app. cbn [length].
  rewrite !fold_left_app. cbn [fold_left].
  rewrite (forEach_step_ext _ control _ _ above below Hid).
  - reflexivity.
  - rewrite Hc, Hra, Hrb. apply effect_ignores_direction.
Qed.

Lemma analysis_ignores_direction_witness :
  Designer.performDesignAnalysis Cases.mirrored_design (Fin 1000) (Fin 0.1)
  = Designer.performDesignAnalysis
      (Spec.with_variants Designer.DEFAULT_EXPERIMENT_CONFIG
         ([Spec.default_control] ++ Cases.default_treatment :: []))
      (Fin 1000) (Fin 0.1).
Proof.
  apply (analysis_ignores_direction Designer.DEFAULT_EXPERIMENT_CONFIG
           [Spec.default_control] [] Spec.default_control Cases.default_treatment
           (Spec.variant "treatment" 50 4 false) 5 1 (Fin 1000) (Fin 0.1));
    try reflexivity.
  - cbn. f_equal. lra.
  - cbn. f_equal. lra.
Defined.

(** The comparison of a variant with a control of the same rate. *)
Lemma same_rate_comparison (config : Designer.ExperimentConfig)
    (control same : Designer.ExperimentVariant) (b : R) :
  Designer.expectedConversionRate control = Fin b -> (0 < b < 100)%R ->
  Designer.expectedConversionRate same = Fin b ->
  Cases.comparison_size config control same = PInf.
Proof.
  intros Hb Hbr Hs. unfold Cases.comparison_size. rewrite Hb, Hs.
  cbn [JS.sub JS.neg JS.add]. rewrite div_Fin by lra. cbn [JS.mul Math.abs].
  replace (Rabs ((b + - b) / b * 100)) with 0%R.
  - apply no_effect_sample_size. exact Hbr.
  - replace ((b + - b) / b * 100)%R with 0%R by (field; lra). symmetry. apply Rabs_R0.
Qed.

(** X17: when a non-control variant is expected to convert exactly as a
    control of rate strictly between 0 and 100 does, and no comparison is
    NaN, the total sample size and the expected duration of the analysis
    are Infinity, for every positive allocation total and daily traffic. *)
Theorem equal_rate_needs_infinite_sample (config : Designer.ExperimentConfig)
    (control same : Designer.ExperimentVariant) (costPerVisitor : num) (b a t : R) :
  List.find Designer.isControl (Designer.variants config) = Some control ->
  Designer.expectedConversionRate control = Fin b -> (0 < b < 100)%R ->
  same ∈ Spec.treatments config ->
  Designer.expectedConversionRate same = Fin b ->
  Forall (fun v => Cases.comparison_size config control v <> NaN) (Spec.treatments config) ->
  Designer.totalTrafficAllocation config = Fin a -> (0 < a)%R -> (0 < t)%R ->
  Designer.totalSampleSize
    (Designer.performDesignAnalysis config (Fin t) costPerVisitor) = PInf /\
  Designer.expectedDuration
    (Designer.performDesignAnalysis config (Fin t) costPerVisitor) = PInf.
Proof.
  intros H Hb Hbr Hin Hs Hall Ha Har Htr.
  assert (Hsame : Cases.comparison_size config control same = PInf)
    by (apply (same_rate_comparison config control same b); assumption).
  assert (Hmax : Designer.acc_maxSampleSize
            (fold_left (Designer.forEach_step config control (Fin 0))
               (Spec.treatments config) Spec.empty_accumulator) = PInf).
  { apply (fold_max_PInf config control (Fin 0) _ _ same); try assumption.
    cbn. discriminate. }
  assert (Hlen : (0 < INR (length (Designer.variants config)))%R).
  { apply lt_0_INR. destruct (Designer.variants config); [discriminate H | cbn; lia]. }
  assert (Htot : Designer.totalSampleSize
            (Designer.performDesignAnalysis config (Fin t) costPerVisitor) = PInf).
  { rewrite (analysis_total _ control) by exact H. rewrite Hmax, Ha.
    unfold Designer.length_num. rewrite div_Fin by lra. js_eval; reflexivity. }
  split; [exact Htot|].
  rewrite (analysis_duration _ control) by exact H.
  rewrite Htot. js_eval; reflexivity.
Qed.

Lemma equal_rate_needs_infinite_sample_witness :
  Designer.totalSampleSize
    (Designer.performDesignAnalysis Cases.same_rate_design (Fin 1000) (Fin 0.1)) = PInf /\
  Designer.expectedDuration
    (Designer.performDesignAnalysis Cases.same_rate_design (Fin 1000) (Fin 0.1)) = PInf.
Proof.
  apply (equal_rate_needs_infinite_sample Cases.same_rate_design Spec.default_control
           (Spec.variant "treatment" 50 5 false) (Fin 0.1) 5 100 1000).
  - reflexivity.
  - reflexivity.
  - lra.
  - cbn. left.
  - reflexivity.
  - apply Forall_cons. split; [|apply Forall_nil_2].
    rewrite (same_rate_comparison _ _ _ 5); [discriminate | reflexivity | lra | reflexivity].
  - reflexivity.
  - lra.
  - lra.
Defined.

End DesignAnalysis.

(* ================================================================= *)
(** * VariantConfig: what the handlers keep *)

Section VariantHandlers.
Import JS.

(** The floor of 100 / n is the integer quotient. *)
Lemma floor_hundred_div (n : nat) :
  (0 < n)%nat -> Zfloor (100 / INR n) = (100 / Z.of_nat n)%Z.
Proof.
  intros Hn. apply Zfloor_eq. rewrite INR_IZR_INZ.
  assert (Hz : (0 < Z.of_nat n)%Z) by lia.
  assert (Hr : (0 < IZR (Z.of_nat n))%R) by (apply IZR_lt; exact Hz).
  pose proof (Z.mul_div_le 100 (Z.of_nat n) Hz) as H1.
  pose proof (Z.mul_succ_div_gt 100 (Z.of_nat n) Hz) as H2.
  apply IZR_le in H1. apply IZR_lt in H2.
  rewrite mult_IZR in H1. rewrite mult_IZR in H2. unfold Z.succ in H2. rewrite plus_IZR in H2.
  set (q := IZR (100 / Z.of_nat n)) in *. set (m := IZR (Z.of_nat n)) in *.
  split.
  - apply Rmult_le_reg_r with m; [exact Hr|]. unfold Rdiv.
    rewrite Rmult_assoc, Rinv_l by lra. lra.
  - apply Rmult_lt_reg_r with m; [exact Hr|]. unfold Rdiv.
    rewrite Rmult_assoc, Rinv_l by lra. lra.
Qed.

Lemma balanced_variants (config : Designer.ExperimentConfig) :
  (0 < length (Designer.variants config))%nat ->
  Designer.variants (VariantConfig.balanceTrafficAllocation config)
  = imap
      (fun index v =>
         {| Designer.id := Designer.id v;
            Designer.name := Designer.name v;
            Designer.description := Designer.description v;
            Designer.trafficAllocation :=
              Fin (INR (Cases.share (length (Designer.variants config)) index));
            Designer.expectedConversionRate := Designer.expectedConversionRate v;
            Designer.isControl := Designer.isControl v |})
      (Designer.variants config).
Proof.
  intros Hn. unfold VariantConfig.balanceTrafficAllocation.
  cbn [Spec.with_variants Designer.variants].
  set (n := length (Designer.variants config)) in *.
  apply imap_ext. intros i v _. f_equal.
  unfold Designer.length_num. fold n.
  assert (Hr : (0 < INR n)%R) by (apply lt_0_INR; exact Hn).
  rewrite div_Fin by lra. cbn [Math.floor JS.mul JS.sub JS.neg JS.add].
  rewrite floor_hundred_div by exact Hn.
  assert (Hq : IZR (100 / Z.of_nat n) = INR (100 / n)).
  { rewrite INR_IZR_INZ. f_equal. rewrite Nat2Z.inj_div. reflexivity. }
  assert (Hm : (100 + - (IZR (100 / Z.of_nat n) * INR n))%R = INR (100 mod n)).
  { rewrite Hq. rewrite <- mult_INR.
    pose proof (Nat.div_mod_eq 100 n) as E.
    assert (E' : (INR 100 = INR (n * (100 / n)) + INR (100 mod n))%R)
      by (rewrite <- plus_INR; f_equal; exact E).
    rewrite (Nat.mul_comm (100 / n) n).
    replace 100%R with (INR 100) by (simpl; lra). lra. }
  rewrite Hm, Hq. unfold Cases.share. fold n.
  destruct (Nat.ltb_spec i (100 mod n)) as [Hlt | Hge].
  - rewrite (proj2 (lt_Fin _ _)) by (apply lt_INR; exact Hlt).
    cbn [JS.add]. f_equal. rewrite plus_INR. simpl. lra.
  - rewrite lt_Fin_false by (apply Rle_not_lt; apply le_INR; exact Hge).
    cbn [JS.add]. f_equal. rewrite plus_INR. simpl. lra.
Qed.

Lemma total_of_imap (g : nat -> nat) (l : list Designer.ExperimentVariant) (k : nat) (s : R) :
  fold_left (fun sum v => sum + Designer.trafficAllocation v)
    (imap (fun i v => Cases.reallocate g (k + i) v) l) (Fin s)
  = Fin (s + INR (sum_list_with g (seq k (length l)))).
Proof.
  revert k s. induction l as [|x l IH]; intros k s.
  - cbn. f_equal. lra.
  - cbn [imap fold_left length seq sum_list_with].
    cbn [Cases.reallocate Designer.trafficAllocation JS.add].
    rewrite (imap_ext _ (fun i v => Cases.reallocate g (S k + i) v)).
    2:{ intros i v _. cbn. f_equal. lia. }
    rewrite IH. f_equal. rewrite Nat.add_0_r, plus_INR. lra.
Qed.

Lemma sum_below (r k len : nat) :
  sum_list_with (fun i => if i <? r then 1 else 0)%nat (seq k len)
  = (Nat.min (k + len) r - Nat.min k r)%nat.
Proof.
  revert k. induction len as [|len IH]; intros k; cbn [seq sum_list_with].
  - rewrite Nat.add_0_r. lia.
  - rewrite IH. destruct (Nat.ltb_spec k r); lia.
Qed.

Lemma sum_share (n : nat) :
  (0 < n)%nat -> sum_list_with (Cases.share n) (seq 0 n) = 100%nat.
Proof.
  intros Hn.
  assert (E : forall l : list nat,
    sum_list_with (Cases.share n) l
    = (length l * (100 / n)
       + sum_list_with (fun i => if i <? 100 mod n then 1 else 0)%nat l)%nat).
  { induction l as [|x l IH]; cbn [sum_list_with length]; [reflexivity|].
    rewrite IH. unfold Cases.share. lia. }
  rewrite E, length_seq, sum_below.
  pose proof (Nat.mod_upper_bound 100 n ltac:(lia)).
  pose proof (Nat.div_mod_eq 100 n). lia.
Qed.

(** X18: balancing the traffic of a design with at least one variant gives
    whole allocations whose total, as the designer's effect recomputes it,
    is exactly 100, for every number of variants. *)
Theorem balanced_total (config : Designer.ExperimentConfig) :
  (0 < length (Designer.variants config))%nat ->
  Designer.totalTrafficAllocation
    (DesignerEffects.updateTotal (VariantConfig.balanceTrafficAllocation config))
  = Fin 100.
Proof.
  intros Hn. cbn [DesignerEffects.updateTotal Designer.totalTrafficAllocation].
  rewrite balanced_variants by exact Hn. unfold Designer.totalAllocation.
  rewrite (total_of_imap (Cases.share (length (Designer.variants config))) _ 0 0).
  rewrite sum_share by exact Hn. f_equal. simpl. lra.
Qed.

Lemma balanced_total_witness :
  Designer.totalTrafficAllocation
    (DesignerEffects.updateTotal
       (VariantConfig.balanceTrafficAllocation Designer.DEFAULT_EXPERIMENT_CONFIG))
  = Fin 100.
Proof. apply (balanced_total Designer.DEFAULT_EXPERIMENT_CONFIG). cbn. lia. Defined.

Lemma count_filter_map {A B : Type} (f : A -> bool) (g : B -> bool) (h : A -> B)
    (l : list A) :
  (forall x, g (h x) = f x) ->
  length (List.filter g (List.map h l)) = length (List.filter f l).
Proof.
  intros H. induction l as [|x l IH]; cbn [List.map List.filter]; [reflexivity|].
  rewrite H. destruct (f x); cbn [length]; rewrite IH; reflexivity.
Qed.

Lemma count_filter_imap {A B : Type} (f : A -> bool) (g : B -> bool) (h : nat -> A -> B)
    (l : list A) :
  (forall i x, g (h i x) = f x) ->
  length (List.filter g (imap h l)) = length (List.filter f l).
Proof.
  revert h. induction l as [|x l IH]; intros h H; cbn [imap List.filter]; [reflexivity|].
  rewrite H. destruct (f x); cbn [length]; rewrite IH; auto.
  - intros i y. apply H.
  - intros i y. apply H.
Qed.

Lemma count_id_NoDup (l : list Designer.ExperimentVariant) (v : Designer.ExperimentVariant) :
  List.NoDup (List.map Designer.id l) -> List.In v l ->
  length (List.filter (fun w => String.eqb (Designer.id w) (Designer.id v)) l) = 1%nat.
Proof.
  induction l as [|x l IH]; intros Hnd Hin; [destruct Hin|].
  cbn [List.map] in Hnd. inversion Hnd as [|? ? Hx Hl]; subst.
  cbn [List.filter]. destruct Hin as [-> | Hin].
  - rewrite String.eqb_refl. cbn [length]. f_equal.
    assert (E : List.filter (fun w => String.eqb (Designer.id w) (Designer.id v)) l = []).
    { clear IH Hnd Hl. induction l as [|y l IH]; [reflexivity|].
      cbn [List.filter]. destruct (String.eqb_spec (Designer.id y) (Designer.id v)) as [E|E].
      - exfalso. apply Hx. cbn [List.map]. left. exact E.
      - apply IH. intros H. apply Hx. cbn [List.map]. right. exact H. }
    rewrite E. reflexivity.
  - destruct (String.eqb_spec (Designer.id x) (Designer.id v)) as [E|E].
    + exfalso. apply Hx. rewrite E. apply List.in_map. exact Hin.
    + apply IH; assumption.
Qed.

Lemma controls_after_removal (l : list Designer.ExperimentVariant) (id : string) :
  (forall v, List.In v l -> Designer.id v = id -> Designer.isControl v = false) ->
  List.filter Designer.isControl
    (List.filter (fun v => negb (String.eqb (Designer.id v) id)) l)
  = List.filter Designer.isControl l.
Proof.
  induction l as [|x l IH]; intros Hid; [reflexivity|].
  assert (Hl : forall v, List.In v l -> Designer.id v = id -> Designer.isControl v = false)
    by (intros v Hv; apply Hid; right; exact Hv).
  cbn [List.filter].
  destruct (String.eqb_spec (Designer.id x) id) as [E|E]; cbn [negb List.filter].
  - rewrite (Hid x (or_introl eq_refl) E). apply IH. exact Hl.
  - destruct (Designer.isControl x); [f_equal|]; apply IH; exact Hl.
Qed.

(** X19: a design with exactly one control still has exactly one after
    balancing the traffic, after adding a variant, after an update that
    does not carry [isControl], and after removing a variant whose id no
    control has. *)
Theorem edits_keep_one_control (config : Designer.ExperimentConfig) :
  Cases.one_control config ->
  Cases.one_control (VariantConfig.balanceTrafficAllocation config) /\
  (forall now, Cases.one_control (VariantConfig.addVariant now config)) /\
  (forall id updates,
     VariantConfig.u_isControl updates = None ->
     Cases.one_control (VariantConfig.updateVariant config id updates)) /\
  (forall id,
     (forall v, List.In v (Designer.variants config) ->
                Designer.id v = id -> Designer.isControl v = false) ->
     Cases.one_control (VariantConfig.removeVariant config id)).
Proof.
  unfold Cases.one_control, Spec.controls. intros H. repeat split.
  - unfold VariantConfig.balanceTrafficAllocation.
    cbn [Spec.with_variants Designer.variants].
    rewrite (count_filter_imap Designer.isControl); [exact H | reflexivity].
  - intros now. unfold VariantConfig.addVariant.
    cbn [Spec.with_variants Designer.variants].
    rewrite List.filter_app. cbn [List.filter Designer.isControl].
    rewrite app_nil_r. exact H.
  - intros id updates Hu. unfold VariantConfig.updateVariant.
    cbn [Spec.with_variants Designer.variants].
    rewrite (count_filter_map Designer.isControl); [exact H|].
    intros x. destruct (String.eqb _ _); [|reflexivity].
    unfold VariantConfig.merge. cbn [Designer.isControl]. rewrite Hu. reflexivity.
  - intros id Hid. unfold VariantConfig.removeVariant.
    cbn [Spec.with_variants Designer.variants].
    rewrite controls_after_removal by exact Hid. exact H.
Qed.

Lemma edits_keep_one_control_witness :
  Cases.one_control (VariantConfig.balanceTrafficAllocation Designer.DEFAULT_EXPERIMENT_CONFIG)
  /\
  (forall now,
     Cases.one_control (VariantConfig.addVariant now Designer.DEFAULT_EXPERIMENT_CONFIG)) /\
  (forall id updates,
     VariantConfig.u_isControl updates = None ->
     Cases.one_control
       (VariantConfig.updateVariant Designer.DEFAULT_EXPERIMENT_CONFIG id updates)) /\
  (forall id,
     (forall v, List.In v (Designer.variants Designer.DEFAULT_EXPERIMENT_CONFIG) ->
                Designer.id v = id -> Designer.isControl v = false) ->
     Cases.one_control (VariantConfig.removeVariant Designer.DEFAULT_EXPERIMENT_CONFIG id)).
Proof. apply (edits_keep_one_control Designer.DEFAULT_EXPERIMENT_CONFIG). reflexivity. Defined.

(** X20: when the ids of the variants are pairwise distinct, turning the
    control switch of one of them on leaves exactly one control, whatever
    the number of controls before; the ids are unchanged. *)
Theorem control_switch_selects_one (config : Designer.ExperimentConfig)
    (variant : Designer.ExperimentVariant) :
  List.NoDup (Cases.ids config) -> List.In variant (Designer.variants config) ->
  Cases.one_control (VariantConfig.onCheckedChange config variant true) /\
  Cases.ids (VariantConfig.onCheckedChange config variant true) = Cases.ids config.
Proof.
  intros Hnd Hin. split.
  - unfold Cases.one_control, Spec.controls, VariantConfig.onCheckedChange.
    cbn [Spec.with_variants Designer.variants].
    rewrite (count_filter_map
               (fun w => String.eqb (Designer.id w) (Designer.id variant)));
      [|reflexivity].
    apply count_id_NoDup; assumption.
  - unfold Cases.ids, VariantConfig.onCheckedChange.
    cbn [Spec.with_variants Designer.variants].
    rewrite List.map_map. reflexivity.
Qed.

Lemma control_switch_selects_one_witness :
  Cases.one_control
    (VariantConfig.onCheckedChange Designer.DEFAULT_EXPERIMENT_CONFIG
       Cases.default_treatment true) /\
  Cases.ids
    (VariantConfig.onCheckedChange Designer.DEFAULT_EXPERIMENT_CONFIG
       Cases.default_treatment true)
  = Cases.ids Designer.DEFAULT_EXPERIMENT_CONFIG.
Proof.
  apply (control_switch_selects_one Designer.DEFAULT_EXPERIMENT_CONFIG
           Cases.default_treatment).
  - repeat constructor; cbn; intuition discriminate.
  - cbn. right. left. reflexivity.
Defined.

(** X21: adding a variant appends one non-control variant of allocation 0,
    so the number of variants grows by one and the total allocation the
    designer's effect recomputes is the one of the variants before. *)
Theorem addVariant_keeps_total (now : N) (config : Designer.ExperimentConfig) :
  length (Designer.variants (VariantConfig.addVariant now config))
  = S (length (Designer.variants config)) /\
  Designer.totalTrafficAllocation
    (DesignerEffects.updateTotal (VariantConfig.addVariant now config))
  = Designer.totalAllocation (Designer.variants config) /\
  Spec.controls (VariantConfig.addVariant now config) = Spec.controls config.
Proof.
  unfold VariantConfig.addVariant.
  cbn [DesignerEffects.updateTotal Designer.totalTrafficAllocation Spec.with_variants
       Designer.variants].
  split; [|split].
  - rewrite length_app. cbn [length]. lia.
  - unfold Designer.totalAllocation. rewrite fold_left_app. cbn [fold_left].
    cbn [Designer.trafficAllocation]. apply add_zero_r.
  - unfold Spec.controls. cbn [Spec.with_variants Designer.variants].
    rewrite List.filter_app. cbn [List.filter Designer.isControl]. apply app_nil_r.
Qed.

End VariantHandlers.

(* ================================================================= *)
(** * VirtualUserSimulator *)

Section SimulatorFacts.
Import JS.

Lemma INR_seven : INR 7 = 7%R. Proof. simpl. lra. Qed.

(** X22: on a whole day number the weekend pattern changes the rate only
    when the day modulo 7 is 0 or 6; the multiplier is then
    [1 + weekendEffect / 100], raised to 0.1 when it is below, and 1 on the
    other days. *)
Theorem weekend_multiplier (w : R) (k : nat) :
  Simulator.generateUserBehavior (Cases.weekend (Fin w)) (Fin (INR k)) "weekend_effect"
  = if ((k mod 7 =? 0) || (k mod 7 =? 6))%nat
    then Fin (Rmax 0.1 (1 + w / 100)) else Fin 1.
Proof.
  unfold Simulator.generateUserBehavior.
  cbn [String.eqb Ascii.eqb Bool.eqb Cases.weekend Simulator.weekendEffect].
  cbv zeta.
  rewrite <- INR_seven. rewrite rem_nat by lia.
  pose proof (Nat.mod_upper_bound k 7 ltac:(lia)) as Hm.
  set (r := (k mod 7)%nat) in *.
  assert (E0 : (Fin (INR r) === Fin 0) = (r =? 0)%nat).
  { destruct (Nat.eqb_spec r 0) as [-> | Hne].
    - apply eq_Fin. reflexivity.
    - apply eq_Fin_neq. apply not_0_INR. exact Hne. }
  assert (E6 : (Fin (INR r) === Fin 6) = (r =? 6)%nat).
  { destruct (Nat.eqb_spec r 6) as [-> | Hne].
    - apply eq_Fin. simpl. lra.
    - apply eq_Fin_neq. replace 6%R with (INR 6) by (simpl; lra).
      intros E. apply INR_eq in E. contradiction. }
  rewrite E0, E6.
  destruct ((r =? 0)%nat || (r =? 6)%nat).
  - rewrite div_Fin by lra. cbn [JS.add]. unfold Rmax.
    destruct (Rle_dec 0.1 (1 + w / 100)); js_eval; f_equal; lra.
  - js_eval; reflexivity.
Qed.

(** X23: for every pattern other than the weekend one and every day from 1
    to 30, the multiplier is a finite number between 0.5 and 1.5, whatever
    the parameters; and for a pattern that is none of the four named ones
    it is 1 on every day. *)
Theorem behaviour_multiplier_range (parameters : Simulator.SimulationParameters)
    (d : R) (pattern : string) :
  pattern <> "weekend_effect" -> (1 <= d <= 30)%R ->
  (exists m : R,
     Simulator.generateUserBehavior parameters (Fin d) pattern = Fin m /\
     (0.5 <= m <= 1.5)%R) /\
  (pattern <> "increasing" -> pattern <> "decreasing" -> pattern <> "seasonal" ->
   forall day : num, Simulator.generateUserBehavior parameters day pattern = Fin 1).
Proof.
  intros Hp Hd. split.
  { unfold Simulator.generateUserBehavior.
    destruct (String.eqb_spec pattern "increasing") as [_|_].
    { exists (0.5 + d * 0.5 / 30)%R. js_fin. split; [js_eval; reflexivity | lra]. }
    destruct (String.eqb_spec pattern "decreasing") as [_|_].
    { exists (1.5 + - (d * 0.5 / 30))%R. js_fin. split; [js_eval; reflexivity | lra]. }
    destruct (String.eqb_spec pattern "seasonal") as [_|_].
    { exists (1 + 0.3 * sin (d * 2 * PI / 7))%R.
      pose proof (SIN_bound (d * 2 * PI / 7)) as [S1 S2].
      unfold Math.PI. js_fin. cbn [Math.sin JS.mul JS.add].
      split; [js_eval; reflexivity | lra]. }
    destruct (String.eqb_spec pattern "weekend_effect") as [E|_]; [contradiction|].
    exists 1%R. split; [js_eval; reflexivity | lra]. }
  intros Hi Hdec Hs day. unfold Simulator.generateUserBehavior.
  destruct (String.eqb_spec pattern "increasing") as [E|_]; [contradiction|].
  destruct (String.eqb_spec pattern "decreasing") as [E|_]; [contradiction|].
  destruct (String.eqb_spec pattern "seasonal") as [E|_]; [contradiction|].
  destruct (String.eqb_spec pattern "weekend_effect") as [E|_]; [contradiction|].
  js_eval; reflexivity.
Qed.

Lemma behaviour_multiplier_range_witness :
  (exists m : R,
     Simulator.generateUserBehavior (Cases.weekend (Fin (-20))) (Fin 7) "uniform" = Fin m /\
     (0.5 <= m <= 1.5)%R) /\
  forall day : num,
    Simulator.generateUserBehavior (Cases.weekend (Fin (-20))) day "uniform" = Fin 1.
Proof.
  destruct (behaviour_multiplier_range (Cases.weekend (Fin (-20))) 7 "uniform")
    as [Hm Hu]; [discriminate | lra |].
  split; [exact Hm|]. apply Hu; discriminate.
Defined.

Lemma loop_test (r : R) (i : nat) :
  (Fin (INR i) <? Fin r) = (i <? Cases.trips r)%nat.
Proof.
  unfold Cases.trips. pose proof (Zceil_bound r) as [Hlo Hhi].
  destruct (Nat.ltb_spec i (Z.to_nat (Zceil r))) as [H | H].
  - apply lt_Fin. rewrite INR_IZR_INZ.
    assert (Z.of_nat i <= Zceil r - 1)%Z by lia.
    apply IZR_le in H0. rewrite minus_IZR in H0. lra.
  - apply lt_Fin_false. intros Hlt. rewrite INR_IZR_INZ in Hlt.
    assert (IZR (Z.of_nat i) < IZR (Zceil r))%R by lra.
    apply lt_IZR in H0. lia.
Qed.

Lemma incr_below (i : nat) :
  (N.of_nat i < 9007199254740992)%N -> Simulator.incr i = S i.
Proof.
  intros H. unfold Simulator.incr. apply N.ltb_lt in H. rewrite H. reflexivity.
Qed.

Lemma incr_bounded (i : nat) :
  (N.of_nat i <= 9007199254740992)%N ->
  (N.of_nat (Simulator.incr i) <= 9007199254740992)%N.
Proof.
  intros H. unfold Simulator.incr.
  destruct (N.ltb_spec (N.of_nat i) 9007199254740992); lia.
Qed.

Lemma trips_bounded (r : R) :
  (r <= Cases.two_53)%R -> (N.of_nat (Cases.trips r) <= 9007199254740992)%N.
Proof.
  intros Hr. unfold Cases.trips.
  assert (H : (Zceil r <= 9007199254740992)%Z).
  { rewrite <- (Zceil_eq 9007199254740992 Cases.two_53) by (unfold Cases.two_53; lra).
    apply Zceil_le. exact Hr. }
  lia.
Qed.

Lemma counter_below (i : nat) :
  (N.of_nat i <= 9007199254740992)%N -> (INR i <= Cases.two_53)%R.
Proof.
  intros H. rewrite INR_IZR_INZ. unfold Cases.two_53. apply IZR_le. lia.
Qed.

Lemma binomial_loop_finite (random : nat -> num) (r : R) (p : num)
    (fuel i successes next : nat) :
  (N.of_nat (Cases.trips r) <= 9007199254740992)%N ->
  (i <= Cases.trips r)%nat -> (successes <= i)%nat -> (Cases.trips r - i < fuel)%nat ->
  Simulator.binomial_loop random (Fin r) p fuel i successes next
  = Some ((successes + Cases.hits random p next (Cases.trips r - i))%nat,
          (next + (Cases.trips r - i))%nat).
Proof.
  intros Hn. revert i successes next.
  induction fuel as [|fuel IH]; intros i s next Hi Hs Hf; [lia|].
  cbn [Simulator.binomial_loop]. rewrite loop_test.
  destruct (Nat.ltb_spec i (Cases.trips r)) as [H | H].
  - rewrite (incr_below i) by lia.
    replace (Cases.trips r - i)%nat with (S (Cases.trips r - S i)) by lia.
    cbn [Cases.hits].
    destruct (random next <? p).
    + rewrite (incr_below s) by lia. rewrite IH by lia. f_equal. f_equal; lia.
    + rewrite IH by lia. f_equal. f_equal; lia.
  - replace (Cases.trips r - i)%nat with 0%nat by lia. cbn [Cases.hits].
    f_equal. f_equal; lia.
Qed.

(** Above 2^53 the counter never reaches [n]. *)
Lemma binomial_loop_stuck (random : nat -> num) (r : R) (p : num)
    (fuel i successes next : nat) :
  (Cases.two_53 < r)%R -> (N.of_nat i <= 9007199254740992)%N ->
  Simulator.binomial_loop random (Fin r) p fuel i successes next = None.
Proof.
  intros Hr. revert i successes next.
  induction fuel as [|fuel IH]; intros i s next Hi; [reflexivity|].
  cbn [Simulator.binomial_loop].
  pose proof (counter_below i Hi) as Hc.
  rewrite (proj2 (lt_Fin (INR i) r)) by lra.
  apply IH. apply incr_bounded. exact Hi.
Qed.

Lemma hits_le random p next k : (Cases.hits random p next k <= k)%nat.
Proof.
  revert next. induction k as [|k IH]; intros next; cbn [Cases.hits]; [lia|].
  specialize (IH (S next)). destruct (random next <? p); lia.
Qed.

Lemma hits_never random p next k :
  (forall j, (random j <? p) = false) -> Cases.hits random p next k = 0%nat.
Proof.
  intros H. revert next. induction k as [|k IH]; intros next; cbn [Cases.hits]; [reflexivity|].
  rewrite H, IH. reflexivity.
Qed.

Lemma hits_always random p next k :
  (forall j, (random j <? p) = true) -> Cases.hits random p next k = k.
Proof.
  intros H. revert next. induction k as [|k IH]; intros next; cbn [Cases.hits]; [reflexivity|].
  rewrite H, IH. reflexivity.
Qed.

Lemma trips_whole (z : Z) : Cases.trips (IZR z) = Z.to_nat z.
Proof. unfold Cases.trips. rewrite (Zceil_eq z (IZR z)) by lra. reflexivity. Qed.

(** X24: for a finite [n] of at most 2^53 the loop of [binomialRandom] ends
    after [ceil(n)] draws (none when [n] is not positive), whatever the
    draws are, and the count it returns is at most that number; for a
    finite [n] above 2^53 the counter stops at 2^53 and the loop never
    ends. *)
Theorem binomialRandom_finite (random : nat -> num) (r : R) (p : num) (fuel next : nat) :
  ((r <= Cases.two_53)%R -> (Cases.trips r < fuel)%nat ->
   exists successes : nat,
     Simulator.binomialRandom random (Fin r) p fuel next
     = Some (successes, (next + Cases.trips r)%nat) /\
     (successes <= Cases.trips r)%nat) /\
  ((Cases.two_53 < r)%R ->
   Simulator.binomialRandom random (Fin r) p fuel next = None).
Proof.
  unfold Simulator.binomialRandom. split.
  - intros Hr Hf.
    rewrite binomial_loop_finite by (try apply trips_bounded; try assumption; lia).
    rewrite Nat.sub_0_r. eexists. split; [reflexivity|]. apply hits_le.
  - intros Hr. apply binomial_loop_stuck; [exact Hr | lia].
Qed.

Lemma binomialRandom_finite_witness :
  (exists successes : nat,
     Simulator.binomialRandom Cases.halves (Fin 3) (Fin 0.06) 5 0
     = Some (successes, (0 + Cases.trips 3)%nat) /\
     (successes <= Cases.trips 3)%nat) /\
  Simulator.binomialRandom Cases.halves (Fin 9007199254740994) (Fin 0.06) 5 0 = None.
Proof.
  split.
  - apply (proj1 (binomialRandom_finite Cases.halves 3 (Fin 0.06) 5 0)).
    + unfold Cases.two_53. lra.
    + rewrite (trips_whole 3). cbn. lia.
  - apply (proj2 (binomialRandom_finite Cases.halves 9007199254740994 (Fin 0.06) 5 0)).
    unfold Cases.two_53. lra.
Defined.

Lemma unit_draw_vs_low (u : num) (q : R) :
  (Fin 0 <=? u) = true -> (q <= 0)%R -> (u <? Fin q) = false.
Proof.
  destruct u as [x| | |]; intros Hu Hq; try reflexivity; try discriminate Hu.
  apply le_Fin in Hu. apply lt_Fin_false. lra.
Qed.

Lemma unit_draw_vs_high (u : num) (q : R) :
  (u <? Fin 1) = true -> (1 <= q)%R -> (u <? Fin q) = true.
Proof.
  destruct u as [x| | |]; intros Hu Hq; try reflexivity; try discriminate Hu.
  apply lt_Fin in Hu. apply lt_Fin. lra.
Qed.

(** X25: with draws in [0, 1), as [Math.random] gives, and a finite [n] of
    at most 2^53, a probability of at most 0 counts no success and a
    probability of at least 1 counts every draw. *)
Theorem binomialRandom_sure (random : nat -> num) (r q : R) (fuel next : nat) :
  (forall j, (Fin 0 <=? random j) = true /\ (random j <? Fin 1) = true) ->
  (r <= Cases.two_53)%R ->
  (Cases.trips r < fuel)%nat ->
  (q <= 0 \/ 1 <= q)%R ->
  Simulator.binomialRandom random (Fin r) (Fin q) fuel next
  = Some ((if Rle_dec 1 q then Cases.trips r else 0%nat), (next + Cases.trips r)%nat).
Proof.
  intros Hu Hr Hf Hq. unfold Simulator.binomialRandom.
  rewrite binomial_loop_finite by (try apply trips_bounded; try assumption; lia).
  rewrite Nat.sub_0_r.
  destruct (Rle_dec 1 q) as [H1 | H1].
  - rewrite hits_always; [reflexivity|].
    intros j. apply unit_draw_vs_high; [apply Hu | exact H1].
  - rewrite hits_never; [reflexivity|].
    intros j. apply unit_draw_vs_low; [apply Hu | lra].
Qed.

Lemma binomialRandom_sure_witness :
  Simulator.binomialRandom Cases.halves (Fin 3) (Fin 1) 5 0
  = Some ((if Rle_dec 1 1 then Cases.trips 3 else 0%nat), (0 + Cases.trips 3)%nat).
Proof.
  apply (binomialRandom_sure Cases.halves 3 1 5 0).
  - intros j. split; [apply le_Fin | apply lt_Fin]; lra.
  - unfold Cases.two_53. lra.
  - rewrite (trips_whole 3). cbn. lia.
  - right. lra.
Defined.

Lemma binomial_loop_unbounded (random : nat -> num) (p : num) (fuel i successes next : nat) :
  Simulator.binomial_loop random PInf p fuel i successes next = None.
Proof.
  revert i successes next. induction fuel as [|fuel IH]; intros i s next; [reflexivity|].
  cbn [Simulator.binomial_loop JS.lt]. apply IH.
Qed.

(** X26: with [n] Infinity the loop of [binomialRandom] never ends: it
    runs out of every amount of fuel; with [n] NaN or -Infinity it ends at
    once with no success and no draw. *)
Theorem binomialRandom_unbounded (random : nat -> num) (p : num) (fuel next : nat) :
  Simulator.binomialRandom random PInf p fuel next = None /\
  Simulator.binomialRandom random NaN p (S fuel) next = Some (0%nat, next) /\
  Simulator.binomialRandom random NInf p (S fuel) next = Some (0%nat, next).
Proof.
  split; [apply binomial_loop_unbounded | split; reflexivity].
Qed.

(** At a non-negative real [erfcApprox] is the complement of the error
    function of utils/statisticalCalculations. *)
Lemma erfcApprox_nonneg (x : R) :
  (0 <= x)%R -> Simulator.erfcApprox (Fin x) = Fin (1 - Spec.erf_abs x).
Proof.
  intros Hx. unfold Simulator.erfcApprox, Spec.erf_abs.
  cbv beta iota zeta delta [Math.abs]. rewrite (Rabs_pos_eq x Hx).
  rewrite one_point_zero.
  assert (Hd : (1 + 0.3275911 * x <> 0)%R) by nra.
  js_eval; f_equal; lra.
Qed.

Lemma erfcApprox_range (x : num) :
  (x = NaN \/ x = PInf \/ exists r : R, x = Fin r /\ (0 <= r)%R) ->
  match Simulator.erfcApprox x with
  | Fin p => (0 <= p <= 1)%R
  | NaN => True
  | _ => False
  end.
Proof.
  intros [-> | [-> | (r & -> & Hr)]].
  - exact I.
  - unfold Simulator.erfcApprox. js_eval; lra.
  - rewrite erfcApprox_nonneg by exact Hr.
    pose proof (erf_abs_bounds r Hr). lra.
Qed.

(** The quotient of an absolute value by a square root that is not 0 is
    NaN, Infinity or a finite number that is not negative, and so is that
    quotient over the square root of 2. *)
Lemma score_sign (v w : num) :
  (Math.sqrt w === Fin 0) = false ->
  let x := Math.abs v / Math.sqrt w / Math.sqrt (Fin 2) in
  x = NaN \/ x = PInf \/ exists r : R, x = Fin r /\ (0 <= r)%R.
Proof.
  intros Hse x. subst x. destruct sqrt_two as [-> Hs2].
  assert (Ha : Math.abs v = NaN \/ Math.abs v = PInf
               \/ exists a : R, Math.abs v = Fin a /\ (0 <= a)%R).
  { destruct v as [a| | |]; cbn [Math.abs]; auto.
    right; right. exists (Rabs a). split; [reflexivity | apply Rabs_pos]. }
  assert (Hw : Math.sqrt w = NaN \/ Math.sqrt w = PInf
               \/ exists s : R, Math.sqrt w = Fin s /\ (0 < s)%R).
  { destruct w as [b| | |]; cbn [Math.sqrt] in *; auto.
    destruct (Rlt_dec b 0); [auto|].
    right; right. exists (sqrt b). split; [reflexivity|].
    pose proof (sqrt_pos b) as Hp.
    destruct (Req_dec_T (sqrt b) 0) as [E | E]; [|lra].
    rewrite E, eq_Fin_refl in Hse. discriminate Hse. }
  destruct Ha as [-> | [-> | (a & -> & Ha)]];
    destruct Hw as [-> | [-> | (s & -> & Hs)]].
  - left. reflexivity.
  - left. reflexivity.
  - left. reflexivity.
  - left. reflexivity.
  - left. reflexivity.
  - right; left. cbn [JS.div]. destruct (Rlt_dec s 0); [lra|].
    cbn [JS.div]. destruct (Rlt_dec (sqrt 2) 0); [lra | reflexivity].
  - left. reflexivity.
  - right; right. change (Fin a / PInf) with (Fin 0). rewrite div_Fin by lra.
    exists (0 / sqrt 2)%R. split; [reflexivity|].
    unfold Rdiv. rewrite Rmult_0_l. lra.
  - right; right. rewrite !div_Fin by lra.
    eexists. split; [reflexivity|].
    apply Rmult_le_pos; [apply Rmult_le_pos|];
      try assumption; left; apply Rinv_0_lt_compat; assumption.
Qed.

(** X27: on every input the simulator's [calculatePValue] returns a number
    between 0 and 1 or NaN: never a negative number, a number above 1 or an
    infinity. *)
Theorem calculatePValue_range (conversionsA visitorsA conversionsB visitorsB : num) :
  match Simulator.calculatePValue conversionsA visitorsA conversionsB visitorsB with
  | Fin p => (0 <= p <= 1)%R
  | NaN => True
  | _ => False
  end.
Proof.
  unfold Simulator.calculatePValue. cbv zeta.
  destruct (Math.sqrt _ === Fin 0) eqn:Hse; [lra|].
  apply erfcApprox_range. apply (score_sign _ _ Hse).
Qed.



End SimulatorFacts.

(* ================================================================= *)
(** * PowerAnalysisCalculator: the range of the power *)

Section PowerRange.
Import JS.

(** X29: on every input [calculatePower] returns a number between 0 and 100
    or NaN; it is never infinite and never negative. *)
Theorem calculatePower_range (st : PowerAnalysis.State) (n effect alpha : num) :
  match PowerAnalysis.calculatePower st n effect alpha with
  | Fin w => (0 <= w <= 100)%R
  | NaN => True
  | _ => False
  end.
Proof.
  unfold PowerAnalysis.calculatePower. cbv zeta.
  set (z := _ / Math.sqrt _).
  change (PowerAnalysis.normalCDF z) with (Stats.normalCDF z).
  destruct z as [r| | |].
  - destruct (normalCDF_finite r) as (c & -> & Hc). cbn [JS.mul].
    destruct Hc as [[_ Hc] | [_ Hc]]; lra.
  - rewrite normalCDF_PInf. cbn [JS.mul]. lra.
  - rewrite normalCDF_NInf. cbn [JS.mul]. lra.
  - exact I.
Qed.

End PowerRange.

(* ================================================================= *)
(** * Bisection: the ends of the search *)

Section BisectionEnds.
Import JS.
Variable st : PowerAnalysis.State.
Variables n targetPower alpha : num.

Lemma loop_cond_wide (a b : R) (k : nat) :
  (0.1 < b - a)%R -> (k < 50)%nat ->
  PowerAnalysis.loop_cond
    {| PowerAnalysis.minEffect := Fin a; PowerAnalysis.maxEffect := Fin b;
       PowerAnalysis.iterations := k |} = true.
Proof.
  intros Hw Hk. unfold PowerAnalysis.loop_cond.
  cbn [PowerAnalysis.minEffect PowerAnalysis.maxEffect PowerAnalysis.iterations
       JS.sub JS.neg JS.add].
  rewrite (proj2 (gt_Fin _ _)) by lra.
  apply Nat.ltb_lt in Hk. unfold PowerAnalysis.maxIterations. rewrite Hk. reflexivity.
Qed.

Lemma loop_cond_narrow (a b : R) (k : nat) :
  (b - a <= 0.1)%R ->
  PowerAnalysis.loop_cond
    {| PowerAnalysis.minEffect := Fin a; PowerAnalysis.maxEffect := Fin b;
       PowerAnalysis.iterations := k |} = false.
Proof.
  intros Hw. unfold PowerAnalysis.loop_cond.
  cbn [PowerAnalysis.minEffect PowerAnalysis.maxEffect PowerAnalysis.iterations
       JS.sub JS.neg JS.add].
  destruct (Fin (b + - a) >? Fin 0.1) eqn:E; [|reflexivity].
  apply gt_Fin in E. lra.
Qed.

(** One turn of the loop when the power at the midpoint is not below the
    target: the upper end moves to the midpoint. *)
Lemma step_upper (a w : R) (k : nat) :
  (forall e : R, (1 <= e <= 100)%R ->
     (PowerAnalysis.calculatePower st n (Fin e) alpha <? targetPower) = false) ->
  (1 <= a)%R -> (a + w <= 100)%R -> (0.1 < w)%R -> (k < 50)%nat ->
  PowerAnalysis.while_loop st n targetPower alpha
    {| PowerAnalysis.minEffect := Fin a; PowerAnalysis.maxEffect := Fin (a + w);
       PowerAnalysis.iterations := k |}
  = PowerAnalysis.while_loop st n targetPower alpha
      {| PowerAnalysis.minEffect := Fin a; PowerAnalysis.maxEffect := Fin (a + w / 2);
         PowerAnalysis.iterations := S k |}.
Proof.
  intros Hp Ha Hb Hw Hk.
  match goal with |- PowerAnalysis.while_loop _ _ _ _ ?s = _ =>
    rewrite (while_loop_unfold st n targetPower alpha s) end.
  rewrite loop_cond_wide by (lra || exact Hk).
  unfold PowerAnalysis.loop_body.
  cbn [PowerAnalysis.minEffect PowerAnalysis.maxEffect PowerAnalysis.iterations JS.add].
  rewrite div_Fin by lra. rewrite Hp by lra. do 3 f_equal. lra.
Qed.

(** One turn of the loop when the power at the midpoint is below the target:
    the lower end moves to the midpoint. *)
Lemma step_lower (b w : R) (k : nat) :
  (forall e : R, (1 <= e <= 100)%R ->
     (PowerAnalysis.calculatePower st n (Fin e) alpha <? targetPower) = true) ->
  (1 <= b - w)%R -> (b <= 100)%R -> (0.1 < w)%R -> (k < 50)%nat ->
  PowerAnalysis.while_loop st n targetPower alpha
    {| PowerAnalysis.minEffect := Fin (b - w); PowerAnalysis.maxEffect := Fin b;
       PowerAnalysis.iterations := k |}
  = PowerAnalysis.while_loop st n targetPower alpha
      {| PowerAnalysis.minEffect := Fin (b - w / 2); PowerAnalysis.maxEffect := Fin b;
         PowerAnalysis.iterations := S k |}.
Proof.
  intros Hp Ha Hb Hw Hk.
  match goal with |- PowerAnalysis.while_loop _ _ _ _ ?s = _ =>
    rewrite (while_loop_unfold st n targetPower alpha s) end.
  rewrite loop_cond_wide by (lra || exact Hk).
  unfold PowerAnalysis.loop_body.
  cbn [PowerAnalysis.minEffect PowerAnalysis.maxEffect PowerAnalysis.iterations JS.add].
  rewrite div_Fin by lra. rewrite Hp by lra. do 3 f_equal. lra.
Qed.

(** X30: when the comparison of the power with the target gives the same
    answer at every effect from 1 to 100, the search runs to one end of its
    range: it returns 100 - 99/2048 when the power is always below the
    target, as with a target above 100, and 1 + 99/2048 when it never is,
    as with a NaN target. *)
Theorem calculateMinimumEffect_one_sided (below : bool) :
  (forall e : R, (1 <= e <= 100)%R ->
     (PowerAnalysis.calculatePower st n (Fin e) alpha <? targetPower) = below) ->
  PowerAnalysis.calculateMinimumEffect st n targetPower alpha
  = if below then Fin (100 - 99 / 2048) else Fin (1 + 99 / 2048).
Proof.
  intros Hp. unfold PowerAnalysis.calculateMinimumEffect. cbv zeta. destruct below.
  - replace (Fin 1) with (Fin (100 - 99)) by (f_equal; lra).
    do 10 (rewrite step_lower by (exact Hp || lra || lia)).
    match goal with |- context [PowerAnalysis.while_loop _ _ _ _ ?s] =>
      rewrite (while_loop_unfold st n targetPower alpha s) end.
    rewrite loop_cond_narrow by lra.
    cbn [PowerAnalysis.minEffect PowerAnalysis.maxEffect JS.add].
    rewrite div_Fin by lra. f_equal. lra.
  - replace (Fin 100) with (Fin (1 + 99)) by (f_equal; lra).
    do 10 (rewrite step_upper by (exact Hp || lra || lia)).
    match goal with |- context [PowerAnalysis.while_loop _ _ _ _ ?s] =>
      rewrite (while_loop_unfold st n targetPower alpha s) end.
    rewrite loop_cond_narrow by lra.
    cbn [PowerAnalysis.minEffect PowerAnalysis.maxEffect JS.add].
    rewrite div_Fin by lra. f_equal. lra.
Qed.

End BisectionEnds.

Section BisectionWitnesses.
Import JS.

Lemma normalInverse_975 : exists z : R, Stats.normalInverse (Fin 0.975) = Fin z.
Proof.
  unfold Stats.normalInverse. rewrite pHigh_value. unfold Stats.pLow.
  rewrite (lt_Fin_false 0.975 0.02425) by lra.
  rewrite (proj2 (le_Fin 0.975 _)) by lra.
  cbv zeta. cbn [Stats.idx Stats.a Stats.b nth JS.add JS.mul JS.sub JS.neg].
  rewrite div_Fin by lra. eexists. reflexivity.
Qed.

(** At the component's defaults, with 1000 users and alpha 0.05, the power of
    every effect from 1 to 100 is a number below 101. *)
Lemma default_power_below_101 (e : R) :
  (1 <= e <= 100)%R ->
  (PowerAnalysis.calculatePower Cases.solver_defaults (Fin 1000) (Fin e) (Fin 0.05)
   <? Fin 101) = true.
Proof.
  intros He. unfold PowerAnalysis.calculatePower. cbv zeta.
  cbn [Cases.solver_defaults PowerAnalysis.baselineRate PowerAnalysis.testType
       String.eqb Ascii.eqb Bool.eqb].
  change PowerAnalysis.normalInverse with Stats.normalInverse.
  replace (Fin 1 - Fin 0.05 / Fin 2) with (Fin 0.975)
    by (rewrite div_Fin by lra; cbn [JS.sub JS.neg JS.add]; f_equal; lra).
  destruct normalInverse_975 as [za ->].
  rewrite !div_Fin by lra. cbn [JS.add JS.mul JS.sub JS.neg].
  rewrite !div_Fin by lra. cbn [JS.add JS.mul JS.sub JS.neg Math.abs].
  set (p1 := (5 / 100)%R). set (p2 := (p1 * (1 + e / 100))%R).
  assert (Hp2 : (0.05 <= p2 <= 0.1)%R) by (unfold p2, p1; lra).
  assert (Hp1 : p1 = 0.05%R) by (unfold p1; lra).
  rewrite (sqrt_Fin ((p1 + p2) / 2 * (1 + - ((p1 + p2) / 2)) * (2 / 1000))) by nra.
  cbn [JS.mul JS.add JS.neg].
  rewrite (sqrt_Fin ((p1 * (1 + - p1) + p2 * (1 + - p2)) / 1000)) by nra.
  assert (Hs : (0 < sqrt ((p1 * (1 + - p1) + p2 * (1 + - p2)) / 1000))%R)
    by (apply sqrt_lt_R0; nra).
  rewrite div_Fin by lra.
  change (PowerAnalysis.normalCDF ?z) with (Stats.normalCDF z).
  match goal with |- context [Stats.normalCDF (Fin ?z)] =>
    destruct (normalCDF_finite z) as (c & -> & Hc) end.
  cbn [JS.mul]. apply lt_Fin. destruct Hc as [[_ Hc] | [_ Hc]]; lra.
Qed.

Lemma calculateMinimumEffect_one_sided_witness :
  PowerAnalysis.calculateMinimumEffect Cases.solver_defaults (Fin 1000) NaN (Fin 0.05)
  = Fin (1 + 99 / 2048) /\
  PowerAnalysis.calculateMinimumEffect Cases.solver_defaults (Fin 1000) (Fin 101) (Fin 0.05)
  = Fin (100 - 99 / 2048).
Proof.
  split.
  - apply (calculateMinimumEffect_one_sided Cases.solver_defaults (Fin 1000) NaN (Fin 0.05)
             false).
    intros e _.
    destruct (PowerAnalysis.calculatePower Cases.solver_defaults (Fin 1000) (Fin e)
                (Fin 0.05));
      reflexivity.
  - apply (calculateMinimumEffect_one_sided Cases.solver_defaults (Fin 1000) (Fin 101)
             (Fin 0.05) true).
    exact default_power_below_101.
Defined.

End BisectionWitnesses.
